(** * microut: the execution engine of [microut.h]

    A shallow embedding of the assertion macro [UT_ASSERT], of the inspection
    macros [UT_IS_TEST_*] / [UT_IS_TEST_SUITE_*] and of the runner
    [__ut_run_test_suite], followed by the properties of the engine.

    Conventions of the embedding.
    - [unsigned int] has 32 bits: it is a [Z] in [0, UINT_MAX], and [x++] is
      [uint_succ x], which wraps to [0] after [UINT_MAX].
    - A [const char *] that may be [NULL] is an [option string]; a function
      pointer that may be [NULL] is an [option] of a function body.
    - The functions the user writes with [UT_TEST], [UT_STARTUP], ... are not
      part of the header.  Such a function is a sequence of statements, each
      either [UT_ASSERT(assertion, message)] or a statement that acts on the
      state [G] of the user's program; the condition of an assertion is read
      in that state when the assertion is reached.
    - The observer macros [UT_ON_*] come from [config.h]; they are pure
      reporting points and are recorded as events of an output trace.  The
      trace also records every call made through a function pointer. *)

From Stdlib Require Import ZArith String List Bool Lia.
Import ListNotations.
Open Scope Z_scope.

(** ** Machine integers *)

Definition UINT_MAX : Z := 4294967295.

(** [x++] on an [unsigned int]. *)
Definition uint_succ (x : Z) : Z := (x + 1) mod (UINT_MAX + 1).

(** ** Descriptors

    [UT_ASSERT] and the runner reach [started], [performed_count] and
    [successed_count] through a pointer named [desc] to either of the two
    structures; the class gives both structures these fields. *)

Class Descriptor (D : Type) : Type := {
  started : D -> bool;
  performed_count : D -> Z;
  successed_count : D -> Z;
  set_started : bool -> D -> D;
  set_performed_count : Z -> D -> D;
  set_successed_count : Z -> D -> D;
  started_set_started : forall b d, started (set_started b d) = b;
  started_set_performed : forall n d, started (set_performed_count n d) = started d;
  started_set_successed : forall n d, started (set_successed_count n d) = started d;
  performed_set_started : forall b d, performed_count (set_started b d) = performed_count d;
  performed_set_performed : forall n d, performed_count (set_performed_count n d) = n;
  performed_set_successed : forall n d, performed_count (set_successed_count n d) = performed_count d;
  successed_set_started : forall b d, successed_count (set_started b d) = successed_count d;
  successed_set_performed : forall n d, successed_count (set_performed_count n d) = successed_count d;
  successed_set_successed : forall n d, successed_count (set_successed_count n d) = n
}.

(** ** The output trace *)

(** The descriptor a [desc] pointer refers to: the suite's, or entry [i] of
    the suite's array of test descriptors. *)
Inductive desc_ref : Type :=
| SuiteDesc
| TestDesc (i : Z).

(** The function pointers the runner calls. *)
Inductive callee : Type :=
| Startup
| Teardown
| BeforeEach (i : Z)
| TestFunc (i : Z)
| AfterEach (i : Z).

Inductive event : Type :=
| Call (f : callee)
| UT_ON_SUCCESSFUL_ASSERT (desc : desc_ref) (message : string)
| UT_ON_FAILED_ASSERT (desc : desc_ref) (message : string)
| UT_ON_SUCCESSFUL_TEST (test_desc : Z)
| UT_ON_FAILED_TEST (test_desc : Z).

Definition callee_eqb (f f' : callee) : bool :=
  match f, f' with
  | Startup, Startup | Teardown, Teardown => true
  | BeforeEach i, BeforeEach j
  | TestFunc i, TestFunc j
  | AfterEach i, AfterEach j => i =? j
  | _, _ => false
  end.

(** The calls of a trace, in order. *)
Fixpoint calls (out : list event) : list callee :=
  match out with
  | [] => []
  | Call f :: out => f :: calls out
  | _ :: out => calls out
  end.

(** How often a function was called. *)
Definition count_calls (f : callee) (out : list event) : nat :=
  length (filter (callee_eqb f) (calls out)).

Definition is_failed_assert (e : event) : bool :=
  match e with UT_ON_FAILED_ASSERT _ _ => true | _ => false end.

Definition is_test_observer (e : event) : bool :=
  match e with
  | UT_ON_SUCCESSFUL_TEST _ | UT_ON_FAILED_TEST _ => true
  | _ => false
  end.

(** ** UT_ASSERT *)

(** What the macro does to the control flow of the enclosing function. *)
Inductive control : Type :=
| Continue
| Return.

(** [UT_ASSERT(assertion, message)] on the descriptor [desc] points to;
    [assertion] is the value the condition has. *)
Definition UT_ASSERT {D : Type} `{Descriptor D}
    (self : desc_ref) (assertion : bool) (message : string) (desc : D)
  : control * D * list event :=
  let desc := set_performed_count (uint_succ (performed_count desc)) desc in
  if assertion then
    let desc := set_successed_count (uint_succ (successed_count desc)) desc in
    (Continue, desc, [UT_ON_SUCCESSFUL_ASSERT self message])
  else
    (Return, desc, [UT_ON_FAILED_ASSERT self message]).

Section Engine.

Context {G : Type}.

(** ** The user's functions *)

Inductive statement : Type :=
| Assert (assertion : G -> bool) (message : string)
| Exec (effect : G -> G).

Definition UT_FAIL (message : string) : statement :=
  Assert (fun _ => false) message.

Definition __ut_test_func : Type := list statement.
Definition __ut_test_suite_func : Type := list statement.

(** A call of a user's function with [desc] pointing to the descriptor
    [self] names. *)
Fixpoint call {D : Type} `{Descriptor D}
    (self : desc_ref) (body : list statement) (desc : D) (g : G)
  : D * G * list event :=
  match body with
  | [] => (desc, g, [])
  | Exec effect :: body => call self body desc (effect g)
  | Assert assertion message :: body =>
      match UT_ASSERT self (assertion g) message desc with
      | (Continue, desc, out) =>
          let '(desc, g, out') := call self body desc g in
          (desc, g, out ++ out')
      | (Return, desc, out) => (desc, g, out)
      end
  end.

(** ** The two structures *)

Record __ut_test_desc : Type := {
  test_name : option string;
  test_description : option string;
  file : string;
  line : Z;
  func : option __ut_test_func;
  test_started : bool;
  test_performed_count : Z;
  test_successed_count : Z
}.

Record __ut_test_suite_desc : Type := {
  suite_name : string;
  suite_description : string;
  startup : __ut_test_suite_func;
  teardown : __ut_test_suite_func;
  before_each : __ut_test_func;
  after_each : __ut_test_func;
  test_descs : list __ut_test_desc;
  suite_started : bool;
  suite_performed_count : Z;
  suite_successed_count : Z
}.

#[export, refine] Instance test_descriptor : Descriptor __ut_test_desc := {
  started := test_started;
  performed_count := test_performed_count;
  successed_count := test_successed_count;
  set_started b d :=
    {| test_name := test_name d; test_description := test_description d;
       file := file d; line := line d; func := func d;
       test_started := b;
       test_performed_count := test_performed_count d;
       test_successed_count := test_successed_count d |};
  set_performed_count n d :=
    {| test_name := test_name d; test_description := test_description d;
       file := file d; line := line d; func := func d;
       test_started := test_started d;
       test_performed_count := n;
       test_successed_count := test_successed_count d |};
  set_successed_count n d :=
    {| test_name := test_name d; test_description := test_description d;
       file := file d; line := line d; func := func d;
       test_started := test_started d;
       test_performed_count := test_performed_count d;
       test_successed_count := n |}
}.
Proof. all: reflexivity. Defined.

#[export, refine] Instance suite_descriptor : Descriptor __ut_test_suite_desc := {
  started := suite_started;
  performed_count := suite_performed_count;
  successed_count := suite_successed_count;
  set_started b d :=
    {| suite_name := suite_name d; suite_description := suite_description d;
       startup := startup d; teardown := teardown d;
       before_each := before_each d; after_each := after_each d;
       test_descs := test_descs d;
       suite_started := b;
       suite_performed_count := suite_performed_count d;
       suite_successed_count := suite_successed_count d |};
  set_performed_count n d :=
    {| suite_name := suite_name d; suite_description := suite_description d;
       startup := startup d; teardown := teardown d;
       before_each := before_each d; after_each := after_each d;
       test_descs := test_descs d;
       suite_started := suite_started d;
       suite_performed_count := n;
       suite_successed_count := suite_successed_count d |};
  set_successed_count n d :=
    {| suite_name := suite_name d; suite_description := suite_description d;
       startup := startup d; teardown := teardown d;
       before_each := before_each d; after_each := after_each d;
       test_descs := test_descs d;
       suite_started := suite_started d;
       suite_performed_count := suite_performed_count d;
       suite_successed_count := n |}
}.
Proof. all: reflexivity. Defined.

(** The array [test_descs] points to is an object of its own; the runner
    writes it back when the loop over it is done. *)
Definition set_test_descs (descs : list __ut_test_desc)
    (d : __ut_test_suite_desc) : __ut_test_suite_desc :=
  {| suite_name := suite_name d; suite_description := suite_description d;
     startup := startup d; teardown := teardown d;
     before_each := before_each d; after_each := after_each d;
     test_descs := descs;
     suite_started := suite_started d;
     suite_performed_count := suite_performed_count d;
     suite_successed_count := suite_successed_count d |}.

(** [UT_ADD_TEST] and [UT_TEST_SUITE_END]. *)
Definition UT_ADD_TEST (name description file_ : string) (line_ : Z)
    (body : __ut_test_func) : __ut_test_desc :=
  {| test_name := Some name; test_description := Some description;
     file := file_; line := line_; func := Some body;
     test_started := false; test_performed_count := 0;
     test_successed_count := 0 |}.

Definition UT_TEST_SUITE_END (file_ : string) (line_ : Z) : __ut_test_desc :=
  {| test_name := None; test_description := None;
     file := file_; line := line_; func := None;
     test_started := false; test_performed_count := 0;
     test_successed_count := 0 |}.

(** [UT_DECLARE_TEST_SUITE], with the functions [UT_STARTUP], [UT_TEARDOWN],
    [UT_BEFORE_EACH] and [UT_AFTER_EACH] define for the suite. *)
Definition UT_DECLARE_TEST_SUITE (name description : string)
    (startup_ teardown_ : __ut_test_suite_func)
    (before_each_ after_each_ : __ut_test_func)
    (descs : list __ut_test_desc) : __ut_test_suite_desc :=
  {| suite_name := name; suite_description := description;
     startup := startup_; teardown := teardown_;
     before_each := before_each_; after_each := after_each_;
     test_descs := descs;
     suite_started := false; suite_performed_count := 0;
     suite_successed_count := 0 |}.

(** ** Inspection macros *)

Definition UT_IS_TEST_STARTED (test_desc : __ut_test_desc) : bool :=
  started test_desc.

Definition UT_IS_TEST_SKIPPED (test_desc : __ut_test_desc) : bool :=
  negb (UT_IS_TEST_STARTED test_desc).

Definition UT_IS_TEST_SUCCESSED (test_desc : __ut_test_desc) : bool :=
  UT_IS_TEST_STARTED test_desc
  && (performed_count test_desc =? successed_count test_desc).

Definition UT_IS_TEST_FAILED (test_desc : __ut_test_desc) : bool :=
  negb (UT_IS_TEST_SUCCESSED test_desc).

Definition UT_IS_TEST_SUITE_STARTED (test_suite_desc : __ut_test_suite_desc)
  : bool :=
  started test_suite_desc.

Definition UT_IS_TEST_SUITE_SKIPPED (test_suite_desc : __ut_test_suite_desc)
  : bool :=
  negb (UT_IS_TEST_SUITE_STARTED test_suite_desc).

Definition UT_IS_TEST_SUITE_SUCCESSED (test_suite_desc : __ut_test_suite_desc)
  : bool :=
  UT_IS_TEST_SUITE_STARTED test_suite_desc
  && (performed_count test_suite_desc =? successed_count test_suite_desc).

Definition UT_IS_TEST_SUITE_FAILED (test_suite_desc : __ut_test_suite_desc)
  : bool :=
  negb (UT_IS_TEST_SUITE_SUCCESSED test_suite_desc).

(** ** The runner *)

(** The head of the function: the suite is declared started. *)
Definition start_suite (test_suite_desc : __ut_test_suite_desc)
  : __ut_test_suite_desc :=
  let test_suite_desc := set_started true test_suite_desc in
  set_successed_count 0 (set_performed_count 0 test_suite_desc).

(** The run of the suite up to the return of [startup]. *)
Definition run_startup (test_suite_desc : __ut_test_suite_desc) (g : G)
  : __ut_test_suite_desc * G * list event :=
  let test_suite_desc := start_suite test_suite_desc in
  let '(test_suite_desc, g, out) :=
    call SuiteDesc (startup test_suite_desc) test_suite_desc g in
  (test_suite_desc, g, Call Startup :: out).

(** The head of the loop body: the test is declared started, in itself and
    in the suite. *)
Definition start_test (test_desc : __ut_test_desc) : __ut_test_desc :=
  let test_desc := set_started true test_desc in
  set_successed_count 0 (set_performed_count 0 test_desc).

(** One turn of the loop, for entry [i] of the array, whose [func] is
    [body]. *)
Definition run_test (test_suite_desc : __ut_test_suite_desc) (i : Z)
    (test_desc : __ut_test_desc) (body : __ut_test_func) (g : G)
  : __ut_test_suite_desc * __ut_test_desc * G * list event :=
  let test_desc := start_test test_desc in
  let test_suite_desc :=
    set_performed_count (uint_succ (performed_count test_suite_desc))
      test_suite_desc in
  let '(test_desc, g, out1) :=
    call (TestDesc i) (before_each test_suite_desc) test_desc g in
  let '(test_desc, g, out2) :=
    if UT_IS_TEST_SUCCESSED test_desc then
      let '(test_desc, g, out) := call (TestDesc i) body test_desc g in
      (test_desc, g, Call (TestFunc i) :: out)
    else (test_desc, g, []) in
  let '(test_desc, g, out3) :=
    call (TestDesc i) (after_each test_suite_desc) test_desc g in
  let out := Call (BeforeEach i) :: out1 ++ out2 ++ Call (AfterEach i) :: out3 in
  if UT_IS_TEST_SUCCESSED test_desc then
    (set_successed_count (uint_succ (successed_count test_suite_desc))
       test_suite_desc,
     test_desc, g, out ++ [UT_ON_SUCCESSFUL_TEST i])
  else
    (test_suite_desc, test_desc, g, out ++ [UT_ON_FAILED_TEST i]).

(** The loop, entered at index [i] with [descs] the array from entry [i] on.
    It gives the suite's structure, the array from entry [i] on, the user's
    state and the output as the loop leaves them.  There is no result when
    the array has no entry with a null [func] (the loop reads past the
    array), and none when entry [UINT_MAX] is a test: [++i] wraps to [0] and
    the loop never ends. *)
Fixpoint run_tests (test_suite_desc : __ut_test_suite_desc) (i : Z)
    (descs : list __ut_test_desc) (g : G)
  : option (__ut_test_suite_desc * list __ut_test_desc * G * list event) :=
  match descs with
  | [] => None
  | test_desc :: rest =>
      match func test_desc with
      | None => Some (test_suite_desc, descs, g, [])
      | Some body =>
          let '(test_suite_desc, test_desc, g, out) :=
            run_test test_suite_desc i test_desc body g in
          if i =? UINT_MAX then None
          else
            match run_tests test_suite_desc (i + 1) rest g with
            | None => None
            | Some (test_suite_desc, rest, g, out') =>
                Some (test_suite_desc, test_desc :: rest, g, out ++ out')
            end
      end
  end.

(** [__ut_run_test_suite]: the verdict, the suite's structure with its
    array, the user's state and the output when the function returns. *)
Definition __ut_run_test_suite (test_suite_desc : __ut_test_suite_desc) (g : G)
  : option (bool * __ut_test_suite_desc * G * list event) :=
  let '(test_suite_desc, g, out1) := run_startup test_suite_desc g in
  if negb (UT_IS_TEST_SUITE_SUCCESSED test_suite_desc) then
    Some (false, test_suite_desc, g, out1)
  else
    match run_tests test_suite_desc 0 (test_descs test_suite_desc) g with
    | None => None
    | Some (test_suite_desc, descs, g, out2) =>
        let test_suite_desc := set_test_descs descs test_suite_desc in
        let '(test_suite_desc, g, out3) :=
          call SuiteDesc (teardown test_suite_desc) test_suite_desc g in
        Some (UT_IS_TEST_SUITE_SUCCESSED test_suite_desc,
              test_suite_desc, g, out1 ++ out2 ++ Call Teardown :: out3)
    end.

(** ** Vocabulary of the properties *)

(** The number of [UT_ASSERT] statements of a function. *)
Fixpoint asserts (body : list statement) : nat :=
  match body with
  | [] => 0
  | Assert _ _ :: body => S (asserts body)
  | Exec _ :: body => asserts body
  end.

(** Whether a call of [body] in state [g] ends in a failed assertion. *)
Fixpoint fails (body : list statement) (g : G) : bool :=
  match body with
  | [] => false
  | Exec effect :: body => fails body (effect g)
  | Assert assertion _ :: body =>
      if assertion g then fails body g else true
  end.

(** The number of assertions a call of [body] in state [g] performs. *)
Fixpoint performed_by (body : list statement) (g : G) : nat :=
  match body with
  | [] => 0
  | Exec effect :: body => performed_by body (effect g)
  | Assert assertion _ :: body =>
      if assertion g then S (performed_by body g) else 1
  end.

(** The number of those that hold. *)
Definition successed_by (body : list statement) (g : G) : nat :=
  (performed_by body g - (if fails body g then 1 else 0))%nat.

(** The tests of an array: its entries before the first one with a null
    [func]. *)
Fixpoint declared (descs : list __ut_test_desc) : list __ut_test_desc :=
  match descs with
  | [] => []
  | test_desc :: rest =>
      match func test_desc with
      | None => []
      | Some _ => test_desc :: declared rest
      end
  end.

(** Whether the array has an entry with a null [func]. *)
Fixpoint terminated (descs : list __ut_test_desc) : bool :=
  match descs with
  | [] => false
  | test_desc :: rest =>
      match func test_desc with
      | None => true
      | Some _ => terminated rest
      end
  end.

(** The array of a suite ends in [UT_TEST_SUITE_END], at an index an
    [unsigned int] reaches. *)
Definition well_formed (test_suite_desc : __ut_test_suite_desc) : Prop :=
  terminated (test_descs test_suite_desc) = true
  /\ Z.of_nat (length (declared (test_descs test_suite_desc))) <= UINT_MAX.

(** The state in which the loop, entered as for [run_tests], begins its
    turn number [k] (from [0]): the suite's structure, the entry of the
    array the turn is for, and the user's state. *)
Fixpoint reach (test_suite_desc : __ut_test_suite_desc) (i : Z)
    (descs : list __ut_test_desc) (g : G) (k : nat)
  : option (__ut_test_suite_desc * __ut_test_desc * G) :=
  match descs with
  | [] => None
  | test_desc :: rest =>
      match func test_desc with
      | None => None
      | Some body =>
          match k with
          | O => Some (test_suite_desc, test_desc, g)
          | S k =>
              let '(test_suite_desc, _, g, _) :=
                run_test test_suite_desc i test_desc body g in
              if i =? UINT_MAX then None
              else reach test_suite_desc (i + 1) rest g k
          end
      end
  end.

(** The loop as a relation between the state it is entered in and the
    state it is left in, one rule per way through its body. *)
Inductive loop : __ut_test_suite_desc -> Z -> list __ut_test_desc -> G ->
    __ut_test_suite_desc -> list __ut_test_desc -> G -> list event -> Prop :=
| loop_end sd i td rest g :
    func td = None ->
    loop sd i (td :: rest) g sd (td :: rest) g []
| loop_turn sd i td rest g body sd1 td1 g1 out1 sd2 rest2 g2 out2 :
    func td = Some body ->
    run_test sd i td body g = (sd1, td1, g1, out1) ->
    i <> UINT_MAX ->
    loop sd1 (i + 1) rest g1 sd2 rest2 g2 out2 ->
    loop sd i (td :: rest) g sd2 (td1 :: rest2) g2 (out1 ++ out2).

(** Whether [startup] leaves the suite successful, so that the run goes on
    to the tests. *)
Definition startup_passes (test_suite_desc : __ut_test_suite_desc) (g : G)
  : bool :=
  let '(test_suite_desc, _, _) := run_startup test_suite_desc g in
  UT_IS_TEST_SUITE_SUCCESSED test_suite_desc.

(** The state in which a run of the suite begins turn number [k] of its
    loop, if it does. *)
Definition at_test (test_suite_desc : __ut_test_suite_desc) (g : G) (k : nat)
  : option (__ut_test_suite_desc * __ut_test_desc * G) :=
  let '(test_suite_desc, g, _) := run_startup test_suite_desc g in
  if negb (UT_IS_TEST_SUITE_SUCCESSED test_suite_desc) then None
  else reach test_suite_desc 0 (test_descs test_suite_desc) g k.

(** [successed_count <= performed_count], both in the range of the type. *)
Definition counters_ok {D : Type} `{Descriptor D} (d : D) : Prop :=
  0 <= successed_count d <= performed_count d /\ performed_count d <= UINT_MAX.

(** No counter of a run can wrap: the suite's counts the assertions of
    [startup] and [teardown] and the tests, a test's the assertions of
    [before_each], of its [func] and of [after_each]. *)
Definition test_fits (test_suite_desc : __ut_test_suite_desc)
    (test_desc : __ut_test_desc) : Prop :=
  Z.of_nat (asserts (before_each test_suite_desc)
            + match func test_desc with Some body => asserts body | None => 0 end
            + asserts (after_each test_suite_desc)) <= UINT_MAX.

Definition counters_fit (test_suite_desc : __ut_test_suite_desc) : Prop :=
  Z.of_nat (asserts (startup test_suite_desc)
            + length (declared (test_descs test_suite_desc))
            + asserts (teardown test_suite_desc)) <= UINT_MAX
  /\ Forall (test_fits test_suite_desc) (declared (test_descs test_suite_desc)).

End Engine.

Arguments statement : clear implicits.
Arguments __ut_test_func : clear implicits.
Arguments __ut_test_suite_func : clear implicits.
Arguments __ut_test_desc : clear implicits.
Arguments __ut_test_suite_desc : clear implicits.

(** ** Reading a trace *)

Definition desc_ref_eqb (r r' : desc_ref) : bool :=
  match r, r' with
  | SuiteDesc, SuiteDesc => true
  | TestDesc i, TestDesc j => i =? j
  | _, _ => false
  end.

(** The assertions performed on the descriptor [r]. *)
Definition is_assert_on (r : desc_ref) (e : event) : bool :=
  match e with
  | UT_ON_SUCCESSFUL_ASSERT r' _ | UT_ON_FAILED_ASSERT r' _ => desc_ref_eqb r r'
  | _ => false
  end.

Definition asserts_on (r : desc_ref) (out : list event) : nat :=
  length (filter (is_assert_on r) out).

(** The failed ones among them. *)
Definition is_failure_on (r : desc_ref) (e : event) : bool :=
  match e with
  | UT_ON_FAILED_ASSERT r' _ => desc_ref_eqb r r'
  | _ => false
  end.

Definition failures_on (r : desc_ref) (out : list event) : nat :=
  length (filter (is_failure_on r) out).

(** The tests attempted, in the order of their [before_each] calls. *)
Fixpoint attempts (out : list event) : list Z :=
  match out with
  | [] => []
  | Call (BeforeEach i) :: out => i :: attempts out
  | _ :: out => attempts out
  end.

(** The indices [i, i + 1, ..., i + n - 1]. *)
Fixpoint indices (i : Z) (n : nat) : list Z :=
  match n with
  | O => []
  | S n => i :: indices (i + 1) n
  end.

(** [1] for the indices [i, ..., i + n - 1] and [0] for the others. *)
Definition once_in (i : Z) (n : nat) (j : Z) : nat :=
  if (i <=? j) && (j <? i + Z.of_nat n) then 1%nat else 0%nat.

(** The events of an assertion on the descriptor [self]. *)
Definition assert_event (self : desc_ref) (e : event) : Prop :=
  exists m, e = UT_ON_SUCCESSFUL_ASSERT self m \/ e = UT_ON_FAILED_ASSERT self m.

(** ** What a run shows of its tests *)

(** What [UT_ADD_TEST] or [UT_TEST_SUITE_END] gave a test's structure:
    everything but [started] and the two counters. *)
Definition same_declaration {G : Type} (td td' : __ut_test_desc G) : Prop :=
  test_name td' = test_name td
  /\ test_description td' = test_description td
  /\ file td' = file td
  /\ line td' = line td
  /\ func td' = func td.

(** The observer the runner fires for entry [i] when its turn ends with the
    structure [td]. *)
Definition test_observer {G : Type} (i : Z) (td : __ut_test_desc G) : event :=
  if UT_IS_TEST_SUCCESSED td then UT_ON_SUCCESSFUL_TEST i
  else UT_ON_FAILED_TEST i.

(** The observers for the entries [i, i + 1, ...] that end as [descs]. *)
Fixpoint test_observers {G : Type} (i : Z) (descs : list (__ut_test_desc G))
  : list event :=
  match descs with
  | [] => []
  | td :: descs => test_observer i td :: test_observers (i + 1) descs
  end.

(** The calls of the turns for the entries [i, i + 1, ...], where [ran]
    tells for each whether the test's function is called. *)
Fixpoint turns (i : Z) (ran : list bool) : list callee :=
  match ran with
  | [] => []
  | b :: ran =>
      (BeforeEach i :: (if b then [TestFunc i] else []) ++ [AfterEach i])
      ++ turns (i + 1) ran
  end.

(** The failed assertions of an output, on whatever structure. *)
Definition failed_asserts (out : list event) : nat :=
  length (filter is_failed_assert out).

(** ** The typed equality assertions

    [UT_DECIMAL_EQUALS], [UT_UNSIGNED_HEXADECIMAL_EQUALS] and
    [UT_CHAR_EQUALS] write a message into [char __ut_buf[UT_BUFFER_SIZE]]
    with [sprintf] and hand it to [UT_ASSERT] with the condition
    [expected == actual].  [UT_BUFFER_SIZE] comes from [config.h] and is an
    argument here.  The arguments [actual] and [expected] are expressions
    without side effects, given by their values: [int] for [%d],
    [unsigned int] for [%X], [char] for [%c].  The conversions of [sprintf]
    are those of the C library.  The definitions say what the macros do
    for values in the range of the type the conversion expects, from
    [INT_MIN] to [INT_MAX] for [%d] and from [0] to [UINT_MAX] for [%X]:
    the properties proved of them carry that range.
    ([UT_UNSIGNED_DECIMAL_EQUALS] lacks the brace that opens its [do]
    block and does not expand to a statement.) *)

From Stdlib Require Import Ascii.

Definition INT_MIN : Z := -2147483648.
Definition INT_MAX : Z := 2147483647.

(** The digit [d] of a base up to 16, as [%d] and [%X] write it. *)
Definition digit (d : Z) : ascii :=
  ascii_of_nat (Z.to_nat (if d <? 10 then 48 + d else 55 + d)).

(** The digits of [n] in front of [acc], the last digit first. *)
Fixpoint digits (fuel : nat) (base n : Z) (acc : string) : string :=
  match fuel with
  | O => acc
  | S fuel =>
      let acc := String (digit (n mod base)) acc in
      if n / base =? 0 then acc else digits fuel base (n / base) acc
  end.

(** A 32-bit magnitude has no more than 32 digits. *)
Definition conv_u (base n : Z) : string := digits 32 base n EmptyString.

(** [%d], [%X] and [%c]. *)
Definition conv_d (n : Z) : string :=
  if n <? 0 then String "-" (conv_u 10 (- n)) else conv_u 10 n.

Definition conv_X (n : Z) : string := conv_u 16 n.

Definition conv_c (c : ascii) : string := String c EmptyString.

(** The string a [char *] points to: the characters before the first
    null character. *)
Fixpoint c_str (s : string) : string :=
  match s with
  | EmptyString => EmptyString
  | String c s => if (c =? zero)%char then EmptyString else String c (c_str s)
  end.

(** The characters [sprintf] writes for the format
    ["%s (status equality check failed: expected ?, got ?)"]. *)
Definition equality_text (message expected actual : string) : string :=
  (c_str message ++ " (status equality check failed: expected " ++ expected
   ++ ", got " ++ actual ++ ")")%string.

(** [sprintf] into [__ut_buf]: the characters and the null character after
    them have to fit, or [sprintf] writes past the array and there is no
    result.  The result is the string [__ut_buf] then points to. *)
Definition sprintf (UT_BUFFER_SIZE : Z) (text : string) : option string :=
  if Z.of_nat (String.length text) <? UT_BUFFER_SIZE then Some (c_str text)
  else None.

Definition UT_DECIMAL_EQUALS {D : Type} `{Descriptor D} (UT_BUFFER_SIZE : Z)
    (self : desc_ref) (actual expected : Z) (message : string) (desc : D)
  : option (control * D * list event) :=
  match sprintf UT_BUFFER_SIZE
          (equality_text message (conv_d expected) (conv_d actual)) with
  | None => None
  | Some __ut_buf => Some (UT_ASSERT self (expected =? actual) __ut_buf desc)
  end.

Definition UT_UNSIGNED_HEXADECIMAL_EQUALS {D : Type} `{Descriptor D}
    (UT_BUFFER_SIZE : Z)
    (self : desc_ref) (actual expected : Z) (message : string) (desc : D)
  : option (control * D * list event) :=
  match sprintf UT_BUFFER_SIZE
          (equality_text message (conv_X expected) (conv_X actual)) with
  | None => None
  | Some __ut_buf => Some (UT_ASSERT self (expected =? actual) __ut_buf desc)
  end.

Definition UT_CHAR_EQUALS {D : Type} `{Descriptor D} (UT_BUFFER_SIZE : Z)
    (self : desc_ref) (actual expected : ascii) (message : string) (desc : D)
  : option (control * D * list event) :=
  match sprintf UT_BUFFER_SIZE
          (equality_text message (conv_c expected) (conv_c actual)) with
  | None => None
  | Some __ut_buf =>
      Some (UT_ASSERT self (expected =? actual)%char __ut_buf desc)
  end.

(** Whether a string holds no null character. *)
Fixpoint no_null (s : string) : bool :=
  match s with
  | EmptyString => true
  | String c s => negb (c =? zero)%char && no_null s
  end.

(** ** A run, turn by turn *)

(** The output of the turn for entry [i]: the call of [before_each] and
    its output [outb]; the call of the test's function and its output
    [outf], when [ran]; the call of [after_each] and its output [outa];
    and the observer of the test. *)
Definition turn_out (i : Z) (outb : list event) (ran : bool)
    (outf outa : list event) (observer : event) : list event :=
  Call (BeforeEach i) :: outb
  ++ (if ran then Call (TestFunc i) :: outf else [])
  ++ Call (AfterEach i) :: outa ++ [observer].

(** The suite's structure and the user's state in which a run leaves its
    loop and calls [teardown], if it does. *)
Definition at_teardown {G : Type} (test_suite_desc : __ut_test_suite_desc G)
    (g : G) : option (__ut_test_suite_desc G * G) :=
  let '(test_suite_desc, g, _) := run_startup test_suite_desc g in
  if negb (UT_IS_TEST_SUITE_SUCCESSED test_suite_desc) then None
  else
    match run_tests test_suite_desc 0 (test_descs test_suite_desc) g with
    | None => None
    | Some (test_suite_desc, descs, g, _) =>
        Some (set_test_descs descs test_suite_desc, g)
    end.

(** The user's state in which a run goes on when turn number [k] of its
    loop is over: that in which turn [k + 1] begins or, after the last
    turn, that in which [teardown] is called. *)
Definition after_turn {G : Type} (test_suite_desc : __ut_test_suite_desc G)
    (g : G) (k : nat) : option G :=
  match at_test test_suite_desc g (S k) with
  | Some (_, _, g) => Some g
  | None => option_map snd (at_teardown test_suite_desc g)
  end.

(** ** Functions whose assertions do not read the user's state *)



(** ** Sample suites

    Suites of a program without state of its own; the file names and line
    numbers are those of a test file [t.c]. *)

Definition passing (message : string) : statement unit :=
  Assert (fun _ => true) message.

Definition many_passing (n : nat) : list (statement unit) :=
  repeat (passing "again") n.

Definition the_end : __ut_test_desc unit := UT_TEST_SUITE_END "t.c" 9.

(** A test without assertions of its own, as the head of the loop body
    leaves it. *)
Definition fresh_test : __ut_test_desc unit :=
  start_test (UT_ADD_TEST "fresh" "no assertion" "t.c" 7 []).

(** One passing test, and a [teardown] that fails. *)
Definition teardown_fails : __ut_test_suite_desc unit :=
  UT_DECLARE_TEST_SUITE "teardown_fails" "teardown fails"
    [] [UT_FAIL "teardown"] [] []
    [UT_ADD_TEST "first" "passes" "t.c" 8 [passing "one"]; the_end].

(** No test, and a [startup] with one assertion, which holds. *)
Definition startup_asserts : __ut_test_suite_desc unit :=
  UT_DECLARE_TEST_SUITE "startup_asserts" "startup asserts"
    [passing "ready"] [] [] [] [the_end].

(** One test, which performs [n] assertions that hold and then fails. *)
Definition long_test (n : nat) : __ut_test_suite_desc unit :=
  UT_DECLARE_TEST_SUITE "long_test" "a long test"
    [] [] [] []
    [UT_ADD_TEST "long" "fails at last" "t.c" 8
       (many_passing n ++ [UT_FAIL "last"]);
     the_end].


(** Two tests: the first fails its only assertion before another one, the
    second passes; [before_each] and [after_each] assert as well. *)
Definition two_tests : __ut_test_suite_desc unit :=
  UT_DECLARE_TEST_SUITE "two_tests" "two tests"
    [passing "ready"] [passing "done"] [passing "before"] [passing "after"]
    [UT_ADD_TEST "first" "fails" "t.c" 7 [UT_FAIL "no"; passing "unreached"];
     UT_ADD_TEST "second" "passes" "t.c" 8 [passing "yes"];
     the_end].

(** The same with a [before_each] that fails. *)
Definition before_each_fails : __ut_test_suite_desc unit :=
  UT_DECLARE_TEST_SUITE "before_each_fails" "before_each fails"
    [] [] [UT_FAIL "before"] [passing "after"]
    [UT_ADD_TEST "first" "skipped" "t.c" 7 [passing "unreached"]; the_end].

(** A [startup] that fails. *)
Definition startup_fails : __ut_test_suite_desc unit :=
  UT_DECLARE_TEST_SUITE "startup_fails" "startup fails"
    [passing "ready"; UT_FAIL "startup"] [passing "done"] [] []
    [UT_ADD_TEST "first" "not attempted" "t.c" 8 [passing "yes"]; the_end].

(** What a run leaves, for reading: the verdict, the suite's
    [performed_count] and [successed_count], the [started],
    [performed_count] and [successed_count] of every entry of the array,
    and the output. *)
Definition summary
    (r : option (bool * __ut_test_suite_desc unit * unit * list event))
  : option (bool * Z * Z * list (bool * Z * Z) * list event) :=
  option_map
    (fun r =>
       let '(v, sd, _, out) := r in
       (v, performed_count sd, successed_count sd,
        map (fun td => (started td, performed_count td, successed_count td))
          (test_descs sd),
        out))
    r.

(** ** Sample suites of a program with a state

    The state of [tracked] and [skipping] is a number every function adds
    to: [1] in [before_each], [2] in [after_each], [4] and [8] in the
    test.  The state of [once_only] tells whether [startup] ran before. *)

(** One test, which fails its assertion between two additions. *)
Definition tracked : __ut_test_suite_desc nat :=
  UT_DECLARE_TEST_SUITE "tracked" "every call leaves a trace"
    [] [] [Exec (Nat.add 1)]
    [Exec (Nat.add 2); Assert (fun _ => true) "after"]
    [UT_ADD_TEST "first" "fails" "t.c" 7
       [Exec (Nat.add 4); Assert (fun _ => false) "no"; Exec (Nat.add 8)];
     UT_TEST_SUITE_END "t.c" 9].

(** The same with a [before_each] that fails, and a test that would pass. *)
Definition skipping : __ut_test_suite_desc nat :=
  UT_DECLARE_TEST_SUITE "skipping" "before_each fails"
    [] [] [Exec (Nat.add 1); Assert (fun _ => false) "before"]
    [Exec (Nat.add 2); Assert (fun _ => true) "after"]
    [UT_ADD_TEST "first" "skipped" "t.c" 7
       [Exec (Nat.add 4); Assert (fun _ => true) "unreached"];
     UT_TEST_SUITE_END "t.c" 9].


(** * Properties *)

(** ** Counters *)

Lemma UINT_MAX_pos : 0 < UINT_MAX + 1.
Proof. reflexivity. Qed.

Lemma uint_succ_range (x : Z) : 0 <= uint_succ x <= UINT_MAX.
Proof.
  unfold uint_succ.
  pose proof (Z.mod_pos_bound (x + 1) (UINT_MAX + 1) UINT_MAX_pos). lia.
Qed.

Lemma iter_uint_succ (n : nat) (x : Z) :
  0 <= x <= UINT_MAX ->
  Nat.iter n uint_succ x = (x + Z.of_nat n) mod (UINT_MAX + 1).
Proof.
  intros Hx. induction n as [|n IH].
  - simpl. rewrite Z.add_0_r. symmetry. apply Z.mod_small.
    unfold UINT_MAX in *. lia.
  - rewrite Nat.iter_succ, IH. unfold uint_succ.
    rewrite Zplus_mod_idemp_l. f_equal. lia.
Qed.

Lemma iter_uint_succ_small (n : nat) (x : Z) :
  0 <= x -> x + Z.of_nat n <= UINT_MAX ->
  Nat.iter n uint_succ x = x + Z.of_nat n.
Proof.
  intros Hx Hn. rewrite iter_uint_succ by lia. apply Z.mod_small. lia.
Qed.

(** Two counters that started equal and were advanced [n] and [n + f]
    times, [f] at most [UINT_MAX], are equal only if [f] is [0]. *)
Lemma iter_uint_succ_inj (n f : nat) (x : Z) :
  0 <= x <= UINT_MAX -> Z.of_nat f <= UINT_MAX ->
  Nat.iter (n + f) uint_succ x = Nat.iter n uint_succ x -> f = 0%nat.
Proof.
  intros Hx Hf Heq. rewrite !iter_uint_succ in Heq by exact Hx.
  pose proof UINT_MAX_pos as Hpos.
  assert (Hd : ((x + Z.of_nat (n + f)) - (x + Z.of_nat n)) mod (UINT_MAX + 1) = 0).
  { rewrite Zminus_mod, Heq, Z.sub_diag. apply Z.mod_0_l. lia. }
  replace (x + Z.of_nat (n + f) - (x + Z.of_nat n)) with (Z.of_nat f) in Hd by lia.
  rewrite Z.mod_small in Hd by lia. lia.
Qed.

(** ** Calls of the user's functions *)

Section Calls.

Context {G D : Type} `{Descriptor D}.

Implicit Types (body : list (statement G)) (d : D) (g : G).

Lemma fails_performed body g :
  fails body g = true -> (1 <= performed_by body g)%nat.
Proof.
  revert g. induction body as [|[c m|e] body IH]; intros g; simpl.
  - discriminate.
  - destruct (c g); [intros _|]; lia.
  - apply IH.
Qed.

Lemma performed_by_asserts body g : (performed_by body g <= asserts body)%nat.
Proof.
  revert g. induction body as [|[c m|e] body IH]; intros g; simpl.
  - lia.
  - destruct (c g); [specialize (IH g)|]; lia.
  - apply IH.
Qed.

Lemma successed_by_le body g : (successed_by body g <= performed_by body g)%nat.
Proof. unfold successed_by. lia. Qed.

Lemma call_nil self d g : call self [] d g = (d, g, []).
Proof. reflexivity. Qed.

Lemma call_exec self e body d g :
  call self (Exec e :: body) d g = call self body d (e g).
Proof. reflexivity. Qed.

Lemma call_assert_true self c m body d g :
  c g = true ->
  call self (Assert c m :: body) d g
  = let '(d', g', out) :=
      call self body
        (set_successed_count
           (uint_succ (successed_count
              (set_performed_count (uint_succ (performed_count d)) d)))
           (set_performed_count (uint_succ (performed_count d)) d)) g in
    (d', g', UT_ON_SUCCESSFUL_ASSERT self m :: out).
Proof. intros Hc. cbn [call]. unfold UT_ASSERT. rewrite Hc. reflexivity. Qed.

Lemma call_assert_false self c m body d g :
  c g = false ->
  call self (Assert c m :: body) d g
  = (set_performed_count (uint_succ (performed_count d)) d, g,
     [UT_ON_FAILED_ASSERT self m]).
Proof. intros Hc. cbn [call]. unfold UT_ASSERT. rewrite Hc. reflexivity. Qed.

(** The counters after a call. *)
Lemma call_counters self body d g d' g' out :
  call self body d g = (d', g', out) ->
  performed_count d' = Nat.iter (performed_by body g) uint_succ (performed_count d)
  /\ successed_count d' = Nat.iter (successed_by body g) uint_succ (successed_count d)
  /\ started d' = started d.
Proof.
  revert d g d' g' out.
  induction body as [|[c m|e] body IH]; intros d g d' g' out Hcall.
  - rewrite call_nil in Hcall. inversion Hcall; subst. auto.
  - destruct (c g) eqn:Hc.
    + rewrite (call_assert_true _ _ _ _ _ _ Hc) in Hcall.
      destruct (call self body _ g) as [[d1 g1] out1] eqn:Hrest.
      inversion Hcall; subst. apply IH in Hrest.
      destruct Hrest as (Hp & Hs & Hst).
      rewrite performed_set_successed, performed_set_performed in Hp.
      rewrite successed_set_successed, successed_set_performed in Hs.
      rewrite started_set_successed, started_set_performed in Hst.
      unfold successed_by in *. cbn [performed_by fails]. rewrite Hc.
      split; [|split]; [| |exact Hst].
      * rewrite Nat.iter_succ_r. exact Hp.
      * rewrite Nat.sub_succ_l.
        { rewrite Nat.iter_succ_r. exact Hs. }
        destruct (fails body g) eqn:Hf; [apply fails_performed in Hf|]; lia.
    + rewrite (call_assert_false _ _ _ _ _ _ Hc) in Hcall.
      inversion Hcall; subst.
      unfold successed_by. cbn [performed_by fails]. rewrite Hc. simpl.
      rewrite performed_set_performed, successed_set_performed,
        started_set_performed. auto.
  - rewrite call_exec in Hcall. apply IH in Hcall. exact Hcall.
Qed.

(** The output of a call: one observer per assertion performed, the last
    one the failed-assertion observer when the call fails. *)
Lemma call_out self body d g d' g' out :
  call self body d g = (d', g', out) ->
  Forall (assert_event self) out
  /\ length out = performed_by body g
  /\ length (filter is_failed_assert out) = (if fails body g then 1 else 0)%nat.
Proof.
  revert d g d' g' out.
  induction body as [|[c m|e] body IH]; intros d g d' g' out Hcall.
  - rewrite call_nil in Hcall. inversion Hcall; subst. simpl. auto.
  - cbn [performed_by fails]. destruct (c g) eqn:Hc.
    + rewrite (call_assert_true _ _ _ _ _ _ Hc) in Hcall.
      destruct (call self body _ g) as [[d1 g1] out1] eqn:Hrest.
      inversion Hcall; subst. apply IH in Hrest.
      destruct Hrest as (Hall & Hlen & Hfail). simpl.
      split; [|split]; [| lia | exact Hfail].
      constructor; [exists m; auto | exact Hall].
    + rewrite (call_assert_false _ _ _ _ _ _ Hc) in Hcall.
      inversion Hcall; subst. simpl.
      split; [|split]; try reflexivity.
      constructor; [exists m; auto | constructor].
  - rewrite call_exec in Hcall. eapply IH. exact Hcall.
Qed.

End Calls.

Section CallsMore.

Context {G D : Type} `{Descriptor D}.

Implicit Types (body : list (statement G)) (d : D) (g : G).

Lemma fails_false_performed body g :
  fails body g = false ->
  performed_by body g = asserts body /\ successed_by body g = asserts body.
Proof.
  unfold successed_by. revert g.
  induction body as [|[c m|e] body IH]; intros g; simpl.
  - auto.
  - destruct (c g); [|discriminate].
    intros Hf. rewrite Hf. destruct (IH g Hf) as [Hp _]. lia.
  - apply IH.
Qed.

(** A function whose first part does not fail goes on with its second
    part. *)
Lemma call_app self body1 body2 d g :
  fails body1 g = false ->
  call self (body1 ++ body2) d g
  = let '(d1, g1, out1) := call self body1 d g in
    let '(d2, g2, out2) := call self body2 d1 g1 in
    (d2, g2, out1 ++ out2).
Proof.
  revert d g. induction body1 as [|[c m|e] body1 IH]; intros d g Hf.
  - rewrite call_nil. simpl. destruct (call self body2 d g) as [[d2 g2] out2].
    reflexivity.
  - simpl in Hf. destruct (c g) eqn:Hc; [|discriminate].
    rewrite <- app_comm_cons, !(call_assert_true _ _ _ _ _ _ Hc), (IH _ _ Hf).
    destruct (call self body1 _ g) as [[d1 g1] out1].
    destruct (call self body2 d1 g1) as [[d2 g2] out2]. reflexivity.
  - simpl in Hf. rewrite <- app_comm_cons, !call_exec. apply IH. exact Hf.
Qed.

End CallsMore.

(** ** Traces *)

Lemma calls_app (out out' : list event) :
  calls (out ++ out') = calls out ++ calls out'.
Proof.
  induction out as [|[f| | | |] out IH]; simpl; try rewrite IH; reflexivity.
Qed.

Lemma count_calls_app (f : callee) (out out' : list event) :
  count_calls f (out ++ out') = (count_calls f out + count_calls f out')%nat.
Proof. unfold count_calls. rewrite calls_app, filter_app. apply length_app. Qed.

Lemma attempts_app (out out' : list event) :
  attempts (out ++ out') = attempts out ++ attempts out'.
Proof.
  induction out as [|[[| |i|i|i]| | | |] out IH]; simpl; try rewrite IH;
    reflexivity.
Qed.

Lemma asserts_on_app (r : desc_ref) (out out' : list event) :
  asserts_on r (out ++ out') = (asserts_on r out + asserts_on r out')%nat.
Proof. unfold asserts_on. rewrite filter_app. apply length_app. Qed.

Lemma failures_on_app (r : desc_ref) (out out' : list event) :
  failures_on r (out ++ out') = (failures_on r out + failures_on r out')%nat.
Proof. unfold failures_on. rewrite filter_app. apply length_app. Qed.

(** The output of a call holds no call, and no observer of a test. *)
Lemma assert_events_calls (self : desc_ref) (out : list event) :
  Forall (assert_event self) out -> calls out = [].
Proof.
  induction 1 as [|e out [m [He|He]] _ IH]; subst; simpl; auto.
Qed.

Lemma assert_events_count_calls (self : desc_ref) (f : callee) (out : list event) :
  Forall (assert_event self) out -> count_calls f out = 0%nat.
Proof.
  intros Hall. unfold count_calls. rewrite (assert_events_calls _ _ Hall).
  reflexivity.
Qed.

Lemma assert_events_attempts (self : desc_ref) (out : list event) :
  Forall (assert_event self) out -> attempts out = [].
Proof.
  induction 1 as [|e out [m [He|He]] _ IH]; subst; simpl; auto.
Qed.

Lemma assert_events_observers (self : desc_ref) (out : list event) :
  Forall (assert_event self) out -> filter is_test_observer out = [].
Proof.
  induction 1 as [|e out [m [He|He]] _ IH]; subst; simpl; auto.
Qed.

Lemma assert_events_asserts_on (self r : desc_ref) (out : list event) :
  Forall (assert_event self) out ->
  asserts_on r out = if desc_ref_eqb r self then length out else 0%nat.
Proof.
  unfold asserts_on.
  induction 1 as [|e out [m [He|He]] _ IH]; subst; simpl;
    destruct (desc_ref_eqb r self); simpl; auto.
Qed.

Lemma assert_events_failures_on (self r : desc_ref) (out : list event) :
  Forall (assert_event self) out ->
  failures_on r out
  = if desc_ref_eqb r self then length (filter is_failed_assert out) else 0%nat.
Proof.
  unfold failures_on.
  induction 1 as [|e out [m [He|He]] _ IH]; subst; simpl;
    destruct (desc_ref_eqb r self); simpl; auto.
Qed.

(** ** C1 and C10 *)

(** C1.  Take a call of a user's function (a test's body or a hook) that
    reaches an assertion [UT_ASSERT(c, m)] after the statements [pre], none
    of whose assertions failed; [d1], [g1], [out1] are the descriptor, the
    user's state and the output at that point.  Every assertion of [pre]
    has incremented both counters.  If the condition is true, both
    [performed_count] and [successed_count] are incremented, the
    successful-assertion observer gets the message, and the function goes on
    with the statements [post] after the assertion.  If it is false, only
    [performed_count] is incremented, the failed-assertion observer gets
    the message, and the call ends there with that state whatever [post]
    is: nothing after the assertion is evaluated or counted. *)
Theorem UT_ASSERT_counts_then_aborts
    {G D : Type} `{Descriptor D} (self : desc_ref)
    (pre : list (statement G)) (c : G -> bool) (m : string)
    (d d1 : D) (g g1 : G) (out1 : list event) :
  fails pre g = false ->
  call self pre d g = (d1, g1, out1) ->
  performed_count d1 = Nat.iter (asserts pre) uint_succ (performed_count d)
  /\ successed_count d1 = Nat.iter (asserts pre) uint_succ (successed_count d)
  /\ (c g1 = true ->
      exists d1',
        performed_count d1' = uint_succ (performed_count d1)
        /\ successed_count d1' = uint_succ (successed_count d1)
        /\ started d1' = started d1
        /\ forall post,
             call self (pre ++ Assert c m :: post) d g
             = let '(d2, g2, out2) := call self post d1' g1 in
               (d2, g2, out1 ++ UT_ON_SUCCESSFUL_ASSERT self m :: out2))
  /\ (c g1 = false ->
      exists d2,
        performed_count d2 = uint_succ (performed_count d1)
        /\ successed_count d2 = successed_count d1
        /\ started d2 = started d1
        /\ forall post,
             call self (pre ++ Assert c m :: post) d g
             = (d2, g1, out1 ++ [UT_ON_FAILED_ASSERT self m])).
Proof.
  intros Hpre Hcall.
  destruct (call_counters _ _ _ _ _ _ _ Hcall) as (Hp & Hs & _).
  destruct (fails_false_performed _ _ Hpre) as [Hpb Hsb].
  rewrite Hpb in Hp. rewrite Hsb in Hs.
  split; [exact Hp|]. split; [exact Hs|]. split; intros Hc.
  - exists (set_successed_count
              (uint_succ (successed_count
                 (set_performed_count (uint_succ (performed_count d1)) d1)))
              (set_performed_count (uint_succ (performed_count d1)) d1)).
    split; [|split; [|split]].
    + rewrite performed_set_successed. apply performed_set_performed.
    + rewrite successed_set_successed, successed_set_performed. reflexivity.
    + rewrite started_set_successed. apply started_set_performed.
    + intros post. rewrite (call_app _ _ _ _ _ Hpre), Hcall.
      rewrite (call_assert_true _ _ _ _ _ _ Hc).
      destruct (call self post _ g1) as [[d2 g2] out2]. reflexivity.
  - eexists. split; [|split; [|split]]; cycle 3.
    + intros post. rewrite (call_app _ _ _ _ _ Hpre), Hcall.
      rewrite (call_assert_false _ _ _ _ _ _ Hc). reflexivity.
    + apply performed_set_performed.
    + apply successed_set_performed.
    + apply started_set_performed.
Qed.

(** C10.  A test descriptor that was never started is failed for
    [UT_IS_TEST_FAILED] while it is skipped for [UT_IS_TEST_SKIPPED], and a
    suite descriptor that was never started is failed for
    [UT_IS_TEST_SUITE_FAILED] while it is skipped for
    [UT_IS_TEST_SUITE_SKIPPED]; each [FAILED] macro is the negation of the
    [SUCCESSED] one. *)
Theorem never_started_is_skipped_and_failed {G : Type} :
  (forall test_desc : __ut_test_desc G,
     UT_IS_TEST_FAILED test_desc = negb (UT_IS_TEST_SUCCESSED test_desc))
  /\ (forall test_suite_desc : __ut_test_suite_desc G,
        UT_IS_TEST_SUITE_FAILED test_suite_desc
        = negb (UT_IS_TEST_SUITE_SUCCESSED test_suite_desc))
  /\ (forall test_desc : __ut_test_desc G,
        started test_desc = false ->
        UT_IS_TEST_FAILED test_desc = true
        /\ UT_IS_TEST_SKIPPED test_desc = true)
  /\ (forall test_suite_desc : __ut_test_suite_desc G,
        started test_suite_desc = false ->
        UT_IS_TEST_SUITE_FAILED test_suite_desc = true
        /\ UT_IS_TEST_SUITE_SKIPPED test_suite_desc = true).
Proof.
  split; [reflexivity|]. split; [reflexivity|]. split.
  - intros test_desc Hs.
    unfold UT_IS_TEST_FAILED, UT_IS_TEST_SUCCESSED, UT_IS_TEST_SKIPPED,
      UT_IS_TEST_STARTED.
    rewrite Hs. split; reflexivity.
  - intros test_suite_desc Hs.
    unfold UT_IS_TEST_SUITE_FAILED, UT_IS_TEST_SUITE_SUCCESSED,
      UT_IS_TEST_SUITE_SKIPPED, UT_IS_TEST_SUITE_STARTED.
    rewrite Hs. split; reflexivity.
Qed.

(** ** What a call leaves alone *)

(** A call changes its descriptor through the two counters only. *)
Lemma call_preserves {G D : Type} `{Descriptor D} (R : D -> D -> Prop) :
  (forall d, R d d) ->
  (forall d1 d2 d3, R d1 d2 -> R d2 d3 -> R d1 d3) ->
  (forall n d, R d (set_performed_count n d)) ->
  (forall n d, R d (set_successed_count n d)) ->
  forall self (body : list (statement G)) d g d' g' out,
    call self body d g = (d', g', out) -> R d d'.
Proof.
  intros Hrefl Htrans Hperf Hsucc self body.
  induction body as [|[c m|e] body IH]; intros d g d' g' out Hcall.
  - rewrite call_nil in Hcall. inversion Hcall; subst. apply Hrefl.
  - destruct (c g) eqn:Hc.
    + rewrite (call_assert_true _ _ _ _ _ _ Hc) in Hcall.
      destruct (call self body _ g) as [[d1 g1] out1] eqn:Hrest.
      inversion Hcall; subst. apply IH in Hrest.
      eapply Htrans; [|exact Hrest].
      eapply Htrans; [apply Hperf | apply Hsucc].
    + rewrite (call_assert_false _ _ _ _ _ _ Hc) in Hcall.
      inversion Hcall; subst. apply Hperf.
  - rewrite call_exec in Hcall. eapply IH. exact Hcall.
Qed.

Section Frames.

Context {G : Type}.

Implicit Types (td : __ut_test_desc G) (sd : __ut_test_suite_desc G) (g : G).

Lemma call_test_frame self (body : list (statement G)) td g td' g' out :
  call self body td g = (td', g', out) -> start_test td' = start_test td.
Proof.
  apply (call_preserves (fun a b => start_test b = start_test a));
    try reflexivity.
  intros d1 d2 d3 H12 H23. congruence.
Qed.

Lemma call_suite_frame self (body : list (statement G)) sd g sd' g' out :
  call self body sd g = (sd', g', out) -> start_suite sd' = start_suite sd.
Proof.
  apply (call_preserves (fun a b => start_suite b = start_suite a));
    try reflexivity.
  intros d1 d2 d3 H12 H23. congruence.
Qed.

(** The fields of the suite the runner reads are those of the structure
    declared started. *)
Lemma start_suite_fields sd sd' :
  start_suite sd' = start_suite sd ->
  startup sd' = startup sd /\ teardown sd' = teardown sd
  /\ before_each sd' = before_each sd /\ after_each sd' = after_each sd
  /\ test_descs sd' = test_descs sd.
Proof.
  intros Hs.
  change (startup (start_suite sd') = startup (start_suite sd)
          /\ teardown (start_suite sd') = teardown (start_suite sd)
          /\ before_each (start_suite sd') = before_each (start_suite sd)
          /\ after_each (start_suite sd') = after_each (start_suite sd)
          /\ test_descs (start_suite sd') = test_descs (start_suite sd)).
  rewrite Hs. auto.
Qed.

Lemma start_test_func td td' :
  start_test td' = start_test td -> func td' = func td.
Proof.
  intros Hs. change (func (start_test td') = func (start_test td)).
  rewrite Hs. reflexivity.
Qed.

Lemma start_suite_set_test_descs descs sd :
  start_suite (set_test_descs descs sd) = set_test_descs descs (start_suite sd).
Proof. reflexivity. Qed.


End Frames.

(** ** One turn of the loop *)

Section Turn.

Context {G : Type}.

Implicit Types (td : __ut_test_desc G) (sd : __ut_test_suite_desc G) (g : G).

(** The three calls of a turn and what it leaves. *)
Lemma run_test_inv sd i td body g sd' td' g' out :
  run_test sd i td body g = (sd', td', g', out) ->
  exists tdb gb outb tdf gf outf outa,
    call (TestDesc i) (before_each sd) (start_test td) g = (tdb, gb, outb)
    /\ (if UT_IS_TEST_SUCCESSED tdb
        then exists outf',
               call (TestDesc i) body tdb gb = (tdf, gf, outf')
               /\ outf = Call (TestFunc i) :: outf'
        else tdf = tdb /\ gf = gb /\ outf = [])
    /\ call (TestDesc i) (after_each sd) tdf gf = (td', g', outa)
    /\ out = (Call (BeforeEach i) :: outb ++ outf ++ Call (AfterEach i) :: outa)
             ++ [if UT_IS_TEST_SUCCESSED td' then UT_ON_SUCCESSFUL_TEST i
                 else UT_ON_FAILED_TEST i]
    /\ sd' = (if UT_IS_TEST_SUCCESSED td'
              then set_successed_count (uint_succ (successed_count sd))
                     (set_performed_count (uint_succ (performed_count sd)) sd)
              else set_performed_count (uint_succ (performed_count sd)) sd).
Proof.
  unfold run_test. intros Hrun.
  change (before_each (set_performed_count (uint_succ (performed_count sd)) sd))
    with (before_each sd) in Hrun.
  change (after_each (set_performed_count (uint_succ (performed_count sd)) sd))
    with (after_each sd) in Hrun.
  destruct (call (TestDesc i) (before_each sd) (start_test td) g)
    as [[tdb gb] outb] eqn:Hb.
  destruct (UT_IS_TEST_SUCCESSED tdb) eqn:Hok.
  - destruct (call (TestDesc i) body tdb gb) as [[tdf gf] outf'] eqn:Hf.
    destruct (call (TestDesc i) (after_each sd) tdf gf) as [[tda ga] outa] eqn:Ha.
    exists tdb, gb, outb, tdf, gf, (Call (TestFunc i) :: outf'), outa.
    rewrite Hok.
    destruct (UT_IS_TEST_SUCCESSED tda) eqn:Hok'; inversion Hrun; subst;
      rewrite Hok'; repeat split; eauto.
  - destruct (call (TestDesc i) (after_each sd) tdb gb) as [[tda ga] outa] eqn:Ha.
    exists tdb, gb, outb, tdb, gb, [], outa.
    rewrite Hok.
    destruct (UT_IS_TEST_SUCCESSED tda) eqn:Hok'; inversion Hrun; subst;
      rewrite Hok'; repeat split; eauto.
Qed.

(** What a turn does to the suite's structure. *)
Lemma run_test_suite sd i td body g sd' td' g' out :
  run_test sd i td body g = (sd', td', g', out) ->
  start_suite sd' = start_suite sd
  /\ started sd' = started sd
  /\ performed_count sd' = uint_succ (performed_count sd)
  /\ successed_count sd'
     = if UT_IS_TEST_SUCCESSED td' then uint_succ (successed_count sd)
       else successed_count sd.
Proof.
  intros Hrun. apply run_test_inv in Hrun.
  destruct Hrun as (tdb & gb & outb & tdf & gf & outf & outa & _ & _ & _ & _ & ->).
  destruct (UT_IS_TEST_SUCCESSED td'); repeat split; reflexivity.
Qed.

(** What a turn does to the test's structure. *)
Lemma run_test_test sd i td body g sd' td' g' out :
  run_test sd i td body g = (sd', td', g', out) ->
  start_test td' = start_test td /\ started td' = true.
Proof.
  intros Hrun. apply run_test_inv in Hrun.
  destruct Hrun as (tdb & gb & outb & tdf & gf & outf & outa
                    & Hb & Hf & Ha & _ & _).
  pose proof (call_test_frame _ _ _ _ _ _ _ Hb) as Fb.
  pose proof (call_test_frame _ _ _ _ _ _ _ Ha) as Fa.
  destruct (call_counters _ _ _ _ _ _ _ Hb) as (_ & _ & Sb).
  destruct (call_counters _ _ _ _ _ _ _ Ha) as (_ & _ & Sa).
  assert (Ff : start_test tdf = start_test tdb /\ started tdf = started tdb).
  { destruct (UT_IS_TEST_SUCCESSED tdb).
    - destruct Hf as (outf' & Hf & _).
      pose proof (call_test_frame _ _ _ _ _ _ _ Hf).
      destruct (call_counters _ _ _ _ _ _ _ Hf) as (_ & _ & Sf). auto.
    - destruct Hf as (-> & _ & _). auto. }
  destruct Ff as [Ff Sf].
  split.
  - rewrite Fa, Ff, Fb. reflexivity.
  - rewrite Sa, Sf, Sb. reflexivity.
Qed.

(** The counters of the test after a turn. *)
Lemma run_test_counters sd i td body g sd' td' g' out :
  run_test sd i td body g = (sd', td', g', out) ->
  exists p s : nat,
    (s <= p <= asserts (before_each sd) + asserts body + asserts (after_each sd))%nat
    /\ performed_count td' = Nat.iter p uint_succ 0
    /\ successed_count td' = Nat.iter s uint_succ 0.
Proof.
  intros Hrun. apply run_test_inv in Hrun.
  destruct Hrun as (tdb & gb & outb & tdf & gf & outf & outa
                    & Hb & Hf & Ha & _ & _).
  destruct (call_counters _ _ _ _ _ _ _ Hb) as (Pb & Sb & _).
  destruct (call_counters _ _ _ _ _ _ _ Ha) as (Pa & Sa & _).
  change (performed_count (start_test td)) with 0 in Pb.
  change (successed_count (start_test td)) with 0 in Sb.
  pose proof (performed_by_asserts (before_each sd) g).
  pose proof (successed_by_le (before_each sd) g).
  pose proof (performed_by_asserts (after_each sd) gf).
  pose proof (successed_by_le (after_each sd) gf).
  destruct (UT_IS_TEST_SUCCESSED tdb).
  - destruct Hf as (outf' & Hf & _).
    destruct (call_counters _ _ _ _ _ _ _ Hf) as (Pf & Sf & _).
    pose proof (performed_by_asserts body gb).
    pose proof (successed_by_le body gb).
    exists (performed_by (after_each sd) gf + (performed_by body gb
            + performed_by (before_each sd) g))%nat,
           (successed_by (after_each sd) gf + (successed_by body gb
            + successed_by (before_each sd) g))%nat.
    split; [lia|].
    rewrite !Nat.iter_add, <- Pb, <- Sb, <- Pf, <- Sf. auto.
  - destruct Hf as (-> & -> & _).
    exists (performed_by (after_each sd) gb + performed_by (before_each sd) g)%nat,
           (successed_by (after_each sd) gb + successed_by (before_each sd) g)%nat.
    split; [lia|].
    rewrite !Nat.iter_add, <- Pb, <- Sb. auto.
Qed.

(** The output of a turn. *)
Lemma run_test_out sd i td body g sd' td' g' out :
  run_test sd i td body g = (sd', td', g', out) ->
  forall tdb gb outb,
    call (TestDesc i) (before_each sd) (start_test td) g = (tdb, gb, outb) ->
    calls out
    = BeforeEach i
      :: (if UT_IS_TEST_SUCCESSED tdb then [TestFunc i] else [])
      ++ [AfterEach i]
    /\ attempts out = [i]
    /\ asserts_on SuiteDesc out = 0%nat
    /\ failures_on SuiteDesc out = 0%nat
    /\ filter is_test_observer out
       = [if UT_IS_TEST_SUCCESSED td' then UT_ON_SUCCESSFUL_TEST i
          else UT_ON_FAILED_TEST i].
Proof.
  intros Hrun tdb gb outb Hb. apply run_test_inv in Hrun.
  destruct Hrun as (tdb' & gb' & outb' & tdf & gf & outf & outa
                    & Hb' & Hf & Ha & -> & _).
  rewrite Hb in Hb'. inversion Hb'; subst tdb' gb' outb'. clear Hb'.
  destruct (call_out _ _ _ _ _ _ _ Hb) as (Eb & _).
  destruct (call_out _ _ _ _ _ _ _ Ha) as (Ea & _).
  assert (Ef : exists outf',
             outf = (if UT_IS_TEST_SUCCESSED tdb then [Call (TestFunc i)] else [])
                    ++ outf'
             /\ Forall (assert_event (TestDesc i)) outf').
  { destruct (UT_IS_TEST_SUCCESSED tdb).
    - destruct Hf as (outf' & Hf & ->).
      destruct (call_out _ _ _ _ _ _ _ Hf) as (Ef & _).
      exists outf'. split; [reflexivity | exact Ef].
    - destruct Hf as (_ & _ & ->). exists []. split; [reflexivity | constructor]. }
  destruct Ef as (outf' & -> & Ef).
  repeat split.
  - change (Call (BeforeEach i) :: ?l) with ([Call (BeforeEach i)] ++ l).
    change (Call (AfterEach i) :: outa) with ([Call (AfterEach i)] ++ outa).
    rewrite !calls_app.
    rewrite (assert_events_calls _ _ Eb), (assert_events_calls _ _ Ea),
      (assert_events_calls _ _ Ef).
    destruct (UT_IS_TEST_SUCCESSED tdb), (UT_IS_TEST_SUCCESSED td'); reflexivity.
  - change (Call (BeforeEach i) :: ?l) with ([Call (BeforeEach i)] ++ l).
    change (Call (AfterEach i) :: outa) with ([Call (AfterEach i)] ++ outa).
    rewrite !attempts_app.
    rewrite (assert_events_attempts _ _ Eb), (assert_events_attempts _ _ Ea),
      (assert_events_attempts _ _ Ef).
    destruct (UT_IS_TEST_SUCCESSED tdb), (UT_IS_TEST_SUCCESSED td'); reflexivity.
  - change (Call (BeforeEach i) :: ?l) with ([Call (BeforeEach i)] ++ l).
    change (Call (AfterEach i) :: outa) with ([Call (AfterEach i)] ++ outa).
    rewrite !asserts_on_app.
    rewrite (assert_events_asserts_on _ _ _ Eb),
      (assert_events_asserts_on _ _ _ Ea), (assert_events_asserts_on _ _ _ Ef).
    destruct (UT_IS_TEST_SUCCESSED tdb), (UT_IS_TEST_SUCCESSED td'); reflexivity.
  - change (Call (BeforeEach i) :: ?l) with ([Call (BeforeEach i)] ++ l).
    change (Call (AfterEach i) :: outa) with ([Call (AfterEach i)] ++ outa).
    rewrite !failures_on_app.
    rewrite (assert_events_failures_on _ _ _ Eb),
      (assert_events_failures_on _ _ _ Ea), (assert_events_failures_on _ _ _ Ef).
    destruct (UT_IS_TEST_SUCCESSED tdb), (UT_IS_TEST_SUCCESSED td'); reflexivity.
  - change (Call (BeforeEach i) :: ?l) with ([Call (BeforeEach i)] ++ l).
    change (Call (AfterEach i) :: outa) with ([Call (AfterEach i)] ++ outa).
    rewrite !filter_app.
    rewrite (assert_events_observers _ _ Eb), (assert_events_observers _ _ Ea),
      (assert_events_observers _ _ Ef).
    destruct (UT_IS_TEST_SUCCESSED tdb), (UT_IS_TEST_SUCCESSED td'); reflexivity.
Qed.

(** A turn reads the test's structure only as the head of the loop body
    leaves it, and the suite's structure apart from its array. *)
Lemma run_test_start sd i td td2 body g :
  start_test td2 = start_test td ->
  run_test sd i td2 body g = run_test sd i td body g.
Proof. intros Hs. unfold run_test. rewrite Hs. reflexivity. Qed.

Lemma run_test_set_test_descs descs sd i td body g :
  run_test (set_test_descs descs sd) i td body g
  = let '(sd', td', g', out) := run_test sd i td body g in
    (set_test_descs descs sd', td', g', out).
Proof.
  unfold run_test.
  change (before_each (set_performed_count _ (set_test_descs descs sd)))
    with (before_each (set_performed_count (uint_succ (performed_count sd)) sd)).
  change (after_each (set_performed_count _ (set_test_descs descs sd)))
    with (after_each (set_performed_count (uint_succ (performed_count sd)) sd)).
  destruct (call (TestDesc i) _ (start_test td) g) as [[tdb gb] outb].
  destruct (UT_IS_TEST_SUCCESSED tdb).
  - destruct (call (TestDesc i) body tdb gb) as [[tdf gf] outf].
    destruct (call (TestDesc i) _ tdf gf) as [[tda ga] outa].
    destruct (UT_IS_TEST_SUCCESSED tda); reflexivity.
  - destruct (call (TestDesc i) _ tdb gb) as [[tda ga] outa].
    destruct (UT_IS_TEST_SUCCESSED tda); reflexivity.
Qed.

End Turn.

(** ** The loop *)

Lemma once_in_0 (i j : Z) : once_in i 0 j = 0%nat.
Proof.
  unfold once_in. destruct (i <=? j) eqn:H1, (j <? i + Z.of_nat 0) eqn:H2;
    try reflexivity. apply Z.leb_le in H1. apply Z.ltb_lt in H2. lia.
Qed.

Lemma once_in_S (i j : Z) (n : nat) :
  once_in i (S n) j = ((if (j =? i)%Z then 1 else 0) + once_in (i + 1) n j)%nat.
Proof.
  unfold once_in.
  destruct (j =? i) eqn:E, (i <=? j) eqn:H1, (j <? i + Z.of_nat (S n)) eqn:H2,
    (i + 1 <=? j) eqn:H3, (j <? i + 1 + Z.of_nat n) eqn:H4; try reflexivity;
    repeat match goal with
      | H : (_ =? _) = true |- _ => apply Z.eqb_eq in H
      | H : (_ =? _) = false |- _ => apply Z.eqb_neq in H
      | H : (_ <=? _) = true |- _ => apply Z.leb_le in H
      | H : (_ <=? _) = false |- _ => apply Z.leb_gt in H
      | H : (_ <? _) = true |- _ => apply Z.ltb_lt in H
      | H : (_ <? _) = false |- _ => apply Z.ltb_ge in H
      end; lia.
Qed.

Lemma once_in_below (i j : Z) (n : nat) : j < i -> once_in i n j = 0%nat.
Proof.
  intros Hj. unfold once_in. destruct (i <=? j) eqn:H1; [|reflexivity].
  apply Z.leb_le in H1. lia.
Qed.

Lemma once_in_range (i j : Z) (n : nat) :
  i <= j < i + Z.of_nat n -> once_in i n j = 1%nat.
Proof.
  intros Hj. unfold once_in.
  destruct (i <=? j) eqn:H1, (j <? i + Z.of_nat n) eqn:H2; try reflexivity;
    [apply Z.ltb_ge in H2 | apply Z.leb_gt in H1 | apply Z.leb_gt in H1]; lia.
Qed.

Section Loop.

Context {G : Type}.

Implicit Types (td : __ut_test_desc G) (sd : __ut_test_suite_desc G) (g : G).

(** The relation is the function. *)
Lemma run_tests_loop sd i descs g sd' descs' g' out :
  run_tests sd i descs g = Some (sd', descs', g', out)
  <-> loop sd i descs g sd' descs' g' out.
Proof.
  split.
  - revert sd i g sd' descs' g' out.
    induction descs as [|td rest IH]; intros sd i g sd' descs' g' out Hrun;
      cbn [run_tests] in Hrun.
    + discriminate.
    + destruct (func td) as [body|] eqn:Hf.
      * destruct (run_test sd i td body g) as [[[sd1 td1] g1] out1] eqn:Hturn.
        destruct (i =? UINT_MAX) eqn:Hi; [discriminate|].
        destruct (run_tests sd1 (i + 1) rest g1)
          as [[[[sd2 rest2] g2] out2]|] eqn:Hrest; [|discriminate].
        inversion Hrun; subst.
        eapply loop_turn; eauto. apply Z.eqb_neq. exact Hi.
      * inversion Hrun; subst. apply loop_end. exact Hf.
  - induction 1 as [sd i td rest g Hf
                   |sd i td rest g body sd1 td1 g1 out1 sd2 rest2 g2 out2
                      Hf Hturn Hi _ IH]; cbn [run_tests].
    + rewrite Hf. reflexivity.
    + rewrite Hf, Hturn. apply Z.eqb_neq in Hi. rewrite Hi, IH. reflexivity.
Qed.

(** The loop ends when the array ends in [UT_TEST_SUITE_END] at an index an
    [unsigned int] reaches. *)
Lemma loop_total sd i descs g :
  terminated descs = true ->
  i + Z.of_nat (length (declared descs)) <= UINT_MAX ->
  exists sd' descs' g' out, loop sd i descs g sd' descs' g' out.
Proof.
  revert sd i g. induction descs as [|td rest IH]; intros sd i g Ht Hlen;
    cbn [terminated declared] in *.
  - discriminate.
  - destruct (func td) as [body|] eqn:Hf.
    + destruct (run_test sd i td body g) as [[[sd1 td1] g1] out1] eqn:Hturn.
      cbn [length] in Hlen.
      destruct (IH sd1 (i + 1) g1 Ht) as (sd2 & rest2 & g2 & out2 & Hloop);
        [lia|].
      exists sd2, (td1 :: rest2), g2, (out1 ++ out2).
      eapply loop_turn; eauto. lia.
    + exists sd, (td :: rest), g, []. apply loop_end. exact Hf.
Qed.

(** The array after the loop: every entry keeps what the declaration gave
    it, and the tests are started. *)
Lemma loop_array sd i descs g sd' descs' g' out :
  loop sd i descs g sd' descs' g' out ->
  map start_test descs' = map start_test descs
  /\ length (declared descs') = length (declared descs)
  /\ terminated descs' = true
  /\ Forall (fun td => started td = true) (declared descs').
Proof.
  induction 1 as [sd i td rest g Hf
                 |sd i td rest g body sd1 td1 g1 out1 sd2 rest2 g2 out2
                    Hf Hturn Hi _ IH]; cbn [map declared terminated].
  - rewrite Hf. auto.
  - destruct (run_test_test _ _ _ _ _ _ _ _ _ Hturn) as [Fs Fst].
    destruct IH as (IHm & IHl & IHt & IHs).
    rewrite (start_test_func _ _ Fs), Hf. cbn [length].
    rewrite Fs, IHm, IHl. auto.
Qed.

(** The counters of the suite after the loop: one more [performed_count]
    per test, one more [successed_count] per test that ended successful. *)
Lemma loop_suite sd i descs g sd' descs' g' out :
  loop sd i descs g sd' descs' g' out ->
  start_suite sd' = start_suite sd
  /\ started sd' = started sd
  /\ performed_count sd'
     = Nat.iter (length (declared descs)) uint_succ (performed_count sd)
  /\ successed_count sd'
     = Nat.iter (length (filter UT_IS_TEST_SUCCESSED (declared descs')))
         uint_succ (successed_count sd).
Proof.
  induction 1 as [sd i td rest g Hf
                 |sd i td rest g body sd1 td1 g1 out1 sd2 rest2 g2 out2
                    Hf Hturn Hi _ IH]; cbn [declared].
  - rewrite Hf. simpl. auto.
  - destruct (run_test_test _ _ _ _ _ _ _ _ _ Hturn) as [Fs _].
    destruct (run_test_suite _ _ _ _ _ _ _ _ _ Hturn) as (Ss & St & Sp & Sc).
    destruct IH as (IHs & IHt & IHp & IHc).
    rewrite (start_test_func _ _ Fs), Hf. cbn [length filter].
    rewrite IHs, IHt, IHp, IHc, Sp, Sc.
    repeat split; auto.
    + rewrite Nat.iter_succ_r. reflexivity.
    + destruct (UT_IS_TEST_SUCCESSED td1); [|reflexivity].
      cbn [length]. rewrite Nat.iter_succ_r. reflexivity.
Qed.

(** The calls of one turn. *)
Lemma run_test_counts sd i td body g sd' td' g' out :
  run_test sd i td body g = (sd', td', g', out) ->
  forall tdb gb outb,
    call (TestDesc i) (before_each sd) (start_test td) g = (tdb, gb, outb) ->
    forall j,
      count_calls (BeforeEach j) out = (if (j =? i)%Z then 1 else 0)%nat
      /\ count_calls (AfterEach j) out = (if (j =? i)%Z then 1 else 0)%nat
      /\ count_calls (TestFunc j) out
         = (if (j =? i)%Z then if UT_IS_TEST_SUCCESSED tdb then 1 else 0 else 0)%nat
      /\ count_calls Startup out = 0%nat
      /\ count_calls Teardown out = 0%nat.
Proof.
  intros Hturn tdb gb outb Hb j.
  destruct (run_test_out _ _ _ _ _ _ _ _ _ Hturn _ _ _ Hb) as (Hc & _).
  unfold count_calls. rewrite Hc.
  destruct (UT_IS_TEST_SUCCESSED tdb); simpl; destruct (j =? i);
    repeat split; reflexivity.
Qed.

(** The calls of the loop: [before_each] and [after_each] once for each
    test, in the order of the array. *)
Lemma loop_calls sd i descs g sd' descs' g' out :
  loop sd i descs g sd' descs' g' out ->
  attempts out = indices i (length (declared descs))
  /\ asserts_on SuiteDesc out = 0%nat
  /\ failures_on SuiteDesc out = 0%nat
  /\ count_calls Startup out = 0%nat
  /\ count_calls Teardown out = 0%nat
  /\ forall j,
       count_calls (BeforeEach j) out = once_in i (length (declared descs)) j
       /\ count_calls (AfterEach j) out = once_in i (length (declared descs)) j
       /\ (count_calls (TestFunc j) out <= once_in i (length (declared descs)) j)%nat.
Proof.
  induction 1 as [sd i td rest g Hf
                 |sd i td rest g body sd1 td1 g1 out1 sd2 rest2 g2 out2
                    Hf Hturn Hi _ IH]; cbn [declared]; rewrite Hf.
  - cbn [length]. repeat split; try reflexivity; rewrite once_in_0;
      unfold count_calls; simpl; lia.
  - destruct (call (TestDesc i) (before_each sd) (start_test td) g)
      as [[tdb gb] outb] eqn:Hb.
    destruct (run_test_out _ _ _ _ _ _ _ _ _ Hturn _ _ _ Hb)
      as (_ & Ha & Hs & Hfl & _).
    pose proof (run_test_counts _ _ _ _ _ _ _ _ _ Hturn _ _ _ Hb) as Hc.
    destruct IH as (IHa & IHs & IHf & IHst & IHtd & IHj).
    cbn [length indices].
    rewrite attempts_app, asserts_on_app, failures_on_app, !count_calls_app.
    rewrite Ha, Hs, Hfl, IHa, IHs, IHf, IHst, IHtd.
    destruct (Hc i) as (_ & _ & _ & -> & ->).
    repeat split; try reflexivity.
    all: rewrite count_calls_app, once_in_S;
      destruct (Hc j) as (Cb & Ca & Cf & _); destruct (IHj j) as (Ib & Ia & If_);
      rewrite ?Cb, ?Ca, ?Cf, ?Ib, ?Ia; try reflexivity.
    destruct (j =? i), (UT_IS_TEST_SUCCESSED tdb); lia.
Qed.

End Loop.

Section LoopMore.

Context {G : Type}.

Implicit Types (td : __ut_test_desc G) (sd : __ut_test_suite_desc G) (g : G).

(** The state in which each turn begins, and whether the turn calls the
    test's function. *)
Lemma loop_reach sd i descs g sd' descs' g' out :
  loop sd i descs g sd' descs' g' out ->
  forall k, (k < length (declared descs))%nat ->
  exists sd_k td_k g_k,
    reach sd i descs g k = Some (sd_k, td_k, g_k)
    /\ nth_error (declared descs) k = Some td_k
    /\ start_suite sd_k = start_suite sd
    /\ started sd_k = started sd
    /\ performed_count sd_k = Nat.iter k uint_succ (performed_count sd)
    /\ (exists s, (s <= k)%nat
          /\ successed_count sd_k = Nat.iter s uint_succ (successed_count sd))
    /\ forall tdb gb outb,
         call (TestDesc (i + Z.of_nat k)) (before_each sd) (start_test td_k) g_k
         = (tdb, gb, outb) ->
         count_calls (TestFunc (i + Z.of_nat k)) out
         = if UT_IS_TEST_SUCCESSED tdb then 1%nat else 0%nat.
Proof.
  induction 1 as [sd i td rest g Hf
                 |sd i td rest g body sd1 td1 g1 out1 sd2 rest2 g2 out2
                    Hf Hturn Hi Hloop IH]; intros k Hk;
    cbn [declared] in *; rewrite Hf in *; cbn [length] in Hk; [lia|].
  destruct k as [|k].
  - exists sd, td, g. cbn [reach nth_error]. rewrite Hf.
    repeat split; try reflexivity.
    + exists 0%nat. split; [lia | reflexivity].
    + change (Z.of_nat 0) with 0. rewrite Z.add_0_r. intros tdb gb outb Hb.
      destruct (run_test_counts _ _ _ _ _ _ _ _ _ Hturn _ _ _ Hb i)
        as (_ & _ & Cf & _).
      destruct (loop_calls _ _ _ _ _ _ _ _ Hloop) as (_ & _ & _ & _ & _ & Hj).
      destruct (Hj i) as (_ & _ & Hle).
      rewrite once_in_below in Hle by lia.
      rewrite count_calls_app, Cf, Z.eqb_refl. lia.
  - destruct (IH k) as (sd_k & td_k & g_k & Hr & Hn & Ss & St & Sp & Sc & Hcall);
      [lia|].
    destruct (run_test_suite _ _ _ _ _ _ _ _ _ Hturn) as (Ts & Tt & Tp & Tc).
    destruct (start_suite_fields _ _ Ts) as (_ & _ & Hbe & _ & _).
    exists sd_k, td_k, g_k. cbn [reach nth_error]. rewrite Hf, Hturn.
    apply Z.eqb_neq in Hi. rewrite Hi.
    split; [exact Hr|]. split; [exact Hn|].
    split; [congruence|]. split; [congruence|].
    split; [rewrite Sp, Tp, Nat.iter_succ_r; reflexivity|].
    split.
    + destruct Sc as (s & Hs & Sc). rewrite Sc, Tc.
      destruct (UT_IS_TEST_SUCCESSED td1).
      * exists (S s). split; [lia|]. rewrite Nat.iter_succ_r. reflexivity.
      * exists s. split; [lia | reflexivity].
    + replace (i + Z.of_nat (S k)) with (i + 1 + Z.of_nat k) by lia.
      intros tdb gb outb Hb. rewrite <- Hbe in Hb.
      rewrite count_calls_app, (Hcall _ _ _ Hb).
      destruct (call (TestDesc i) (before_each sd) (start_test td) g)
        as [[tdb0 gb0] outb0] eqn:Hb0.
      destruct (run_test_counts _ _ _ _ _ _ _ _ _ Hturn _ _ _ Hb0
                  (i + 1 + Z.of_nat k)) as (_ & _ & Cf & _).
      rewrite Cf.
      destruct (i + 1 + Z.of_nat k =? i) eqn:E; [|reflexivity].
      apply Z.eqb_eq in E. lia.
Qed.

(** No turn is reached beyond the tests of the array. *)
Lemma reach_declared sd i descs g k sd_k td_k g_k :
  reach sd i descs g k = Some (sd_k, td_k, g_k) ->
  (k < length (declared descs))%nat.
Proof.
  revert sd i g k. induction descs as [|td rest IH]; intros sd i g k Hr;
    cbn [reach declared] in *.
  - discriminate.
  - destruct (func td) as [body|]; [|discriminate].
    cbn [length]. destruct k as [|k]; [lia|].
    destruct (run_test sd i td body g) as [[[sd1 td1] g1] out1].
    destruct (i =? UINT_MAX); [discriminate|].
    apply IH in Hr. lia.
Qed.

Lemma test_fits_frame sd sd' td :
  start_suite sd' = start_suite sd -> test_fits sd td -> test_fits sd' td.
Proof.
  intros Hs. destruct (start_suite_fields _ _ Hs) as (_ & _ & Hb & Ha & _).
  unfold test_fits. rewrite Hb, Ha. auto.
Qed.

(** The counters of the tests after the loop, when they cannot wrap. *)
Lemma loop_tests_ok sd i descs g sd' descs' g' out :
  loop sd i descs g sd' descs' g' out ->
  Forall (test_fits sd) (declared descs) ->
  Forall counters_ok (declared descs').
Proof.
  induction 1 as [sd i td rest g Hf
                 |sd i td rest g body sd1 td1 g1 out1 sd2 rest2 g2 out2
                    Hf Hturn Hi Hloop IH]; intros Hfit; cbn [declared] in *.
  - rewrite Hf. constructor.
  - destruct (run_test_test _ _ _ _ _ _ _ _ _ Hturn) as [Fs _].
    destruct (run_test_suite _ _ _ _ _ _ _ _ _ Hturn) as (Ts & _).
    rewrite (start_test_func _ _ Fs). rewrite Hf in *.
    inversion Hfit as [|? ? Hfit1 Hfit2]; subst.
    constructor.
    + destruct (run_test_counters _ _ _ _ _ _ _ _ _ Hturn)
        as (p & s & Hps & Hp & Hs).
      unfold test_fits in Hfit1. rewrite Hf in Hfit1.
      rewrite iter_uint_succ_small in Hp, Hs by lia.
      unfold counters_ok. lia.
    + apply IH. eapply Forall_impl; [|exact Hfit2].
      intros td'. apply test_fits_frame. exact Ts.
Qed.

(** A second pass of the loop over the array the first pass left gives
    what the first pass gave. *)
Lemma loop_again sd i descs g sd' descs' g' out :
  loop sd i descs g sd' descs' g' out ->
  forall l,
    loop (set_test_descs l sd) i descs' g (set_test_descs l sd') descs' g' out.
Proof.
  induction 1 as [sd i td rest g Hf
                 |sd i td rest g body sd1 td1 g1 out1 sd2 rest2 g2 out2
                    Hf Hturn Hi Hloop IH]; intros l.
  - apply loop_end. exact Hf.
  - destruct (run_test_test _ _ _ _ _ _ _ _ _ Hturn) as [Fs _].
    eapply loop_turn.
    + rewrite (start_test_func _ _ Fs). exact Hf.
    + rewrite run_test_set_test_descs, (run_test_start _ _ _ _ _ _ Fs), Hturn.
      reflexivity.
    + exact Hi.
    + apply IH.
Qed.

End LoopMore.

(** ** A run of the suite *)

Lemma indices_In (i : Z) (n : nat) (j : Z) :
  In j (indices i n) <-> i <= j < i + Z.of_nat n.
Proof.
  revert i. induction n as [|n IH]; intros i; cbn [indices In].
  - lia.
  - rewrite IH. lia.
Qed.

Lemma filter_all {A : Type} (p : A -> bool) (l : list A) :
  length (filter p l) = length l <-> forallb p l = true.
Proof.
  induction l as [|a l IH]; simpl; [tauto|].
  pose proof (filter_length_le p l) as Hle.
  destruct (p a); simpl.
  - rewrite <- IH. lia.
  - split; [lia | discriminate].
Qed.

(** Whether a call leaves equal counters it found equal. *)
Lemma call_successful {G D : Type} `{Descriptor D} self
    (body : list (statement G)) (d : D) g d' g' out :
  call self body d g = (d', g', out) ->
  performed_count d = successed_count d ->
  0 <= performed_count d <= UINT_MAX ->
  (performed_count d' =? successed_count d') = negb (fails body g).
Proof.
  intros Hcall Heq Hrange.
  destruct (call_counters _ _ _ _ _ _ _ Hcall) as (Hp & Hs & _).
  unfold successed_by in Hs. rewrite <- Heq in Hs.
  destruct (fails body g) eqn:Hf; simpl.
  - apply Z.eqb_neq. intros Hc. rewrite Hp, Hs in Hc.
    apply fails_performed in Hf.
    remember (performed_by body g - 1)%nat as n eqn:Hn.
    replace (performed_by body g) with (n + 1)%nat in Hc by lia.
    apply iter_uint_succ_inj in Hc; [discriminate | exact Hrange |].
    unfold UINT_MAX. lia.
  - apply Z.eqb_eq. rewrite Hp, Hs, Nat.sub_0_r. reflexivity.
Qed.

Section Run.

Context {G : Type}.

Implicit Types (td : __ut_test_desc G) (sd : __ut_test_suite_desc G) (g : G).

(** The run up to the return of [startup]. *)
Lemma run_startup_spec sd g sd1 g1 out1 :
  run_startup sd g = (sd1, g1, out1) ->
  exists o1,
    call SuiteDesc (startup sd) (start_suite sd) g = (sd1, g1, o1)
    /\ out1 = Call Startup :: o1
    /\ Forall (assert_event SuiteDesc) o1
    /\ start_suite sd1 = start_suite sd
    /\ started sd1 = true
    /\ performed_count sd1 = Nat.iter (performed_by (startup sd) g) uint_succ 0
    /\ successed_count sd1 = Nat.iter (successed_by (startup sd) g) uint_succ 0
    /\ UT_IS_TEST_SUITE_SUCCESSED sd1 = negb (fails (startup sd) g)
    /\ asserts_on SuiteDesc o1 = performed_by (startup sd) g
    /\ failures_on SuiteDesc o1 = (if fails (startup sd) g then 1 else 0)%nat.
Proof.
  unfold run_startup.
  change (startup (start_suite sd)) with (startup sd).
  destruct (call SuiteDesc (startup sd) (start_suite sd) g)
    as [[sd1' g1'] o1] eqn:Hcall.
  intros Heq. inversion Heq; subst. exists o1.
  destruct (call_counters _ _ _ _ _ _ _ Hcall) as (Hp & Hs & Hst).
  destruct (call_out _ _ _ _ _ _ _ Hcall) as (Hall & Hlen & Hfl).
  pose proof (call_suite_frame _ _ _ _ _ _ _ Hcall) as Hfr.
  pose proof (call_successful _ _ _ _ _ _ _ Hcall eq_refl) as Hok.
  repeat split; auto.
  - unfold UT_IS_TEST_SUITE_SUCCESSED, UT_IS_TEST_SUITE_STARTED.
    rewrite Hst, Hok; [reflexivity|]. simpl. unfold UINT_MAX. lia.
  - rewrite (assert_events_asserts_on _ _ _ Hall). exact Hlen.
  - rewrite (assert_events_failures_on _ _ _ Hall). exact Hfl.
Qed.

(** A run whose [startup] fails. *)
Lemma run_failed sd g sd1 g1 out1 :
  run_startup sd g = (sd1, g1, out1) ->
  UT_IS_TEST_SUITE_SUCCESSED sd1 = false ->
  __ut_run_test_suite sd g = Some (false, sd1, g1, out1).
Proof.
  intros Hs Hok. unfold __ut_run_test_suite. rewrite Hs, Hok. reflexivity.
Qed.

(** A run whose [startup] passes. *)
Lemma run_passed sd g sd1 g1 out1 sd2 descs2 g2 out2 sd3 g3 out3 :
  run_startup sd g = (sd1, g1, out1) ->
  UT_IS_TEST_SUITE_SUCCESSED sd1 = true ->
  loop sd1 0 (test_descs sd1) g1 sd2 descs2 g2 out2 ->
  call SuiteDesc (teardown sd2) (set_test_descs descs2 sd2) g2 = (sd3, g3, out3) ->
  __ut_run_test_suite sd g
  = Some (UT_IS_TEST_SUITE_SUCCESSED sd3, sd3, g3,
          out1 ++ out2 ++ Call Teardown :: out3).
Proof.
  intros Hs Hok Hloop Ht. unfold __ut_run_test_suite.
  rewrite Hs, Hok. apply run_tests_loop in Hloop. cbn [negb].
  rewrite Hloop.
  change (teardown (set_test_descs descs2 sd2)) with (teardown sd2).
  rewrite Ht. reflexivity.
Qed.

(** The phases of a run whose [startup] passes, with the counters of the
    suite and the assertions on the suite's structure. *)
Lemma run_passed_spec sd g :
  well_formed sd ->
  startup_passes sd g = true ->
  exists sd1 g1 o1 sd2 descs2 g2 out2 sd3 g3 out3,
    run_startup sd g = (sd1, g1, Call Startup :: o1)
    /\ UT_IS_TEST_SUITE_SUCCESSED sd1 = true
    /\ fails (startup sd) g = false
    /\ Forall (assert_event SuiteDesc) o1
    /\ loop sd1 0 (test_descs sd) g1 sd2 descs2 g2 out2
    /\ call SuiteDesc (teardown sd) (set_test_descs descs2 sd2) g2
       = (sd3, g3, out3)
    /\ Forall (assert_event SuiteDesc) out3
    /\ __ut_run_test_suite sd g
       = Some (UT_IS_TEST_SUITE_SUCCESSED sd3, sd3, g3,
               (Call Startup :: o1) ++ out2 ++ Call Teardown :: out3)
    /\ start_suite sd1 = start_suite sd
    /\ start_suite sd2 = start_suite sd
    /\ start_suite sd3 = set_test_descs descs2 (start_suite sd)
    /\ started sd3 = true
    /\ performed_count sd3
       = Nat.iter (performed_by (teardown sd) g2
                   + (length (declared (test_descs sd))
                      + performed_by (startup sd) g))
           uint_succ 0
    /\ successed_count sd3
       = Nat.iter (successed_by (teardown sd) g2
                   + (length (filter UT_IS_TEST_SUCCESSED (declared descs2))
                      + performed_by (startup sd) g))
           uint_succ 0
    /\ asserts_on SuiteDesc
         ((Call Startup :: o1) ++ out2 ++ Call Teardown :: out3)
       = (performed_by (startup sd) g + performed_by (teardown sd) g2)%nat
    /\ failures_on SuiteDesc
         ((Call Startup :: o1) ++ out2 ++ Call Teardown :: out3)
       = (if fails (teardown sd) g2 then 1 else 0)%nat.
Proof.
  intros [Hterm Hlen] Hpass. unfold startup_passes in Hpass.
  destruct (run_startup sd g) as [[sd1 g1] out1] eqn:Hs.
  destruct (run_startup_spec _ _ _ _ _ Hs)
    as (o1 & Hc1 & -> & Hall1 & Hfr1 & Hst1 & Hp1 & Hs1 & Hok1 & Ha1 & Hf1).
  rewrite Hpass in Hok1. symmetry in Hok1. apply negb_true_iff in Hok1.
  rewrite Hok1 in Hf1.
  destruct (fails_false_performed _ _ Hok1) as [Hpb Hsb].
  unfold successed_by in Hs1. rewrite Hok1, Nat.sub_0_r in Hs1.
  destruct (start_suite_fields _ _ Hfr1) as (_ & Htd1 & _ & _ & Hdescs1).
  destruct (loop_total sd1 0 (test_descs sd) g1 Hterm)
    as (sd2 & descs2 & g2 & out2 & Hloop); [lia|].
  destruct (loop_suite _ _ _ _ _ _ _ _ Hloop) as (Hfr2 & Hst2 & Hp2 & Hs2).
  destruct (loop_calls _ _ _ _ _ _ _ _ Hloop) as (_ & Ha2 & Hf2 & _).
  destruct (start_suite_fields _ _ Hfr2) as (_ & Htd2 & _).
  destruct (call SuiteDesc (teardown sd) (set_test_descs descs2 sd2) g2)
    as [[sd3 g3] out3] eqn:Hc3.
  destruct (call_counters _ _ _ _ _ _ _ Hc3) as (Hp3 & Hs3 & Hst3).
  destruct (call_out _ _ _ _ _ _ _ Hc3) as (Hall3 & Hlen3 & Hfl3).
  pose proof (call_suite_frame _ _ _ _ _ _ _ Hc3) as Hfr3.
  exists sd1, g1, o1, sd2, descs2, g2, out2, sd3, g3, out3.
  split; [reflexivity|]. split; [exact Hpass|]. split; [exact Hok1|].
  split; [exact Hall1|]. split; [exact Hloop|]. split; [exact Hc3|].
  split; [exact Hall3|].
  split.
  { eapply run_passed; eauto.
    - rewrite Hdescs1. exact Hloop.
    - rewrite Htd2, Htd1. exact Hc3. }
  split; [exact Hfr1|]. split; [congruence|].
  split.
  { rewrite Hfr3, start_suite_set_test_descs. congruence. }
  split.
  { rewrite Hst3. change (started (set_test_descs descs2 sd2)) with (started sd2).
    congruence. }
  split.
  { rewrite Hp3.
    change (performed_count (set_test_descs descs2 sd2))
      with (performed_count sd2).
    rewrite Hp2, Hp1, <- !Nat.iter_add. f_equal. lia. }
  split.
  { rewrite Hs3.
    change (successed_count (set_test_descs descs2 sd2))
      with (successed_count sd2).
    rewrite Hs2, Hs1, <- !Nat.iter_add. f_equal. lia. }
  change (Call Startup :: o1) with ([Call Startup] ++ o1).
  change (Call Teardown :: out3) with ([Call Teardown] ++ out3).
  rewrite !asserts_on_app, !failures_on_app, Ha1, Hf1, Ha2, Hf2.
  rewrite (assert_events_asserts_on _ _ _ Hall3), Hlen3.
  rewrite (assert_events_failures_on _ _ _ Hall3), Hfl3.
  simpl. split; lia.
Qed.

(** A run whose [startup] fails, from the suite's side. *)
Lemma run_failed_spec sd g :
  startup_passes sd g = false ->
  exists sd1 g1 o1,
    run_startup sd g = (sd1, g1, Call Startup :: o1)
    /\ UT_IS_TEST_SUITE_SUCCESSED sd1 = false
    /\ fails (startup sd) g = true
    /\ Forall (assert_event SuiteDesc) o1
    /\ __ut_run_test_suite sd g = Some (false, sd1, g1, Call Startup :: o1)
    /\ start_suite sd1 = start_suite sd
    /\ started sd1 = true
    /\ performed_count sd1 = Nat.iter (performed_by (startup sd) g) uint_succ 0
    /\ successed_count sd1 = Nat.iter (successed_by (startup sd) g) uint_succ 0.
Proof.
  intros Hpass. unfold startup_passes in Hpass.
  destruct (run_startup sd g) as [[sd1 g1] out1] eqn:Hs.
  destruct (run_startup_spec _ _ _ _ _ Hs)
    as (o1 & Hc1 & -> & Hall1 & Hfr1 & Hst1 & Hp1 & Hs1 & Hok1 & _).
  exists sd1, g1, o1. rewrite Hpass in Hok1. symmetry in Hok1.
  apply negb_false_iff in Hok1.
  repeat split; auto. apply run_failed; assumption.
Qed.

End Run.

Section RunMore.

Context {G : Type}.

Implicit Types (td : __ut_test_desc G) (sd : __ut_test_suite_desc G) (g : G).

(** The calls and the attempts in the output of a run whose [startup]
    passes are those of its loop, between the calls of [startup] and
    [teardown]. *)
Lemma passed_out (o1 out2 out3 : list event) :
  Forall (assert_event SuiteDesc) o1 ->
  Forall (assert_event SuiteDesc) out3 ->
  attempts ((Call Startup :: o1) ++ out2 ++ Call Teardown :: out3)
  = attempts out2
  /\ forall f,
       count_calls f ((Call Startup :: o1) ++ out2 ++ Call Teardown :: out3)
       = ((if callee_eqb f Startup then 1 else 0) + count_calls f out2
          + (if callee_eqb f Teardown then 1 else 0))%nat.
Proof.
  intros H1 H3.
  change (Call Startup :: o1) with ([Call Startup] ++ o1).
  change (Call Teardown :: out3) with ([Call Teardown] ++ out3).
  split.
  - rewrite !attempts_app, (assert_events_attempts _ _ H1),
      (assert_events_attempts _ _ H3). simpl. apply app_nil_r.
  - intros f. rewrite !count_calls_app.
    rewrite (assert_events_count_calls _ _ _ H1),
      (assert_events_count_calls _ _ _ H3).
    unfold count_calls at 1 3. simpl.
    destruct (callee_eqb f Startup), (callee_eqb f Teardown); simpl; lia.
Qed.

(** A run reads the suite's structure only as the head of the function
    leaves it. *)
Lemma run_frame sd sd' g :
  start_suite sd' = start_suite sd ->
  run_startup sd' g = run_startup sd g
  /\ __ut_run_test_suite sd' g = __ut_run_test_suite sd g.
Proof.
  intros Hs.
  assert (Hr : run_startup sd' g = run_startup sd g).
  { unfold run_startup. rewrite Hs. reflexivity. }
  split; [exact Hr|]. unfold __ut_run_test_suite. rewrite Hr. reflexivity.
Qed.

(** C3.  When [startup] returns with the suite failed (its
    [performed_count] differs from its [successed_count]), the runner
    returns [false] there and then: the suite's structure, the user's state
    and the output are as [startup] left them.  So the array of test
    descriptors is untouched, the suite's [performed_count] counts the
    assertions of [startup] and no test, no test was attempted, no observer
    of a test fired, and neither [teardown] nor a function of a test was
    called. *)
Theorem failed_startup_ends_the_run sd g sd1 g1 out1 :
  run_startup sd g = (sd1, g1, out1) ->
  performed_count sd1 <> successed_count sd1 ->
  __ut_run_test_suite sd g = Some (false, sd1, g1, out1)
  /\ test_descs sd1 = test_descs sd
  /\ performed_count sd1 = Nat.iter (performed_by (startup sd) g) uint_succ 0
  /\ attempts out1 = []
  /\ filter is_test_observer out1 = []
  /\ count_calls Teardown out1 = 0%nat
  /\ forall i,
       count_calls (BeforeEach i) out1 = 0%nat
       /\ count_calls (TestFunc i) out1 = 0%nat
       /\ count_calls (AfterEach i) out1 = 0%nat.
Proof.
  intros Hs Hne.
  destruct (run_startup_spec _ _ _ _ _ Hs)
    as (o1 & Hc1 & -> & Hall1 & Hfr1 & Hst1 & Hp1 & _).
  destruct (start_suite_fields _ _ Hfr1) as (_ & _ & _ & _ & Hdescs).
  assert (Hok : UT_IS_TEST_SUITE_SUCCESSED sd1 = false).
  { unfold UT_IS_TEST_SUITE_SUCCESSED. apply andb_false_iff. right.
    apply Z.eqb_neq. exact Hne. }
  split; [apply run_failed; assumption|].
  split; [exact Hdescs|]. split; [exact Hp1|].
  change (Call Startup :: o1) with ([Call Startup] ++ o1).
  rewrite attempts_app, filter_app, !count_calls_app.
  rewrite (assert_events_attempts _ _ Hall1), (assert_events_observers _ _ Hall1).
  repeat split; try reflexivity; intros;
    rewrite ?count_calls_app, (assert_events_count_calls _ _ _ Hall1);
    reflexivity.
Qed.

End RunMore.

(** ** Counters that do not wrap *)


(** A call keeps [successed_count <= performed_count] while
    [performed_count] has room for the assertions of the function. *)
Lemma call_counters_ok {G D : Type} `{Descriptor D} self
    (body : list (statement G)) (d d' : D) g g' out :
  counters_ok d ->
  performed_count d + Z.of_nat (asserts body) <= UINT_MAX ->
  call self body d g = (d', g', out) ->
  counters_ok d'.
Proof.
  intros [Hle Hmax] Hroom Hcall.
  destruct (call_counters _ _ _ _ _ _ _ Hcall) as (Hp & Hs & _).
  pose proof (performed_by_asserts body g).
  pose proof (successed_by_le body g).
  rewrite iter_uint_succ_small in Hp, Hs by lia.
  unfold counters_ok. lia.
Qed.

Section Amended.

Context {G : Type}.

Implicit Types (td : __ut_test_desc G) (sd : __ut_test_suite_desc G) (g : G).

Lemma start_suite_test_descs sd sd' descs :
  start_suite sd' = set_test_descs descs (start_suite sd) ->
  test_descs sd' = descs.
Proof.
  intros Hs. change (test_descs (start_suite sd') = descs).
  rewrite Hs. reflexivity.
Qed.

Lemma successful_count_le (descs : list (__ut_test_desc G)) :
  (length (filter UT_IS_TEST_SUCCESSED descs) <= length descs)%nat.
Proof. apply filter_length_le. Qed.

Lemma startup_passes_fails sd g :
  startup_passes sd g = negb (fails (startup sd) g).
Proof.
  unfold startup_passes.
  destruct (run_startup sd g) as [[sd1 g1] out1] eqn:Hs.
  destruct (run_startup_spec _ _ _ _ _ Hs) as (o1 & _ & _ & _ & _ & _ & _ & _ & Hok & _).
  exact Hok.
Qed.

(** C2, amended.  A run of a suite that declares fewer than [UINT_MAX]
    tests returns a verdict that is [true] if and only if the suite's
    [performed_count] equals its [successed_count] when the run ends, and
    that is the case if and only if [startup] did not fail, every attempted
    test ended successful, and no assertion on the suite's structure failed
    in [teardown] either. *)
Theorem verdict_iff_nothing_failed sd g :
  well_formed sd ->
  Z.of_nat (length (declared (test_descs sd))) < UINT_MAX ->
  exists v sd' g' out,
    __ut_run_test_suite sd g = Some (v, sd', g', out)
    /\ (v = true <-> performed_count sd' = successed_count sd')
    /\ (v = true <->
        startup_passes sd g = true
        /\ forallb UT_IS_TEST_SUCCESSED (declared (test_descs sd')) = true
        /\ failures_on SuiteDesc out = 0%nat).
Proof.
  intros Hwf Hlt. destruct (startup_passes sd g) eqn:Hpass.
  - destruct (run_passed_spec _ _ Hwf Hpass)
      as (sd1 & g1 & o1 & sd2 & descs2 & g2 & out2 & sd3 & g3 & out3
          & _ & _ & _ & _ & Hloop & _ & _ & Hrun & _ & _ & Hfr3 & Hst3
          & Hp3 & Hs3 & _ & Hfl).
    destruct (loop_array _ _ _ _ _ _ _ _ Hloop) as (_ & Hlen2 & _ & _).
    pose proof (start_suite_test_descs _ _ _ Hfr3) as Hdescs3.
    pose proof (successful_count_le (declared descs2)) as HK.
    pose proof (successed_by_le (teardown sd) g2) as Hst.
    pose proof (fails_performed (teardown sd) g2) as Hfp.
    unfold successed_by in *.
    eexists _, _, _, _. split; [exact Hrun|].
    assert (Hv : UT_IS_TEST_SUITE_SUCCESSED sd3 = true
                 <-> performed_count sd3 = successed_count sd3).
    { unfold UT_IS_TEST_SUITE_SUCCESSED, UT_IS_TEST_SUITE_STARTED.
      rewrite Hst3. cbn [andb]. apply Z.eqb_eq. }
    split; [exact Hv|]. rewrite Hv, Hdescs3, Hfl, <- filter_all, Hp3, Hs3.
    split.
    + intros Heq.
      remember (performed_by (teardown sd) g2
                - (if fails (teardown sd) g2 then 1 else 0)
                + (length (filter UT_IS_TEST_SUCCESSED (declared descs2))
                   + performed_by (startup sd) g))%nat as n eqn:Hn.
      assert (Hsplit :
        (performed_by (teardown sd) g2
         + (length (declared (test_descs sd)) + performed_by (startup sd) g)
         = n + ((if fails (teardown sd) g2 then 1 else 0)
                + (length (declared (test_descs sd))
                   - length (filter UT_IS_TEST_SUCCESSED (declared descs2)))))%nat).
      { destruct (fails (teardown sd) g2); [specialize (Hfp eq_refl)|]; lia. }
      rewrite Hsplit in Heq. apply iter_uint_succ_inj in Heq.
      * destruct (fails (teardown sd) g2); [lia|].
        split; [reflexivity|]. split; [lia | reflexivity].
      * unfold UINT_MAX. lia.
      * destruct (fails (teardown sd) g2); lia.
    + intros (_ & HK' & Hf). destruct (fails (teardown sd) g2); [discriminate|].
      f_equal. lia.
  - destruct (run_failed_spec _ _ Hpass)
      as (sd1 & g1 & o1 & _ & Hok & _ & _ & Hrun & _ & Hst1 & _).
    eexists _, _, _, _. split; [exact Hrun|].
    unfold UT_IS_TEST_SUITE_SUCCESSED, UT_IS_TEST_SUITE_STARTED in Hok.
    rewrite Hst1 in Hok. cbn [andb] in Hok. apply Z.eqb_neq in Hok.
    split; split; try discriminate; try contradiction.
    intros [Hc _]. discriminate.
Qed.

(** C4, amended.  A run of a suite with [N] declared tests whose [startup]
    does not fail attempts all [N] tests in the order of the array, a
    failed test or not, and ends with the suite's [performed_count] equal,
    as an [unsigned int], to [N] plus the number of assertions performed on
    the suite's structure by [startup] and [teardown]; so it is exactly
    [N], and [successed_count] is the number of successful tests, when
    these two functions perform no assertion, and both are [0] with a
    verdict of success when moreover the array declares no test. *)
Theorem every_test_attempted_in_order sd g :
  well_formed sd ->
  startup_passes sd g = true ->
  exists v sd' g' out,
    __ut_run_test_suite sd g = Some (v, sd', g', out)
    /\ attempts out = indices 0 (length (declared (test_descs sd)))
    /\ length (declared (test_descs sd')) = length (declared (test_descs sd))
    /\ Forall (fun td => started td = true) (declared (test_descs sd'))
    /\ performed_count sd'
       = (Z.of_nat (length (declared (test_descs sd)))
          + Z.of_nat (asserts_on SuiteDesc out)) mod (UINT_MAX + 1)
    /\ (asserts_on SuiteDesc out = 0%nat ->
        performed_count sd' = Z.of_nat (length (declared (test_descs sd)))
        /\ successed_count sd'
           = Z.of_nat (length (filter UT_IS_TEST_SUCCESSED
                                 (declared (test_descs sd'))))
        /\ (declared (test_descs sd) = [] ->
            performed_count sd' = 0 /\ successed_count sd' = 0 /\ v = true)).
Proof.
  intros Hwf Hpass. pose proof Hwf as [_ Hmax].
  destruct (run_passed_spec _ _ Hwf Hpass)
    as (sd1 & g1 & o1 & sd2 & descs2 & g2 & out2 & sd3 & g3 & out3
        & _ & _ & _ & Hall1 & Hloop & _ & Hall3 & Hrun & _ & _ & Hfr3 & Hst3
        & Hp3 & Hs3 & Has & _).
  destruct (loop_array _ _ _ _ _ _ _ _ Hloop) as (_ & Hlen2 & _ & Hstarted).
  destruct (loop_calls _ _ _ _ _ _ _ _ Hloop) as (Ha2 & _).
  destruct (passed_out o1 out2 out3 Hall1 Hall3) as [Hatt _].
  pose proof (start_suite_test_descs _ _ _ Hfr3) as Hdescs3.
  pose proof (successful_count_le (declared descs2)) as HK.
  pose proof (successed_by_le (teardown sd) g2) as Hst.
  eexists _, _, _, _. split; [exact Hrun|].
  rewrite Hatt, Ha2, Hdescs3, Has.
  split; [reflexivity|]. split; [exact Hlen2|]. split; [exact Hstarted|].
  split.
  { rewrite Hp3, iter_uint_succ by (unfold UINT_MAX; lia). f_equal. lia. }
  intros Hnone.
  assert (Hps : performed_by (startup sd) g = 0%nat) by lia.
  assert (Hpt : performed_by (teardown sd) g2 = 0%nat) by lia.
  assert (Hst0 : successed_by (teardown sd) g2 = 0%nat) by lia.
  rewrite Hps, Hpt in Hp3. rewrite Hps, Hst0 in Hs3.
  rewrite Nat.add_0_l, Nat.add_0_r in Hp3, Hs3.
  rewrite iter_uint_succ_small in Hp3, Hs3 by lia.
  split; [exact Hp3|]. split; [exact Hs3|].
  intros Hnil. rewrite Hnil in *. cbn [length] in *.
  assert (HK0 : length (filter UT_IS_TEST_SUCCESSED (declared descs2)) = 0%nat)
    by lia.
  rewrite HK0 in Hs3. split; [exact Hp3|]. split; [exact Hs3|].
  unfold UT_IS_TEST_SUITE_SUCCESSED, UT_IS_TEST_SUITE_STARTED.
  rewrite Hst3, Hp3, Hs3. reflexivity.
Qed.

End Amended.

Section AmendedMore.

Context {G : Type}.

Implicit Types (td : __ut_test_desc G) (sd : __ut_test_suite_desc G) (g : G).

(** C7, amended.  Take a suite whose functions hold too few assertions for
    a counter to wrap: [UINT_MAX] bounds the assertions of [startup] and
    [teardown] plus the tests, and the assertions of [before_each], a
    test's function and [after_each].  Then a run returns, and
    [0 <= successed_count <= performed_count <= UINT_MAX] holds in the
    suite's structure when the run ends and at the beginning of every turn
    of the loop, and in the structure of every test the run attempted (the
    array is untouched when [startup] fails); and any call of a user's
    function keeps it, in either kind of structure, while
    [performed_count] has room for the assertions of the function. *)
Theorem successes_within_performed_unless_wrapped sd g :
  well_formed sd ->
  counters_fit sd ->
  exists v sd' g' out,
    __ut_run_test_suite sd g = Some (v, sd', g', out)
    /\ counters_ok sd'
    /\ (if startup_passes sd g
        then Forall counters_ok (declared (test_descs sd'))
        else test_descs sd' = test_descs sd)
    /\ (forall k sd_k td_k g_k,
          at_test sd g k = Some (sd_k, td_k, g_k) -> counters_ok sd_k)
    /\ (forall (D : Type) (HD : Descriptor D) self (body : list (statement G))
               (d d' : D) g0 g0' out0,
          counters_ok d ->
          performed_count d + Z.of_nat (asserts body) <= UINT_MAX ->
          call self body d g0 = (d', g0', out0) ->
          counters_ok d').
Proof.
  intros Hwf [Hfit Hfits].
  assert (Hcall : forall (D : Type) (HD : Descriptor D) self
                         (body : list (statement G)) (d d' : D) g0 g0' out0,
             counters_ok d ->
             performed_count d + Z.of_nat (asserts body) <= UINT_MAX ->
             call self body d g0 = (d', g0', out0) ->
             counters_ok d').
  { intros D HD self body d d' g0 g0' out0. apply call_counters_ok. }
  pose proof (performed_by_asserts (startup sd) g) as Hps.
  pose proof (successed_by_le (startup sd) g) as Hss.
  destruct (startup_passes sd g) eqn:Hpass.
  - destruct (run_passed_spec _ _ Hwf Hpass)
      as (sd1 & g1 & o1 & sd2 & descs2 & g2 & out2 & sd3 & g3 & out3
          & Hs & Hok & Hnf & _ & Hloop & _ & _ & Hrun & Hfr1 & _ & Hfr3 & _
          & Hp3 & Hs3 & _).
    pose proof (start_suite_test_descs _ _ _ Hfr3) as Hdescs3.
    pose proof (successful_count_le (declared descs2)) as HK.
    destruct (loop_array _ _ _ _ _ _ _ _ Hloop) as (_ & Hlen2 & _ & _).
    pose proof (performed_by_asserts (teardown sd) g2) as Hpt.
    pose proof (successed_by_le (teardown sd) g2) as Hst.
    eexists _, _, _, _. split; [exact Hrun|]. split; [|split; [|split]].
    + rewrite iter_uint_succ_small in Hp3, Hs3 by lia.
      unfold counters_ok. lia.
    + rewrite Hdescs3. eapply loop_tests_ok; [exact Hloop|].
      eapply Forall_impl; [|exact Hfits].
      intros td. apply test_fits_frame. exact Hfr1.
    + intros k sd_k td_k g_k Hat. unfold at_test in Hat.
      rewrite Hs, Hok in Hat. cbn [negb] in Hat.
      destruct (start_suite_fields _ _ Hfr1) as (_ & _ & _ & _ & Hdescs1).
      rewrite Hdescs1 in Hat.
      pose proof (reach_declared _ _ _ _ _ _ _ _ Hat) as Hk.
      destruct (loop_reach _ _ _ _ _ _ _ _ Hloop k Hk)
        as (sd_k' & td_k' & g_k' & Hr & _ & _ & _ & Hpk & (s & Hsk & Hsc) & _).
      rewrite Hat in Hr. inversion Hr; subst sd_k' td_k' g_k'.
      destruct (run_startup_spec _ _ _ _ _ Hs)
        as (o1' & _ & _ & _ & _ & _ & Hp1 & Hs1 & _).
      unfold successed_by in Hs1. rewrite Hnf, Nat.sub_0_r in Hs1.
      rewrite Hp1, <- Nat.iter_add in Hpk. rewrite Hs1, <- Nat.iter_add in Hsc.
      rewrite iter_uint_succ_small in Hpk, Hsc by lia.
      unfold counters_ok. lia.
    + exact Hcall.
  - destruct (run_failed_spec _ _ Hpass)
      as (sd1 & g1 & o1 & Hs & Hok & _ & _ & Hrun & Hfr1 & _ & Hp1 & Hs1).
    eexists _, _, _, _. split; [exact Hrun|]. split; [|split; [|split]].
    + rewrite iter_uint_succ_small in Hp1, Hs1 by lia.
      unfold counters_ok. lia.
    + destruct (start_suite_fields _ _ Hfr1) as (_ & _ & _ & _ & Hdescs1).
      exact Hdescs1.
    + intros k sd_k td_k g_k Hat. unfold at_test in Hat.
      rewrite Hs, Hok in Hat. discriminate.
    + exact Hcall.
Qed.


End AmendedMore.

(** ** The sample suites *)

Example two_tests_run :
  summary (__ut_run_test_suite two_tests tt)
  = Some (false, 4, 3, [(true, 3, 2); (true, 3, 3); (false, 0, 0)],
          [Call Startup; UT_ON_SUCCESSFUL_ASSERT SuiteDesc "ready";
           Call (BeforeEach 0); UT_ON_SUCCESSFUL_ASSERT (TestDesc 0) "before";
           Call (TestFunc 0); UT_ON_FAILED_ASSERT (TestDesc 0) "no";
           Call (AfterEach 0); UT_ON_SUCCESSFUL_ASSERT (TestDesc 0) "after";
           UT_ON_FAILED_TEST 0;
           Call (BeforeEach 1); UT_ON_SUCCESSFUL_ASSERT (TestDesc 1) "before";
           Call (TestFunc 1); UT_ON_SUCCESSFUL_ASSERT (TestDesc 1) "yes";
           Call (AfterEach 1); UT_ON_SUCCESSFUL_ASSERT (TestDesc 1) "after";
           UT_ON_SUCCESSFUL_TEST 1;
           Call Teardown; UT_ON_SUCCESSFUL_ASSERT SuiteDesc "done"]).
Proof. reflexivity. Qed.

Example before_each_fails_run :
  summary (__ut_run_test_suite before_each_fails tt)
  = Some (false, 1, 0, [(true, 2, 1); (false, 0, 0)],
          [Call Startup;
           Call (BeforeEach 0); UT_ON_FAILED_ASSERT (TestDesc 0) "before";
           Call (AfterEach 0); UT_ON_SUCCESSFUL_ASSERT (TestDesc 0) "after";
           UT_ON_FAILED_TEST 0;
           Call Teardown]).
Proof. reflexivity. Qed.

Example startup_fails_run :
  summary (__ut_run_test_suite startup_fails tt)
  = Some (false, 2, 1, [(false, 0, 0); (false, 0, 0)],
          [Call Startup; UT_ON_SUCCESSFUL_ASSERT SuiteDesc "ready";
           UT_ON_FAILED_ASSERT SuiteDesc "startup"]).
Proof. reflexivity. Qed.

Example teardown_fails_run :
  summary (__ut_run_test_suite teardown_fails tt)
  = Some (false, 2, 1, [(true, 1, 1); (false, 0, 0)],
          [Call Startup;
           Call (BeforeEach 0); Call (TestFunc 0);
           UT_ON_SUCCESSFUL_ASSERT (TestDesc 0) "one";
           Call (AfterEach 0); UT_ON_SUCCESSFUL_TEST 0;
           Call Teardown; UT_ON_FAILED_ASSERT SuiteDesc "teardown"]).
Proof. reflexivity. Qed.

(** An array without [UT_TEST_SUITE_END] is read past its end. *)
Example no_sentinel_run :
  __ut_run_test_suite
    (UT_DECLARE_TEST_SUITE "open" "no sentinel" [] [] [] []
       [UT_ADD_TEST "first" "passes" "t.c" 8 [passing "one"]]) tt
  = None.
Proof. reflexivity. Qed.

Lemma many_passing_then (n : nat) (rest : list (statement unit)) (g : unit) :
  fails (many_passing n ++ rest) g = fails rest g
  /\ performed_by (many_passing n ++ rest) g = (n + performed_by rest g)%nat.
Proof.
  unfold many_passing. induction n as [|n [IHf IHp]]; simpl.
  - auto.
  - rewrite IHf, IHp. auto.
Qed.


(** The first turn of a loop over an array that begins with a test. *)
Lemma loop_first_turn {G : Type} (sd sd' : __ut_test_suite_desc G) i td rest
    (g g' : G) descs' out body :
  loop sd i (td :: rest) g sd' descs' g' out ->
  func td = Some body ->
  exists sd1 td1 g1 out1 rest2,
    run_test sd i td body g = (sd1, td1, g1, out1) /\ descs' = td1 :: rest2.
Proof.
  intros Hloop Hf.
  inversion Hloop as [? ? ? ? ? Hnone
                     |? ? ? ? ? body' sd1 td1 g1 out1 ? rest2 ? out2
                        Hsome Hturn]; subst.
  - congruence.
  - rewrite Hf in Hsome. inversion Hsome; subst body'.
    exists sd1, td1, g1, out1, rest2. auto.
Qed.

(** A test with [UINT_MAX] assertions that hold and a last one that fails
    ends with a [performed_count] wrapped to [0] under its
    [successed_count]. *)
Lemma long_test_wraps (n : nat) :
  Z.of_nat n = UINT_MAX ->
  exists v sd' out td',
    __ut_run_test_suite (long_test n) tt = Some (v, sd', tt, out)
    /\ nth_error (test_descs sd') 0 = Some td'
    /\ performed_count td' = 0
    /\ successed_count td' = UINT_MAX.
Proof.
  intros Hn.
  assert (Hwf : well_formed (long_test n)).
  { split; [reflexivity|]. simpl. unfold UINT_MAX. lia. }
  assert (Hpass : startup_passes (long_test n) tt = true) by reflexivity.
  destruct (run_passed_spec _ _ Hwf Hpass)
    as (sd1 & g1 & o1 & sd2 & descs2 & g2 & out2 & sd3 & g3 & out3
        & _ & _ & _ & _ & Hloop & _ & _ & Hrun & Hfr1 & _ & Hfr3 & _).
  pose proof (start_suite_test_descs _ _ _ Hfr3) as Hdescs3.
  destruct (start_suite_fields _ _ Hfr1) as (_ & _ & Hbe & Hae & _).
  destruct (loop_first_turn _ _ _ _ _ _ _ _ _ _ Hloop eq_refl)
    as (sd1' & td1 & g1' & out1 & rest2 & Hturn & ->).
  apply run_test_inv in Hturn.
  destruct Hturn as (tdb & gb & outb & tdf & gf & outf & outa
                     & Hb & Hf & Ha & _ & _).
  rewrite Hbe in Hb. rewrite Hae in Ha.
  change (before_each (long_test n)) with (@nil (statement unit)) in Hb.
  change (after_each (long_test n)) with (@nil (statement unit)) in Ha.
  rewrite call_nil in Hb, Ha. inversion Hb; subst tdb gb outb.
  inversion Ha; subst tdf gf outa.
  change (UT_IS_TEST_SUCCESSED (start_test _)) with true in Hf.
  destruct Hf as (outf' & Hf & _).
  destruct (call_counters _ _ _ _ _ _ _ Hf) as (Hp & Hs & _).
  unfold successed_by in Hs.
  destruct (many_passing_then n [UT_FAIL "last"] g1) as [Hfl Hpb].
  rewrite Hpb, Hfl in Hs. rewrite Hpb in Hp.
  change (performed_by [UT_FAIL "last"] g1) with 1%nat in Hp, Hs.
  change (fails [UT_FAIL "last"] g1) with true in Hs.
  change (performed_count (start_test _)) with 0 in Hp.
  change (successed_count (start_test _)) with 0 in Hs.
  destruct g3.
  exists (UT_IS_TEST_SUITE_SUCCESSED sd3), sd3. eexists. exists td1.
  split; [exact Hrun|]. rewrite Hdescs3. split; [reflexivity|]. split.
  - rewrite Hp, iter_uint_succ by (unfold UINT_MAX; lia).
    rewrite Nat2Z.inj_add, Hn. reflexivity.
  - rewrite Hs, iter_uint_succ_small by lia. lia.
Qed.


(** ** Where the claims C2, C4, C7 and C9 fail as they are stated *)

(** C2 as stated: in [teardown_fails] the function [startup] does not fail
    and the one attempted test ends successful, yet the verdict is
    [false]. *)
Lemma failed_teardown_fails_a_passing_suite :
  exists v sd' out,
    __ut_run_test_suite teardown_fails tt = Some (v, sd', tt, out)
    /\ startup_passes teardown_fails tt = true
    /\ attempts out = [0]
    /\ forallb UT_IS_TEST_SUCCESSED (declared (test_descs sd')) = true
    /\ v = false.
Proof.
  eexists _, _, _. split; [reflexivity|].
  split; [reflexivity|]. split; [reflexivity|]. split; reflexivity.
Qed.

(** C4 as stated: [startup_asserts] declares no test and its [startup]
    passes, yet the suite's counters end at [1] and [1], not at [0], the
    number of its tests. *)
Lemma startup_assertion_counted_without_tests :
  exists v sd' out,
    __ut_run_test_suite startup_asserts tt = Some (v, sd', tt, out)
    /\ startup_passes startup_asserts tt = true
    /\ declared (test_descs startup_asserts) = []
    /\ performed_count sd' = 1
    /\ successed_count sd' = 1.
Proof.
  eexists _, _, _. split; [reflexivity|].
  split; [reflexivity|]. split; [reflexivity|]. split; reflexivity.
Qed.

(** C7 as stated: after a run of [long_test] with [UINT_MAX] assertions
    that hold before the one that fails, the test's [successed_count] is
    above its [performed_count]. *)
Lemma successes_exceed_performed_after_wrap :
  exists v sd' out td',
    __ut_run_test_suite (long_test (Z.to_nat UINT_MAX)) tt
    = Some (v, sd', tt, out)
    /\ nth_error (test_descs sd') 0 = Some td'
    /\ ~ successed_count td' <= performed_count td'.
Proof.
  destruct (long_test_wraps (Z.to_nat UINT_MAX))
    as (v & sd' & out & td' & Hrun & Hnth & Hp & Hs).
  { apply Z2Nat.id. unfold UINT_MAX. lia. }
  exists v, sd', out, td'. split; [exact Hrun|]. split; [exact Hnth|].
  rewrite Hp, Hs. unfold UINT_MAX. lia.
Qed.


(** ** The theorems at the sample suites *)

Lemma two_tests_well_formed : well_formed two_tests.
Proof. split; [reflexivity|]. vm_compute. discriminate. Defined.

Lemma UT_ASSERT_counts_then_aborts_witness :
  fails [passing "one"] tt = false
  /\ call (TestDesc 0) [passing "one"] fresh_test tt
     = (set_successed_count 1 (set_performed_count 1 fresh_test), tt,
        [UT_ON_SUCCESSFUL_ASSERT (TestDesc 0) "one"])
  /\ exists d2 : __ut_test_desc unit,
       performed_count d2 = 2
       /\ successed_count d2 = 1
       /\ forall post,
            call (TestDesc 0) ([passing "one"] ++ UT_FAIL "two" :: post)
              fresh_test tt
            = (d2, tt, [UT_ON_SUCCESSFUL_ASSERT (TestDesc 0) "one";
                        UT_ON_FAILED_ASSERT (TestDesc 0) "two"]).
Proof.
  assert (Hcall : call (TestDesc 0) [passing "one"] fresh_test tt
                  = (set_successed_count 1 (set_performed_count 1 fresh_test),
                     tt, [UT_ON_SUCCESSFUL_ASSERT (TestDesc 0) "one"]))
    by reflexivity.
  split; [reflexivity|]. split; [exact Hcall|].
  destruct (UT_ASSERT_counts_then_aborts (TestDesc 0) [passing "one"]
              (fun _ => false) "two" fresh_test _ tt tt _ eq_refl Hcall)
    as (_ & _ & _ & Hfalse).
  destruct (Hfalse eq_refl) as (d2 & Hp & Hs & _ & Hpost).
  exists d2. split; [exact Hp|]. split; [exact Hs|]. exact Hpost.
Defined.

Lemma never_started_is_skipped_and_failed_witness :
  started the_end = false
  /\ UT_IS_TEST_FAILED the_end = true
  /\ UT_IS_TEST_SKIPPED the_end = true
  /\ started two_tests = false
  /\ UT_IS_TEST_SUITE_FAILED two_tests = true
  /\ UT_IS_TEST_SUITE_SKIPPED two_tests = true.
Proof.
  destruct (@never_started_is_skipped_and_failed unit) as (_ & _ & Ht & Hs).
  destruct (Ht the_end eq_refl) as [Htf Hts].
  destruct (Hs two_tests eq_refl) as [Hsf Hss].
  split; [reflexivity|]. split; [exact Htf|]. split; [exact Hts|].
  split; [reflexivity|]. split; [exact Hsf | exact Hss].
Defined.

Lemma failed_startup_ends_the_run_witness :
  exists sd1 out1,
    run_startup startup_fails tt = (sd1, tt, out1)
    /\ performed_count sd1 <> successed_count sd1
    /\ __ut_run_test_suite startup_fails tt = Some (false, sd1, tt, out1)
    /\ test_descs sd1 = test_descs startup_fails
    /\ performed_count sd1 = 2
    /\ count_calls Teardown out1 = 0%nat
    /\ count_calls (BeforeEach 0) out1 = 0%nat.
Proof.
  eexists _, _. split; [vm_compute; reflexivity|].
  assert (Hne : 2 <> 1) by discriminate.
  destruct (failed_startup_ends_the_run startup_fails tt _ tt _ eq_refl Hne)
    as (Hrun & Hdescs & Hp & _ & _ & Htd & Hi).
  split; [exact Hne|]. split; [exact Hrun|]. split; [exact Hdescs|].
  split; [reflexivity|]. split; [exact Htd|]. exact (proj1 (Hi 0)).
Defined.

Lemma verdict_iff_nothing_failed_witness :
  well_formed teardown_fails
  /\ Z.of_nat (length (declared (test_descs teardown_fails))) < UINT_MAX
  /\ exists v sd' g' out,
       __ut_run_test_suite teardown_fails tt = Some (v, sd', g', out)
       /\ (v = true <-> performed_count sd' = successed_count sd')
       /\ (v = true <->
           startup_passes teardown_fails tt = true
           /\ forallb UT_IS_TEST_SUCCESSED (declared (test_descs sd')) = true
           /\ failures_on SuiteDesc out = 0%nat).
Proof.
  assert (Hwf : well_formed teardown_fails).
  { split; [reflexivity|]. vm_compute. discriminate. }
  assert (Hlt : Z.of_nat (length (declared (test_descs teardown_fails)))
                < UINT_MAX) by reflexivity.
  split; [exact Hwf|]. split; [exact Hlt|].
  apply verdict_iff_nothing_failed; assumption.
Defined.

Lemma every_test_attempted_in_order_witness :
  well_formed two_tests
  /\ startup_passes two_tests tt = true
  /\ exists v sd' g' out,
       __ut_run_test_suite two_tests tt = Some (v, sd', g', out)
       /\ attempts out = [0; 1]
       /\ performed_count sd'
          = (2 + Z.of_nat (asserts_on SuiteDesc out)) mod (UINT_MAX + 1).
Proof.
  split; [exact two_tests_well_formed|]. split; [reflexivity|].
  destruct (every_test_attempted_in_order two_tests tt
              two_tests_well_formed eq_refl)
    as (v & sd' & g' & out & Hrun & Hatt & _ & _ & Hp & _).
  exists v, sd', g', out. split; [exact Hrun|]. split; [exact Hatt|].
  exact Hp.
Defined.

Lemma successes_within_performed_unless_wrapped_witness :
  well_formed two_tests
  /\ counters_fit two_tests
  /\ exists v sd' g' out,
       __ut_run_test_suite two_tests tt = Some (v, sd', g', out)
       /\ counters_ok sd'
       /\ Forall counters_ok (declared (test_descs sd')).
Proof.
  assert (Hfit : counters_fit two_tests).
  { split; [vm_compute; discriminate|].
    repeat constructor; vm_compute; discriminate. }
  split; [exact two_tests_well_formed|]. split; [exact Hfit|].
  destruct (successes_within_performed_unless_wrapped two_tests tt
              two_tests_well_formed Hfit)
    as (v & sd' & g' & out & Hrun & Hok & Htests & _).
  exists v, sd', g', out. split; [exact Hrun|]. split; [exact Hok|].
  exact Htests.
Defined.


(** * Further properties of the runner *)

(** ** What a run that returns went through *)

Lemma failed_asserts_app (out out' : list event) :
  failed_asserts (out ++ out') = (failed_asserts out + failed_asserts out')%nat.
Proof. unfold failed_asserts. rewrite filter_app. apply length_app. Qed.

Section Returned.

Context {G : Type}.

Implicit Types (td : __ut_test_desc G) (sd : __ut_test_suite_desc G) (g : G).

(** The two ways through the function, with the phases of each. *)
Lemma run_inv sd g v sd' g' out :
  __ut_run_test_suite sd g = Some (v, sd', g', out) ->
  exists sd1 g1 o1,
    run_startup sd g = (sd1, g1, Call Startup :: o1)
    /\ Forall (assert_event SuiteDesc) o1
    /\ start_suite sd1 = start_suite sd
    /\ started sd1 = true
    /\ failed_asserts o1 = (if fails (startup sd) g then 1 else 0)%nat
    /\ ((startup_passes sd g = false
         /\ v = false /\ sd' = sd1 /\ g' = g1 /\ out = Call Startup :: o1)
        \/ (startup_passes sd g = true
            /\ exists sd2 descs2 g2 out2 out3,
                 loop sd1 0 (test_descs sd) g1 sd2 descs2 g2 out2
                 /\ call SuiteDesc (teardown sd) (set_test_descs descs2 sd2) g2
                    = (sd', g', out3)
                 /\ Forall (assert_event SuiteDesc) out3
                 /\ failed_asserts out3
                    = (if fails (teardown sd) g2 then 1 else 0)%nat
                 /\ v = UT_IS_TEST_SUITE_SUCCESSED sd'
                 /\ out = (Call Startup :: o1) ++ out2 ++ Call Teardown :: out3
                 /\ start_suite sd' = set_test_descs descs2 (start_suite sd)
                 /\ started sd' = true
                 /\ performed_count sd'
                    = Nat.iter (performed_by (teardown sd) g2
                                + (length (declared (test_descs sd))
                                   + performed_by (startup sd) g))
                        uint_succ 0
                 /\ successed_count sd'
                    = Nat.iter (successed_by (teardown sd) g2
                                + (length (filter UT_IS_TEST_SUCCESSED
                                             (declared descs2))
                                   + performed_by (startup sd) g))
                        uint_succ 0)).
Proof.
  intros Hrun. pose proof Hrun as Hrun0.
  unfold __ut_run_test_suite in Hrun. unfold startup_passes.
  destruct (run_startup sd g) as [[sd1 g1] out1] eqn:Hs.
  destruct (run_startup_spec _ _ _ _ _ Hs)
    as (o1 & Hc1 & -> & Hall1 & Hfr1 & Hst1 & Hp1 & Hs1 & Hok1 & _).
  destruct (call_out _ _ _ _ _ _ _ Hc1) as (_ & _ & Hfl1).
  exists sd1, g1, o1. split; [reflexivity|]. split; [exact Hall1|].
  split; [exact Hfr1|]. split; [exact Hst1|]. split; [exact Hfl1|].
  destruct (UT_IS_TEST_SUITE_SUCCESSED sd1) eqn:Hok; cbn [negb] in Hrun.
  - right. split; [reflexivity|].
    destruct (start_suite_fields _ _ Hfr1) as (_ & Htd1 & _ & _ & Hdescs1).
    destruct (run_tests sd1 0 (test_descs sd1) g1)
      as [[[[sd2 descs2] g2] out2]|] eqn:Hloop; [|discriminate].
    apply run_tests_loop in Hloop. rewrite Hdescs1 in Hloop.
    destruct (loop_suite _ _ _ _ _ _ _ _ Hloop) as (Hfr2 & Hst2 & Hp2 & Hs2).
    destruct (start_suite_fields _ _ Hfr2) as (_ & Htd2 & _).
    change (teardown (set_test_descs descs2 sd2)) with (teardown sd2) in Hrun.
    rewrite Htd2, Htd1 in Hrun.
    destruct (call SuiteDesc (teardown sd) (set_test_descs descs2 sd2) g2)
      as [[sd3 g3] out3] eqn:Hc3.
    inversion Hrun; subst v sd' g' out. clear Hrun.
    destruct (call_counters _ _ _ _ _ _ _ Hc3) as (Hp3 & Hs3 & Hst3).
    destruct (call_out _ _ _ _ _ _ _ Hc3) as (Hall3 & _ & Hfl3).
    pose proof (call_suite_frame _ _ _ _ _ _ _ Hc3) as Hfr3.
    symmetry in Hok1. apply negb_true_iff in Hok1.
    unfold successed_by in Hs1. rewrite Hok1, Nat.sub_0_r in Hs1.
    exists sd2, descs2, g2, out2, out3.
    split; [exact Hloop|]. split; [exact Hc3|]. split; [exact Hall3|].
    split; [exact Hfl3|]. split; [reflexivity|]. split; [reflexivity|].
    split.
    { rewrite Hfr3, start_suite_set_test_descs. congruence. }
    split.
    { rewrite Hst3.
      change (started (set_test_descs descs2 sd2)) with (started sd2).
      congruence. }
    split.
    { rewrite Hp3.
      change (performed_count (set_test_descs descs2 sd2))
        with (performed_count sd2).
      rewrite Hp2, Hp1, <- !Nat.iter_add. f_equal. lia. }
    rewrite Hs3.
    change (successed_count (set_test_descs descs2 sd2))
      with (successed_count sd2).
    rewrite Hs2, Hs1, <- !Nat.iter_add. f_equal. lia.
  - left. inversion Hrun; subst. auto.
Qed.

End Returned.

(** ** The assertions of a test *)

Lemma assert_events_failed_asserts (self : desc_ref) (out : list event) :
  Forall (assert_event self) out ->
  failures_on self out = failed_asserts out.
Proof.
  intros Hall. rewrite (assert_events_failures_on _ _ _ Hall).
  destruct self; simpl; [|rewrite Z.eqb_refl]; reflexivity.
Qed.

Section Accounts.

Context {G : Type}.

Implicit Types (td : __ut_test_desc G) (sd : __ut_test_suite_desc G) (g : G).

(** The assertions of a turn are those of its test, at most two of them
    fail, and the counters of the test have counted them. *)
Lemma run_test_account sd i td body g sd' td' g' out :
  run_test sd i td body g = (sd', td', g', out) ->
  exists p f : nat,
    (f <= 2)%nat /\ (f <= p)%nat
    /\ performed_count td' = Nat.iter p uint_succ 0
    /\ successed_count td' = Nat.iter (p - f) uint_succ 0
    /\ failed_asserts out = f
    /\ forall r,
         asserts_on r out = (if desc_ref_eqb r (TestDesc i) then p else 0)%nat
         /\ failures_on r out
            = (if desc_ref_eqb r (TestDesc i) then f else 0)%nat.
Proof.
  intros Hrun. apply run_test_inv in Hrun.
  destruct Hrun as (tdb & gb & outb & tdf & gf & outf & outa
                    & Hb & Hf & Ha & -> & _).
  destruct (call_counters _ _ _ _ _ _ _ Hb) as (Pb & Sb & Stb).
  destruct (call_out _ _ _ _ _ _ _ Hb) as (Eb & Lb & Fb).
  destruct (call_counters _ _ _ _ _ _ _ Ha) as (Pa & Sa & _).
  destruct (call_out _ _ _ _ _ _ _ Ha) as (Ea & La & Fa).
  change (performed_count (start_test td)) with 0 in Pb.
  change (successed_count (start_test td)) with 0 in Sb.
  assert (Hokb : UT_IS_TEST_SUCCESSED tdb = negb (fails (before_each sd) g)).
  { unfold UT_IS_TEST_SUCCESSED, UT_IS_TEST_STARTED. rewrite Stb.
    change (started (start_test td)) with true. cbn [andb].
    apply (call_successful _ _ _ _ _ _ _ Hb); [reflexivity|].
    change (performed_count (start_test td)) with 0. unfold UINT_MAX. lia. }
  assert (Hbody : exists outf' (pf ff : nat),
             outf = (if UT_IS_TEST_SUCCESSED tdb then [Call (TestFunc i)] else [])
                    ++ outf'
             /\ Forall (assert_event (TestDesc i)) outf'
             /\ length outf' = pf /\ failed_asserts outf' = ff
             /\ (ff <= 1)%nat /\ (ff <= pf)%nat
             /\ (fails (before_each sd) g = true -> ff = 0%nat)
             /\ performed_count tdf = Nat.iter pf uint_succ (performed_count tdb)
             /\ successed_count tdf
                = Nat.iter (pf - ff) uint_succ (successed_count tdb)).
  { destruct (UT_IS_TEST_SUCCESSED tdb).
    - destruct Hf as (outf' & Hf & ->).
      destruct (call_counters _ _ _ _ _ _ _ Hf) as (Pf & Sf & _).
      destruct (call_out _ _ _ _ _ _ _ Hf) as (Ef & Lf & Ff).
      exists outf', (performed_by body gb), (if fails body gb then 1 else 0)%nat.
      symmetry in Hokb. apply negb_true_iff in Hokb. rewrite Hokb.
      pose proof (fails_performed body gb) as Hfp.
      repeat split; auto; try discriminate.
      + destruct (fails body gb); lia.
      + destruct (fails body gb); [specialize (Hfp eq_refl)|]; lia.
    - destruct Hf as (-> & -> & ->).
      exists [], 0%nat, 0%nat. repeat split; auto. }
  destruct Hbody as (outf' & pf & ff & -> & Ef & Lf & Ff & Hff1 & Hffp & Hskip
                     & Pf & Sf).
  pose proof (fails_performed (before_each sd) g) as Hfpb.
  pose proof (fails_performed (after_each sd) gf) as Hfpa.
  unfold successed_by in Sa, Sb.
  exists (performed_by (after_each sd) gf + (pf + performed_by (before_each sd) g))%nat,
         ((if fails (after_each sd) gf then 1 else 0) + (ff
          + (if fails (before_each sd) g then 1 else 0)))%nat.
  split.
  { destruct (fails (before_each sd) g); [rewrite (Hskip eq_refl)|];
      destruct (fails (after_each sd) gf); lia. }
  split.
  { destruct (fails (before_each sd) g); [specialize (Hfpb eq_refl)|];
      (destruct (fails (after_each sd) gf); [specialize (Hfpa eq_refl)|]); lia. }
  split.
  { rewrite Pa, Pf, Pb, <- !Nat.iter_add. f_equal. lia. }
  split.
  { rewrite Sa, Sf, Sb, <- !Nat.iter_add. f_equal.
    destruct (fails (before_each sd) g); [specialize (Hfpb eq_refl)|];
      (destruct (fails (after_each sd) gf); [specialize (Hfpa eq_refl)|]); lia. }
  change (Call (BeforeEach i) :: ?l) with ([Call (BeforeEach i)] ++ l).
  change (Call (AfterEach i) :: outa) with ([Call (AfterEach i)] ++ outa).
  split.
  { rewrite !failed_asserts_app. fold (failed_asserts outb) in Fb.
    fold (failed_asserts outa) in Fa. rewrite Fb, Fa, Ff.
    destruct (UT_IS_TEST_SUCCESSED tdb), (UT_IS_TEST_SUCCESSED td');
      unfold failed_asserts; simpl; lia. }
  intros r. rewrite !asserts_on_app, !failures_on_app.
  rewrite (assert_events_asserts_on _ _ _ Eb), (assert_events_asserts_on _ _ _ Ea),
    (assert_events_asserts_on _ _ _ Ef).
  rewrite (assert_events_failures_on _ _ _ Eb), (assert_events_failures_on _ _ _ Ea),
    (assert_events_failures_on _ _ _ Ef).
  unfold failed_asserts in Ff. rewrite Fb, Fa, Ff, Lb, La, Lf.
  destruct (desc_ref_eqb r (TestDesc i));
    destruct (UT_IS_TEST_SUCCESSED tdb), (UT_IS_TEST_SUCCESSED td');
    unfold asserts_on, failures_on; simpl; split; lia.
Qed.

(** A test ends successful exactly when none of its assertions failed,
    however many it performed. *)
Lemma run_test_successful sd i td body g sd' td' g' out :
  run_test sd i td body g = (sd', td', g', out) ->
  UT_IS_TEST_SUCCESSED td' = (failed_asserts out =? 0)%nat.
Proof.
  intros Hrun.
  destruct (run_test_test _ _ _ _ _ _ _ _ _ Hrun) as [_ Hst].
  destruct (run_test_account _ _ _ _ _ _ _ _ _ Hrun)
    as (p & f & Hf2 & Hfp & Hp & Hs & Hfa & _).
  unfold UT_IS_TEST_SUCCESSED, UT_IS_TEST_STARTED. rewrite Hst, Hfa. cbn [andb].
  destruct (f =? 0)%nat eqn:Hf0.
  - apply Nat.eqb_eq in Hf0. rewrite Hf0, Nat.sub_0_r in Hs.
    rewrite Hp, Hs. apply Z.eqb_refl.
  - apply Nat.eqb_neq in Hf0. apply Z.eqb_neq. intros Heq.
    rewrite Hp, Hs in Heq.
    remember (p - f)%nat as n eqn:Hn.
    replace p with (n + f)%nat in Heq by lia.
    apply iter_uint_succ_inj in Heq; [contradiction| |];
      unfold UINT_MAX; lia.
Qed.

End Accounts.

(** ** The loop, test by test *)

Section LoopTests.

Context {G : Type}.

Implicit Types (td : __ut_test_desc G) (sd : __ut_test_suite_desc G) (g : G).

Lemma same_declaration_refl td : same_declaration td td.
Proof. unfold same_declaration. auto. Qed.

Lemma start_test_same td td' :
  start_test td' = start_test td -> same_declaration td td'.
Proof.
  intros Hs.
  change (test_name (start_test td') = test_name (start_test td)
          /\ test_description (start_test td') = test_description (start_test td)
          /\ file (start_test td') = file (start_test td)
          /\ line (start_test td') = line (start_test td)
          /\ func (start_test td') = func (start_test td)).
  rewrite Hs. auto.
Qed.

Lemma Forall2_same_declaration (descs : list (__ut_test_desc G)) :
  Forall2 same_declaration descs descs.
Proof.
  induction descs; constructor; [apply same_declaration_refl | assumption].
Qed.

(** The loop keeps what the declarations gave, and keeps the array from
    [UT_TEST_SUITE_END] on as it is. *)
Lemma loop_frame sd i descs g sd' descs' g' out :
  loop sd i descs g sd' descs' g' out ->
  Forall2 same_declaration descs descs'
  /\ skipn (length (declared descs)) descs'
     = skipn (length (declared descs)) descs.
Proof.
  induction 1 as [sd i td rest g Hf
                 |sd i td rest g body sd1 td1 g1 out1 sd2 rest2 g2 out2
                    Hf Hturn Hi _ IH]; cbn [declared]; rewrite Hf.
  - split; [apply Forall2_same_declaration | reflexivity].
  - destruct (run_test_test _ _ _ _ _ _ _ _ _ Hturn) as [Fs _].
    destruct IH as [IHd IHs]. cbn [length skipn].
    split; [constructor; [apply start_test_same; exact Fs | exact IHd]|].
    exact IHs.
Qed.

(** The loop entered at [i] performs no assertion on an earlier entry. *)
Lemma loop_asserts_below sd i descs g sd' descs' g' out :
  loop sd i descs g sd' descs' g' out ->
  forall j, j < i ->
    asserts_on (TestDesc j) out = 0%nat /\ failures_on (TestDesc j) out = 0%nat.
Proof.
  induction 1 as [sd i td rest g Hf
                 |sd i td rest g body sd1 td1 g1 out1 sd2 rest2 g2 out2
                    Hf Hturn Hi _ IH]; intros j Hj.
  - split; reflexivity.
  - destruct (run_test_account _ _ _ _ _ _ _ _ _ Hturn)
      as (p & f & _ & _ & _ & _ & _ & Hr).
    destruct (Hr (TestDesc j)) as [Ha Hfl]. cbn [desc_ref_eqb] in Ha, Hfl.
    destruct (j =? i) eqn:E; [apply Z.eqb_eq in E; lia|].
    destruct (IH j) as [IHa IHf]; [lia|].
    rewrite asserts_on_app, failures_on_app, Ha, Hfl, IHa, IHf. auto.
Qed.

(** The counters of every test count the assertions the output shows for
    it, and the test is successful exactly when none of them failed. *)
Lemma loop_accounts sd i descs g sd' descs' g' out :
  loop sd i descs g sd' descs' g' out ->
  forall k td',
    nth_error (declared descs') k = Some td' ->
    let p := asserts_on (TestDesc (i + Z.of_nat k)) out in
    let f := failures_on (TestDesc (i + Z.of_nat k)) out in
    (f <= 2)%nat /\ (f <= p)%nat
    /\ performed_count td' = Nat.iter p uint_succ 0
    /\ successed_count td' = Nat.iter (p - f) uint_succ 0
    /\ UT_IS_TEST_SUCCESSED td' = (f =? 0)%nat.
Proof.
  induction 1 as [sd i td rest g Hf
                 |sd i td rest g body sd1 td1 g1 out1 sd2 rest2 g2 out2
                    Hf Hturn Hi Hloop IH]; intros k td' Hnth;
    cbn [declared] in Hnth.
  - rewrite Hf in Hnth. destruct k; discriminate.
  - destruct (run_test_test _ _ _ _ _ _ _ _ _ Hturn) as [Fs _].
    rewrite (start_test_func _ _ Fs), Hf in Hnth.
    pose proof (run_test_successful _ _ _ _ _ _ _ _ _ Hturn) as Hok.
    destruct (run_test_account _ _ _ _ _ _ _ _ _ Hturn)
      as (p1 & f1 & Hf2 & Hfp & Hp & Hs & Hfa & Hr).
    cbv zeta. rewrite asserts_on_app, failures_on_app.
    destruct k as [|k]; cbn [nth_error] in Hnth.
    + inversion Hnth; subst td'. change (Z.of_nat 0) with 0. rewrite Z.add_0_r.
      destruct (Hr (TestDesc i)) as [Ha Hfl]. cbn [desc_ref_eqb] in Ha, Hfl.
      rewrite Z.eqb_refl in Ha, Hfl.
      destruct (loop_asserts_below _ _ _ _ _ _ _ _ Hloop i) as [Ha2 Hf2'];
        [lia|].
      rewrite Ha, Hfl, Ha2, Hf2', !Nat.add_0_r, Hok, Hfa. auto.
    + replace (i + Z.of_nat (S k)) with (i + 1 + Z.of_nat k) by lia.
      destruct (Hr (TestDesc (i + 1 + Z.of_nat k))) as [Ha Hfl].
      cbn [desc_ref_eqb] in Ha, Hfl.
      destruct (i + 1 + Z.of_nat k =? i) eqn:E; [apply Z.eqb_eq in E; lia|].
      rewrite Ha, Hfl. cbn [Nat.add]. apply (IH k td' Hnth).
Qed.

(** No assertion fails in the loop exactly when every test ends
    successful. *)
Lemma loop_failed_asserts sd i descs g sd' descs' g' out :
  loop sd i descs g sd' descs' g' out ->
  failed_asserts out = 0%nat
  <-> forallb UT_IS_TEST_SUCCESSED (declared descs') = true.
Proof.
  induction 1 as [sd i td rest g Hf
                 |sd i td rest g body sd1 td1 g1 out1 sd2 rest2 g2 out2
                    Hf Hturn Hi Hloop IH]; cbn [declared].
  - rewrite Hf. simpl. tauto.
  - destruct (run_test_test _ _ _ _ _ _ _ _ _ Hturn) as [Fs _].
    rewrite (start_test_func _ _ Fs), Hf. cbn [forallb].
    rewrite (run_test_successful _ _ _ _ _ _ _ _ _ Hturn).
    rewrite failed_asserts_app, andb_true_iff, <- IH, Nat.eqb_eq. lia.
Qed.

(** One observer of a test per turn, telling how the test ended. *)
Lemma loop_observers sd i descs g sd' descs' g' out :
  loop sd i descs g sd' descs' g' out ->
  filter is_test_observer out = test_observers i (declared descs').
Proof.
  induction 1 as [sd i td rest g Hf
                 |sd i td rest g body sd1 td1 g1 out1 sd2 rest2 g2 out2
                    Hf Hturn Hi Hloop IH]; cbn [declared].
  - rewrite Hf. reflexivity.
  - destruct (run_test_test _ _ _ _ _ _ _ _ _ Hturn) as [Fs _].
    rewrite (start_test_func _ _ Fs), Hf. cbn [test_observers].
    destruct (call (TestDesc i) (before_each sd) (start_test td) g)
      as [[tdb gb] outb] eqn:Hb.
    destruct (run_test_out _ _ _ _ _ _ _ _ _ Hturn _ _ _ Hb)
      as (_ & _ & _ & _ & Hobs).
    rewrite filter_app, Hobs, IH. reflexivity.
Qed.

(** The calls of the loop, turn by turn. *)
Lemma loop_turns sd i descs g sd' descs' g' out :
  loop sd i descs g sd' descs' g' out ->
  exists ran,
    length ran = length (declared descs) /\ calls out = turns i ran.
Proof.
  induction 1 as [sd i td rest g Hf
                 |sd i td rest g body sd1 td1 g1 out1 sd2 rest2 g2 out2
                    Hf Hturn Hi Hloop IH]; cbn [declared]; rewrite Hf.
  - exists []. split; reflexivity.
  - destruct (call (TestDesc i) (before_each sd) (start_test td) g)
      as [[tdb gb] outb] eqn:Hb.
    destruct (run_test_out _ _ _ _ _ _ _ _ _ Hturn _ _ _ Hb) as (Hc & _).
    destruct IH as (ran & Hlen & Hcalls).
    exists (UT_IS_TEST_SUCCESSED tdb :: ran). cbn [length turns].
    split; [congruence|]. rewrite calls_app, Hc, Hcalls. reflexivity.
Qed.

(** The loop has no result when the array has no [UT_TEST_SUITE_END] an
    [unsigned int] index reaches. *)
Lemma run_tests_none sd i descs g :
  i <= UINT_MAX ->
  ~ (terminated descs = true
     /\ i + Z.of_nat (length (declared descs)) <= UINT_MAX) ->
  run_tests sd i descs g = None.
Proof.
  revert sd i g. induction descs as [|td rest IH]; intros sd i g Hi Hbad;
    cbn [run_tests terminated declared] in *.
  - reflexivity.
  - destruct (func td) as [body|].
    + destruct (run_test sd i td body g) as [[[sd1 td1] g1] out1].
      destruct (i =? UINT_MAX) eqn:E; [reflexivity|].
      apply Z.eqb_neq in E. rewrite IH; [reflexivity | lia |].
      intros [Ht Hlen]. apply Hbad. split; [exact Ht|].
      cbn [length]. lia.
    + exfalso. apply Hbad. split; [reflexivity|]. simpl. lia.
Qed.

End LoopTests.

(** ** A run, test by test *)

(** Counters advanced from [0] as the suite's are, with [K] of [N] tests
    successful and [ft] failed assertions in [teardown], are equal exactly
    when [K] is [N] and [ft] is [0]. *)
Lemma suite_counters_equal_iff (pt ft N K ps : nat) :
  (ft <= 1)%nat -> (ft <= pt)%nat -> (K <= N)%nat ->
  Z.of_nat N < UINT_MAX ->
  Nat.iter (pt + (N + ps)) uint_succ 0 = Nat.iter (pt - ft + (K + ps)) uint_succ 0
  <-> K = N /\ ft = 0%nat.
Proof.
  intros Hft1 Hftp HK HN. split.
  - intros Heq.
    replace (pt + (N + ps))%nat
      with (pt - ft + (K + ps) + (ft + (N - K)))%nat in Heq by lia.
    apply iter_uint_succ_inj in Heq; [lia | unfold UINT_MAX; lia | lia].
  - intros [-> ->]. f_equal. lia.
Qed.

Section RunTests.

Context {G : Type}.

Implicit Types (td : __ut_test_desc G) (sd : __ut_test_suite_desc G) (g : G).

(** The assertions on a test in the output of a run whose [startup] passes
    are those of the loop. *)
Lemma passed_out_tests (o1 out2 out3 : list event) (k : Z) :
  Forall (assert_event SuiteDesc) o1 ->
  Forall (assert_event SuiteDesc) out3 ->
  asserts_on (TestDesc k) ((Call Startup :: o1) ++ out2 ++ Call Teardown :: out3)
  = asserts_on (TestDesc k) out2
  /\ failures_on (TestDesc k)
       ((Call Startup :: o1) ++ out2 ++ Call Teardown :: out3)
     = failures_on (TestDesc k) out2.
Proof.
  intros H1 H3.
  change (Call Startup :: o1) with ([Call Startup] ++ o1).
  change (Call Teardown :: out3) with ([Call Teardown] ++ out3).
  rewrite !asserts_on_app, !failures_on_app.
  rewrite (assert_events_asserts_on _ _ _ H1), (assert_events_asserts_on _ _ _ H3),
    (assert_events_failures_on _ _ _ H1), (assert_events_failures_on _ _ _ H3).
  unfold asserts_on, failures_on. simpl. split; lia.
Qed.

Lemma suite_fields_kept sd sd' descs :
  start_suite sd' = set_test_descs descs (start_suite sd) ->
  suite_name sd' = suite_name sd
  /\ suite_description sd' = suite_description sd
  /\ startup sd' = startup sd /\ teardown sd' = teardown sd
  /\ before_each sd' = before_each sd /\ after_each sd' = after_each sd.
Proof.
  intros Hs.
  change (suite_name (start_suite sd') = suite_name sd
          /\ suite_description (start_suite sd') = suite_description sd
          /\ startup (start_suite sd') = startup sd
          /\ teardown (start_suite sd') = teardown sd
          /\ before_each (start_suite sd') = before_each sd
          /\ after_each (start_suite sd') = after_each sd).
  rewrite Hs. repeat split.
Qed.

(** X1.  A run that returns has changed [started], [performed_count] and
    [successed_count] only: the suite keeps its name, its description and
    its four functions, every entry of the array keeps its name, its
    description, its file, its line and its function, and the entries from
    [UT_TEST_SUITE_END] on are as they were; when [startup] fails the whole
    array is as it was. *)
Theorem run_changes_only_the_counters sd g v sd' g' out :
  __ut_run_test_suite sd g = Some (v, sd', g', out) ->
  (suite_name sd' = suite_name sd
   /\ suite_description sd' = suite_description sd
   /\ startup sd' = startup sd /\ teardown sd' = teardown sd
   /\ before_each sd' = before_each sd /\ after_each sd' = after_each sd)
  /\ Forall2 same_declaration (test_descs sd) (test_descs sd')
  /\ skipn (length (declared (test_descs sd))) (test_descs sd')
     = skipn (length (declared (test_descs sd))) (test_descs sd)
  /\ (startup_passes sd g = false -> test_descs sd' = test_descs sd).
Proof.
  intros Hrun.
  destruct (run_inv _ _ _ _ _ _ Hrun)
    as (sd1 & g1 & o1 & _ & _ & Hfr1 & _ & _
        & [(Hpass & _ & -> & _ & _)
          |(Hpass & sd2 & descs2 & g2 & out2 & out3 & Hloop & _ & _ & _ & _ & _
            & Hfr3 & _)]).
  - destruct (start_suite_fields _ _ Hfr1) as (_ & _ & _ & _ & Hdescs).
    split; [apply (suite_fields_kept sd sd1 (test_descs sd)); rewrite Hfr1;
            reflexivity|].
    rewrite Hdescs.
    split; [apply Forall2_same_declaration|]. split; [reflexivity|]. auto.
  - destruct (loop_frame _ _ _ _ _ _ _ _ Hloop) as [Hd Hs].
    rewrite (start_suite_test_descs _ _ _ Hfr3).
    split; [exact (suite_fields_kept _ _ _ Hfr3)|].
    split; [exact Hd|]. split; [exact Hs|]. rewrite Hpass. discriminate.
Qed.

(** X2.  In a run whose [startup] passes, a test ends successful exactly
    when the failed-assertion observer fired for none of its assertions,
    those of [before_each] and [after_each] included, and failed when it
    fired for one; it fires at most twice for a test.  This holds however
    many assertions the test performs. *)
Theorem test_successful_iff_no_failed_assertion sd g v sd' g' out :
  __ut_run_test_suite sd g = Some (v, sd', g', out) ->
  startup_passes sd g = true ->
  forall k td',
    nth_error (declared (test_descs sd')) k = Some td' ->
    (failures_on (TestDesc (Z.of_nat k)) out <= 2)%nat
    /\ (UT_IS_TEST_SUCCESSED td' = true
        <-> failures_on (TestDesc (Z.of_nat k)) out = 0%nat)
    /\ (UT_IS_TEST_FAILED td' = true
        <-> (1 <= failures_on (TestDesc (Z.of_nat k)) out)%nat).
Proof.
  intros Hrun Hpass k td' Hnth.
  destruct (run_inv _ _ _ _ _ _ Hrun)
    as (sd1 & g1 & o1 & _ & Hall1 & _ & _ & _
        & [(Hpass' & _)
          |(_ & sd2 & descs2 & g2 & out2 & out3 & Hloop & _ & Hall3 & _ & _ & ->
            & Hfr3 & _)]); [congruence|].
  rewrite (start_suite_test_descs _ _ _ Hfr3) in Hnth.
  destruct (passed_out_tests o1 out2 out3 (Z.of_nat k) Hall1 Hall3) as [_ ->].
  destruct (loop_accounts _ _ _ _ _ _ _ _ Hloop k td' Hnth)
    as (Hf2 & _ & _ & _ & Hok).
  rewrite Z.add_0_l in Hf2, Hok. unfold UT_IS_TEST_FAILED. rewrite Hok.
  split; [exact Hf2|].
  destruct (failures_on (TestDesc (Z.of_nat k)) out2) as [|n]; simpl.
  - split; split; auto; try discriminate; lia.
  - split; split; auto; try discriminate; lia.
Qed.

(** X3.  In a run whose [startup] passes, the counters of a test end as the
    numbers of observers the output shows for it: [performed_count] as the
    number of its assertion observers, [successed_count] as the number of
    the successful ones, each as an [unsigned int]. *)
Theorem test_counters_count_its_observers sd g v sd' g' out :
  __ut_run_test_suite sd g = Some (v, sd', g', out) ->
  startup_passes sd g = true ->
  forall k td',
    nth_error (declared (test_descs sd')) k = Some td' ->
    (failures_on (TestDesc (Z.of_nat k)) out
     <= asserts_on (TestDesc (Z.of_nat k)) out)%nat
    /\ performed_count td'
       = Z.of_nat (asserts_on (TestDesc (Z.of_nat k)) out) mod (UINT_MAX + 1)
    /\ successed_count td'
       = Z.of_nat (asserts_on (TestDesc (Z.of_nat k)) out
                   - failures_on (TestDesc (Z.of_nat k)) out)
         mod (UINT_MAX + 1).
Proof.
  intros Hrun Hpass k td' Hnth.
  destruct (run_inv _ _ _ _ _ _ Hrun)
    as (sd1 & g1 & o1 & _ & Hall1 & _ & _ & _
        & [(Hpass' & _)
          |(_ & sd2 & descs2 & g2 & out2 & out3 & Hloop & _ & Hall3 & _ & _ & ->
            & Hfr3 & _)]); [congruence|].
  rewrite (start_suite_test_descs _ _ _ Hfr3) in Hnth.
  destruct (passed_out_tests o1 out2 out3 (Z.of_nat k) Hall1 Hall3) as [-> ->].
  destruct (loop_accounts _ _ _ _ _ _ _ _ Hloop k td' Hnth)
    as (_ & Hfp & Hp & Hs & _).
  rewrite Z.add_0_l in Hfp, Hp, Hs.
  rewrite iter_uint_succ in Hp, Hs by (unfold UINT_MAX; lia).
  rewrite Z.add_0_l in Hp, Hs. auto.
Qed.

(** X4.  The runner fires exactly one observer of a test for each test it
    attempts, in the order of the array: [UT_ON_SUCCESSFUL_TEST] when the
    test ended successful and [UT_ON_FAILED_TEST] when it did not; it fires
    none when [startup] fails. *)
Theorem one_test_observer_per_test sd g v sd' g' out :
  __ut_run_test_suite sd g = Some (v, sd', g', out) ->
  filter is_test_observer out
  = if startup_passes sd g then test_observers 0 (declared (test_descs sd'))
    else [].
Proof.
  intros Hrun.
  destruct (run_inv _ _ _ _ _ _ Hrun)
    as (sd1 & g1 & o1 & _ & Hall1 & _ & _ & _
        & [(Hpass & _ & _ & _ & ->)
          |(Hpass & sd2 & descs2 & g2 & out2 & out3 & Hloop & _ & Hall3 & _ & _
            & -> & Hfr3 & _)]); rewrite Hpass.
  - change (Call Startup :: o1) with ([Call Startup] ++ o1).
    rewrite filter_app, (assert_events_observers _ _ Hall1). reflexivity.
  - rewrite (start_suite_test_descs _ _ _ Hfr3).
    change (Call Startup :: o1) with ([Call Startup] ++ o1).
    change (Call Teardown :: out3) with ([Call Teardown] ++ out3).
    rewrite !filter_app, (assert_events_observers _ _ Hall1),
      (assert_events_observers _ _ Hall3), (loop_observers _ _ _ _ _ _ _ _ Hloop).
    simpl. apply app_nil_r.
Qed.

(** X6.  For a suite that declares fewer than [UINT_MAX] tests, the verdict
    of a run is [true] exactly when the failed-assertion observer fired
    for no assertion at all, in [startup], in [teardown] or in a test. *)
Theorem verdict_true_iff_no_assertion_failed sd g v sd' g' out :
  __ut_run_test_suite sd g = Some (v, sd', g', out) ->
  Z.of_nat (length (declared (test_descs sd))) < UINT_MAX ->
  v = true <-> failed_asserts out = 0%nat.
Proof.
  intros Hrun HN.
  destruct (run_inv _ _ _ _ _ _ Hrun)
    as (sd1 & g1 & o1 & _ & Hall1 & _ & _ & Hfl1
        & [(Hpass & -> & _ & _ & ->)
          |(Hpass & sd2 & descs2 & g2 & out2 & out3 & Hloop & _ & Hall3 & Hfl3
            & -> & -> & _ & Hst3 & Hp3 & Hs3)]);
    rewrite startup_passes_fails in Hpass.
  - apply negb_false_iff in Hpass. rewrite Hpass in Hfl1.
    change (Call Startup :: o1) with ([Call Startup] ++ o1).
    rewrite failed_asserts_app, Hfl1. split; [discriminate | simpl; lia].
  - apply negb_true_iff in Hpass. rewrite Hpass in Hfl1.
    destruct (loop_array _ _ _ _ _ _ _ _ Hloop) as (_ & Hlen2 & _ & _).
    pose proof (loop_failed_asserts _ _ _ _ _ _ _ _ Hloop) as Hloopf.
    pose proof (filter_length_le UT_IS_TEST_SUCCESSED (declared descs2)) as HK.
    pose proof (fails_performed (teardown sd) g2) as Hfp.
    change (Call Startup :: o1) with ([Call Startup] ++ o1).
    change (Call Teardown :: out3) with ([Call Teardown] ++ out3).
    rewrite !failed_asserts_app, Hfl1, Hfl3.
    unfold UT_IS_TEST_SUITE_SUCCESSED, UT_IS_TEST_SUITE_STARTED.
    rewrite Hst3. cbn [andb]. rewrite Z.eqb_eq, Hp3, Hs3.
    unfold successed_by.
    rewrite suite_counters_equal_iff;
      [| destruct (fails (teardown sd) g2); lia
       | destruct (fails (teardown sd) g2); [specialize (Hfp eq_refl)|]; lia
       | lia | exact HN].
    rewrite <- Hlen2, filter_all, <- Hloopf.
    unfold failed_asserts at 1 3. simpl.
    destruct (fails (teardown sd) g2); lia.
Qed.

(** X7.  After a run that returns, the inspection macros of the suite tell
    the verdict: [UT_IS_TEST_SUITE_SUCCESSED] on the suite's structure is
    the value returned, [UT_IS_TEST_SUITE_FAILED] its negation, and the
    suite is started, not skipped, also when [startup] failed. *)
Theorem verdict_is_the_suite_macro sd g v sd' g' out :
  __ut_run_test_suite sd g = Some (v, sd', g', out) ->
  UT_IS_TEST_SUITE_SUCCESSED sd' = v
  /\ UT_IS_TEST_SUITE_FAILED sd' = negb v
  /\ UT_IS_TEST_SUITE_STARTED sd' = true
  /\ UT_IS_TEST_SUITE_SKIPPED sd' = false.
Proof.
  intros Hrun.
  assert (Hv : UT_IS_TEST_SUITE_SUCCESSED sd' = v /\ started sd' = true).
  { destruct (run_inv _ _ _ _ _ _ Hrun)
      as (sd1 & g1 & o1 & Hs & _ & _ & Hst1 & _
          & [(Hpass & -> & -> & _ & _)
            |(_ & sd2 & descs2 & g2 & out2 & out3 & _ & _ & _ & _ & -> & _ & _
              & Hst3 & _)]).
    - unfold startup_passes in Hpass. rewrite Hs in Hpass. auto.
    - auto. }
  destruct Hv as [Hv Hst].
  unfold UT_IS_TEST_SUITE_FAILED, UT_IS_TEST_SUITE_SKIPPED,
    UT_IS_TEST_SUITE_STARTED.
  rewrite Hv, Hst. auto.
Qed.

(** X8.  The runner returns exactly when [startup] fails or the array ends
    in [UT_TEST_SUITE_END] at an index an [unsigned int] reaches: with a
    passing [startup] and no such entry, the loop reads past the array or
    never ends. *)
Theorem runner_returns_iff sd g :
  __ut_run_test_suite sd g <> None
  <-> startup_passes sd g = false \/ well_formed sd.
Proof.
  split.
  - intros Hsome. destruct (startup_passes sd g) eqn:Hpass; [|auto]. right.
    destruct (terminated (test_descs sd)) eqn:Ht.
    + destruct (Z_le_dec (Z.of_nat (length (declared (test_descs sd)))) UINT_MAX)
        as [Hle|Hgt]; [split; assumption|].
      exfalso. apply Hsome. unfold __ut_run_test_suite.
      unfold startup_passes in Hpass.
      destruct (run_startup sd g) as [[sd1 g1] out1] eqn:Hs.
      destruct (run_startup_spec _ _ _ _ _ Hs) as (o1 & _ & _ & _ & Hfr1 & _).
      destruct (start_suite_fields _ _ Hfr1) as (_ & _ & _ & _ & Hdescs).
      rewrite Hpass, Hdescs. cbn [negb].
      rewrite run_tests_none; [reflexivity | unfold UINT_MAX; lia |].
      intros [_ Hlen]. lia.
    + exfalso. apply Hsome. unfold __ut_run_test_suite.
      unfold startup_passes in Hpass.
      destruct (run_startup sd g) as [[sd1 g1] out1] eqn:Hs.
      destruct (run_startup_spec _ _ _ _ _ Hs) as (o1 & _ & _ & _ & Hfr1 & _).
      destruct (start_suite_fields _ _ Hfr1) as (_ & _ & _ & _ & Hdescs).
      rewrite Hpass, Hdescs. cbn [negb].
      rewrite run_tests_none; [reflexivity | unfold UINT_MAX; lia |].
      intros [Ht' _]. congruence.
  - intros Hcase. destruct (startup_passes sd g) eqn:Hpass.
    + destruct Hcase as [Hc|Hwf]; [discriminate|].
      destruct (run_passed_spec _ _ Hwf Hpass)
        as (sd1 & g1 & o1 & sd2 & descs2 & g2 & out2 & sd3 & g3 & out3
            & _ & _ & _ & _ & _ & _ & _ & Hrun & _).
      rewrite Hrun. discriminate.
    + destruct (run_failed_spec _ _ Hpass)
        as (sd1 & g1 & o1 & _ & _ & _ & _ & Hrun & _).
      rewrite Hrun. discriminate.
Qed.

End RunTests.

(** * The typed equality assertions *)

(** ** Strings *)

Lemma string_length_append (s s' : string) :
  String.length (s ++ s') = (String.length s + String.length s')%nat.
Proof. induction s as [|c s IH]; simpl; [|rewrite IH]; reflexivity. Qed.

Lemma string_append_assoc (s s' s'' : string) :
  ((s ++ s') ++ s'')%string = (s ++ (s' ++ s''))%string.
Proof. induction s as [|c s IH]; simpl; [|rewrite IH]; reflexivity. Qed.

Lemma no_null_append (s s' : string) :
  no_null (s ++ s') = no_null s && no_null s'.
Proof.
  induction s as [|c s IH]; simpl; [reflexivity|].
  rewrite IH. apply andb_assoc.
Qed.

Lemma c_str_no_null (s : string) : no_null (c_str s) = true.
Proof.
  induction s as [|c s IH]; simpl; [reflexivity|].
  destruct (c =? zero)%char eqn:E; simpl; [reflexivity|].
  rewrite E, IH. reflexivity.
Qed.

Lemma c_str_id (s : string) : no_null s = true -> c_str s = s.
Proof.
  induction s as [|c s IH]; simpl; [reflexivity|].
  destruct (c =? zero)%char; simpl; [discriminate|].
  intros Hs. rewrite IH by exact Hs. reflexivity.
Qed.

Lemma c_str_length (s : string) :
  (String.length (c_str s) <= String.length s)%nat.
Proof.
  induction s as [|c s IH]; simpl; [lia|].
  destruct (c =? zero)%char; simpl; lia.
Qed.

(** A string is cut at its first null character. *)
Lemma c_str_cut (s s' : string) :
  no_null s = true -> c_str (s ++ String zero s') = s.
Proof.
  induction s as [|c s IH]; simpl; [reflexivity|].
  destruct (c =? zero)%char; simpl; [discriminate|].
  intros Hs. rewrite IH by exact Hs. reflexivity.
Qed.

(** ** The conversions *)

Lemma digit_not_null (d : Z) : 0 <= d < 16 -> (digit d =? zero)%char = false.
Proof.
  intros Hd.
  assert (Hcases : d = 0 \/ d = 1 \/ d = 2 \/ d = 3 \/ d = 4 \/ d = 5 \/ d = 6
                   \/ d = 7 \/ d = 8 \/ d = 9 \/ d = 10 \/ d = 11 \/ d = 12
                   \/ d = 13 \/ d = 14 \/ d = 15) by lia.
  repeat (destruct Hcases as [->|Hcases]; [reflexivity|]).
  subst d. reflexivity.
Qed.

Lemma digits_no_null (fuel : nat) (base n : Z) (acc : string) :
  2 <= base <= 16 -> no_null acc = true ->
  no_null (digits fuel base n acc) = true.
Proof.
  intros Hbase. revert n acc.
  induction fuel as [|fuel IH]; intros n acc Hacc; cbn [digits]; [exact Hacc|].
  assert (Hd : no_null (String (digit (n mod base)) acc) = true).
  { cbn [no_null]. rewrite digit_not_null, Hacc; [reflexivity|].
    pose proof (Z.mod_pos_bound n base). lia. }
  destruct (n / base =? 0); [exact Hd | apply IH; exact Hd].
Qed.

(** A number below [base ^ k] has at most [k] digits. *)
Lemma digits_length (fuel : nat) (base : Z) :
  2 <= base ->
  forall (k : nat) (n : Z) (acc : string),
    (1 <= k)%nat -> 0 <= n < base ^ Z.of_nat k ->
    (String.length (digits fuel base n acc) <= String.length acc + k)%nat.
Proof.
  intros Hbase.
  induction fuel as [|fuel IH]; intros k n acc Hk Hn; cbn [digits]; [lia|].
  destruct (n / base =? 0) eqn:E.
  - change (S (String.length acc) <= String.length acc + k)%nat. lia.
  - apply Z.eqb_neq in E.
    assert (Hge : base <= n).
    { destruct (Z_lt_le_dec n base) as [Hlt|Hge]; [|exact Hge].
      exfalso. apply E. apply Z.div_small. lia. }
    destruct k as [|[|k]]; [lia | rewrite Z.pow_1_r in Hn; lia |].
    specialize (IH (S k) (n / base) (String (digit (n mod base)) acc)).
    change (String.length (String (digit (n mod base)) acc))
      with (S (String.length acc)) in IH.
    rewrite Nat.add_succ_r.
    apply IH; [lia|]. split; [apply Z.div_pos; lia|].
    apply Z.div_lt_upper_bound; [lia|].
    replace (Z.of_nat (S (S k))) with (Z.succ (Z.of_nat (S k))) in Hn by lia.
    rewrite Z.pow_succ_r in Hn by lia. lia.
Qed.

Lemma conv_d_length (n : Z) :
  INT_MIN <= n <= INT_MAX -> (String.length (conv_d n) <= 11)%nat.
Proof.
  unfold INT_MIN, INT_MAX, conv_d, conv_u. intros Hn.
  assert (Hpow : 10 ^ Z.of_nat 10 = 10000000000) by reflexivity.
  destruct (n <? 0) eqn:E.
  - apply Z.ltb_lt in E.
    change (S (String.length (digits 32 10 (- n) EmptyString)) <= 11)%nat.
    pose proof (digits_length 32 10 ltac:(lia) 10 (- n) EmptyString
                  ltac:(lia) ltac:(lia)) as Hlen.
    change (String.length EmptyString) with 0%nat in Hlen. lia.
  - apply Z.ltb_ge in E.
    pose proof (digits_length 32 10 ltac:(lia) 10 n EmptyString
                  ltac:(lia) ltac:(lia)) as Hlen.
    change (String.length EmptyString) with 0%nat in Hlen. lia.
Qed.

Lemma conv_X_length (n : Z) :
  0 <= n <= UINT_MAX -> (String.length (conv_X n) <= 8)%nat.
Proof.
  unfold UINT_MAX, conv_X, conv_u. intros Hn.
  assert (Hpow : 16 ^ Z.of_nat 8 = 4294967296) by reflexivity.
  pose proof (digits_length 32 16 ltac:(lia) 8 n EmptyString
                ltac:(lia) ltac:(lia)) as Hlen.
  change (String.length EmptyString) with 0%nat in Hlen. lia.
Qed.

Lemma conv_d_no_null (n : Z) : no_null (conv_d n) = true.
Proof.
  unfold conv_d, conv_u. destruct (n <? 0).
  - change (no_null (digits 32 10 (- n) EmptyString) = true).
    apply digits_no_null; [lia | reflexivity].
  - apply digits_no_null; [lia | reflexivity].
Qed.

Lemma conv_X_no_null (n : Z) : no_null (conv_X n) = true.
Proof. unfold conv_X, conv_u. apply digits_no_null; [lia | reflexivity]. Qed.

(** The length of the text, and the text without a null character. *)
Lemma equality_text_length (message expected actual : string) :
  String.length (equality_text message expected actual)
  = (String.length (c_str message) + 48
     + String.length expected + String.length actual)%nat.
Proof.
  unfold equality_text. rewrite !string_length_append.
  change (String.length " (status equality check failed: expected ") with 41%nat.
  change (String.length ", got ") with 6%nat.
  change (String.length ")") with 1%nat. lia.
Qed.

Lemma equality_text_no_null (message expected actual : string) :
  no_null expected = true -> no_null actual = true ->
  c_str (equality_text message expected actual)
  = equality_text message expected actual.
Proof.
  intros He Ha. apply c_str_id. unfold equality_text.
  rewrite !no_null_append, c_str_no_null, He, Ha. reflexivity.
Qed.

(** ** The buffer and the outcome *)

Lemma sprintf_fits (size : Z) (text : string) :
  sprintf size text <> None <-> Z.of_nat (String.length text) < size.
Proof.
  unfold sprintf. destruct (Z.of_nat (String.length text) <? size) eqn:E.
  - apply Z.ltb_lt in E. split; [auto | discriminate].
  - apply Z.ltb_ge in E. split; [intros Hc; exfalso; apply Hc; reflexivity | lia].
Qed.

Section Typed.

Context {D : Type} `{Descriptor D}.

Implicit Types (d : D) (self : desc_ref) (m : string).

Lemma UT_DECIMAL_EQUALS_defined size self actual expected m d :
  UT_DECIMAL_EQUALS size self actual expected m d <> None
  <-> Z.of_nat (String.length (equality_text m (conv_d expected) (conv_d actual)))
      < size.
Proof.
  rewrite <- sprintf_fits. unfold UT_DECIMAL_EQUALS.
  destruct (sprintf size _); split; intros Hc; auto; discriminate.
Qed.

Lemma UT_UNSIGNED_HEXADECIMAL_EQUALS_defined size self actual expected m d :
  UT_UNSIGNED_HEXADECIMAL_EQUALS size self actual expected m d <> None
  <-> Z.of_nat (String.length (equality_text m (conv_X expected) (conv_X actual)))
      < size.
Proof.
  rewrite <- sprintf_fits. unfold UT_UNSIGNED_HEXADECIMAL_EQUALS.
  destruct (sprintf size _); split; intros Hc; auto; discriminate.
Qed.

(** What [UT_ASSERT] does with the value of an equality. *)
Lemma UT_ASSERT_outcome self (b : bool) text d c d' out :
  UT_ASSERT self b text d = (c, d', out) ->
  performed_count d' = uint_succ (performed_count d)
  /\ (b = true ->
      c = Continue /\ successed_count d' = uint_succ (successed_count d)
      /\ out = [UT_ON_SUCCESSFUL_ASSERT self text])
  /\ (b = false ->
      c = Return /\ successed_count d' = successed_count d
      /\ out = [UT_ON_FAILED_ASSERT self text]).
Proof.
  unfold UT_ASSERT. destruct b; intros Heq; inversion Heq; subst.
  - rewrite performed_set_successed, performed_set_performed,
      successed_set_successed, successed_set_performed.
    split; [reflexivity|]. split; [auto | discriminate].
  - rewrite performed_set_performed, successed_set_performed.
    split; [reflexivity|]. split; [discriminate | auto].
Qed.

(** X9.  [UT_DECIMAL_EQUALS] stays inside [__ut_buf] for all [int] values
    of its arguments exactly when [UT_BUFFER_SIZE] is more than 70 above
    the length of the message: the text has 48 characters beside the
    message and the two numbers, a number has up to 11, and the null
    character ends it. *)
Theorem UT_DECIMAL_EQUALS_fits_iff size self m d :
  (forall actual expected,
     INT_MIN <= actual <= INT_MAX -> INT_MIN <= expected <= INT_MAX ->
     UT_DECIMAL_EQUALS size self actual expected m d <> None)
  <-> Z.of_nat (String.length (c_str m)) + 70 < size.
Proof.
  split.
  - intros Hall.
    assert (Hmin : INT_MIN <= INT_MIN <= INT_MAX) by (unfold INT_MIN, INT_MAX; lia).
    specialize (Hall INT_MIN INT_MIN Hmin Hmin).
    apply UT_DECIMAL_EQUALS_defined in Hall.
    rewrite equality_text_length in Hall.
    change (String.length (conv_d INT_MIN)) with 11%nat in Hall. lia.
  - intros Hsize actual expected Ha He.
    apply UT_DECIMAL_EQUALS_defined. rewrite equality_text_length.
    pose proof (conv_d_length _ Ha). pose proof (conv_d_length _ He). lia.
Qed.

(** X10.  [UT_UNSIGNED_HEXADECIMAL_EQUALS] stays inside [__ut_buf] for all
    [unsigned int] values of its arguments exactly when [UT_BUFFER_SIZE]
    is more than 64 above the length of the message: a number has up to 8
    hexadecimal digits. *)
Theorem UT_UNSIGNED_HEXADECIMAL_EQUALS_fits_iff size self m d :
  (forall actual expected,
     0 <= actual <= UINT_MAX -> 0 <= expected <= UINT_MAX ->
     UT_UNSIGNED_HEXADECIMAL_EQUALS size self actual expected m d <> None)
  <-> Z.of_nat (String.length (c_str m)) + 64 < size.
Proof.
  split.
  - intros Hall.
    assert (Hmax : 0 <= UINT_MAX <= UINT_MAX) by (unfold UINT_MAX; lia).
    specialize (Hall UINT_MAX UINT_MAX Hmax Hmax).
    apply UT_UNSIGNED_HEXADECIMAL_EQUALS_defined in Hall.
    rewrite equality_text_length in Hall.
    change (String.length (conv_X UINT_MAX)) with 8%nat in Hall. lia.
  - intros Hsize actual expected Ha He.
    apply UT_UNSIGNED_HEXADECIMAL_EQUALS_defined. rewrite equality_text_length.
    pose proof (conv_X_length _ Ha). pose proof (conv_X_length _ He). lia.
Qed.

(** X12.  [UT_CHAR_EQUALS] stays inside [__ut_buf] exactly when
    [UT_BUFFER_SIZE] is more than 50 above the length of the message,
    whatever the two characters.  The observer is handed the whole text
    when neither character is the null character; when [expected] is the
    null character the string it is handed ends before it, after
    ["expected "], and the actual character is not in it. *)
Theorem UT_CHAR_EQUALS_buffer_and_text size self (actual expected : ascii) m d :
  (UT_CHAR_EQUALS size self actual expected m d <> None
   <-> Z.of_nat (String.length (c_str m)) + 50 < size)
  /\ forall c d' out,
       UT_CHAR_EQUALS size self actual expected m d = Some (c, d', out) ->
       let text :=
         if (expected =? zero)%char
         then (c_str m ++ " (status equality check failed: expected ")%string
         else if (actual =? zero)%char
         then (c_str m ++ " (status equality check failed: expected "
               ++ String expected ", got ")%string
         else (c_str m ++ " (status equality check failed: expected "
               ++ String expected (", got " ++ String actual ")"))%string in
       performed_count d' = uint_succ (performed_count d)
       /\ (actual = expected ->
           c = Continue /\ successed_count d' = uint_succ (successed_count d)
           /\ out = [UT_ON_SUCCESSFUL_ASSERT self text])
       /\ (actual <> expected ->
           c = Return /\ successed_count d' = successed_count d
           /\ out = [UT_ON_FAILED_ASSERT self text]).
Proof.
  split.
  - unfold UT_CHAR_EQUALS.
    assert (Hdef : sprintf size (equality_text m (conv_c expected) (conv_c actual))
                   <> None
                   <-> Z.of_nat (String.length (c_str m)) + 50 < size).
    { rewrite sprintf_fits, equality_text_length. simpl String.length. lia. }
    rewrite <- Hdef.
    destruct (sprintf size _); split; intros Hc; auto; discriminate.
  - intros c d' out Hrun. unfold UT_CHAR_EQUALS, sprintf in Hrun.
    destruct (Z.of_nat _ <? size); [|discriminate].
    inversion Hrun as [Hassert]. clear Hrun.
    assert (Htext : c_str (equality_text m (conv_c expected) (conv_c actual))
                    = if (expected =? zero)%char
                      then (c_str m
                            ++ " (status equality check failed: expected ")%string
                      else if (actual =? zero)%char
                      then (c_str m
                            ++ " (status equality check failed: expected "
                            ++ String expected ", got ")%string
                      else (c_str m
                            ++ " (status equality check failed: expected "
                            ++ String expected
                                 (", got " ++ String actual ")"))%string).
    { unfold equality_text, conv_c.
      destruct (expected =? zero)%char eqn:Ee.
      - apply Ascii.eqb_eq in Ee. subst expected.
        rewrite <- (c_str_cut
                      (c_str m ++ " (status equality check failed: expected ")
                      (", got " ++ String actual EmptyString ++ ")")).
        + rewrite !string_append_assoc. reflexivity.
        + rewrite no_null_append, c_str_no_null. reflexivity.
      - destruct (actual =? zero)%char eqn:Ea.
        + apply Ascii.eqb_eq in Ea. subst actual.
          rewrite <- (c_str_cut
                        (c_str m ++ " (status equality check failed: expected "
                         ++ String expected ", got ") ")").
          * rewrite !string_append_assoc. reflexivity.
          * rewrite !no_null_append, c_str_no_null. cbn [no_null].
            rewrite Ee. reflexivity.
        + apply c_str_id. rewrite !no_null_append, c_str_no_null.
          cbn [no_null append]. rewrite Ee. cbn [no_null negb andb].
          rewrite Ea. reflexivity. }
    rewrite Htext in Hassert. apply UT_ASSERT_outcome in Hassert.
    destruct Hassert as (Hp & Ht & Hf). cbv zeta.
    split; [exact Hp|]. split; intros Heq.
    + apply Ht. apply Ascii.eqb_eq. auto.
    + apply Hf. apply Ascii.eqb_neq. auto.
Qed.

End Typed.

(** ** The further properties at the sample suites *)

Lemma run_changes_only_the_counters_witness :
  exists v sd' out,
    __ut_run_test_suite before_each_fails tt = Some (v, sd', tt, out)
    /\ before_each sd' = before_each before_each_fails
    /\ Forall2 same_declaration (test_descs before_each_fails) (test_descs sd')
    /\ skipn 1 (test_descs sd') = [the_end].
Proof.
  eexists _, _, _. split; [vm_compute; reflexivity|].
  destruct (run_changes_only_the_counters before_each_fails tt _ _ tt _ eq_refl)
    as ((_ & _ & _ & _ & Hb & _) & Hd & Hs & _).
  split; [exact Hb|]. split; [exact Hd | exact Hs].
Defined.

Lemma test_successful_iff_no_failed_assertion_witness :
  exists v sd' out td',
    __ut_run_test_suite before_each_fails tt = Some (v, sd', tt, out)
    /\ startup_passes before_each_fails tt = true
    /\ nth_error (declared (test_descs sd')) 0 = Some td'
    /\ (UT_IS_TEST_FAILED td' = true
        <-> (1 <= failures_on (TestDesc 0) out)%nat).
Proof.
  eexists _, _, _, _. split; [vm_compute; reflexivity|].
  split; [reflexivity|]. split; [vm_compute; reflexivity|].
  exact (proj2 (proj2 (test_successful_iff_no_failed_assertion
                         before_each_fails tt _ _ tt _ eq_refl eq_refl
                         0%nat _ eq_refl))).
Defined.

Lemma test_counters_count_its_observers_witness :
  exists v sd' out td',
    __ut_run_test_suite teardown_fails tt = Some (v, sd', tt, out)
    /\ startup_passes teardown_fails tt = true
    /\ nth_error (declared (test_descs sd')) 0 = Some td'
    /\ performed_count td'
       = Z.of_nat (asserts_on (TestDesc 0) out) mod (UINT_MAX + 1).
Proof.
  eexists _, _, _, _. split; [vm_compute; reflexivity|].
  split; [reflexivity|]. split; [vm_compute; reflexivity|].
  exact (proj1 (proj2 (test_counters_count_its_observers
                         teardown_fails tt _ _ tt _ eq_refl eq_refl
                         0%nat _ eq_refl))).
Defined.

Lemma one_test_observer_per_test_witness :
  exists v sd' out,
    __ut_run_test_suite before_each_fails tt = Some (v, sd', tt, out)
    /\ filter is_test_observer out = [UT_ON_FAILED_TEST 0].
Proof.
  eexists _, _, _. split; [vm_compute; reflexivity|].
  exact (one_test_observer_per_test before_each_fails tt _ _ tt _ eq_refl).
Defined.

Lemma verdict_true_iff_no_assertion_failed_witness :
  exists v sd' out,
    __ut_run_test_suite teardown_fails tt = Some (v, sd', tt, out)
    /\ Z.of_nat (length (declared (test_descs teardown_fails))) < UINT_MAX
    /\ (v = true <-> failed_asserts out = 0%nat).
Proof.
  eexists _, _, _. split; [vm_compute; reflexivity|]. split; [reflexivity|].
  exact (verdict_true_iff_no_assertion_failed teardown_fails tt _ _ tt _
           eq_refl eq_refl).
Defined.

Lemma verdict_is_the_suite_macro_witness :
  exists v sd' out,
    __ut_run_test_suite startup_fails tt = Some (v, sd', tt, out)
    /\ UT_IS_TEST_SUITE_SUCCESSED sd' = v
    /\ UT_IS_TEST_SUITE_SKIPPED sd' = false.
Proof.
  eexists _, _, _. split; [vm_compute; reflexivity|].
  destruct (verdict_is_the_suite_macro startup_fails tt _ _ tt _ eq_refl)
    as (Hv & _ & _ & Hs).
  split; [exact Hv | exact Hs].
Defined.

Lemma runner_returns_iff_witness :
  well_formed two_tests /\ __ut_run_test_suite two_tests tt <> None.
Proof.
  split; [exact two_tests_well_formed|].
  apply (proj2 (runner_returns_iff two_tests tt)). right.
  exact two_tests_well_formed.
Defined.

Lemma UT_DECIMAL_EQUALS_fits_iff_witness :
  Z.of_nat (String.length (c_str "count")) + 70 < 80
  /\ UT_DECIMAL_EQUALS 80 (TestDesc 0) 3 4 "count" fresh_test <> None.
Proof.
  split; [reflexivity|].
  apply (proj2 (UT_DECIMAL_EQUALS_fits_iff 80 (TestDesc 0) "count" fresh_test));
    [reflexivity | |]; unfold INT_MIN, INT_MAX; lia.
Defined.

Lemma UT_UNSIGNED_HEXADECIMAL_EQUALS_fits_iff_witness :
  Z.of_nat (String.length (c_str "flags")) + 64 < 70
  /\ UT_UNSIGNED_HEXADECIMAL_EQUALS 70 (TestDesc 0) 255 48879 "flags" fresh_test
     <> None.
Proof.
  split; [reflexivity|].
  apply (proj2 (UT_UNSIGNED_HEXADECIMAL_EQUALS_fits_iff 70 (TestDesc 0) "flags"
                  fresh_test));
    [reflexivity | |]; unfold UINT_MAX; lia.
Defined.

Lemma UT_CHAR_EQUALS_buffer_and_text_witness :
  exists c d',
    UT_CHAR_EQUALS 60 (TestDesc 0) "a" zero "end" fresh_test
    = Some (c, d',
            [UT_ON_FAILED_ASSERT (TestDesc 0)
               "end (status equality check failed: expected "])
    /\ c = Return.
Proof.
  eexists _, _. split; [vm_compute; reflexivity|].
  assert (Hne : "a"%char <> zero) by discriminate.
  destruct (UT_CHAR_EQUALS_buffer_and_text 60 (TestDesc 0) "a" zero "end"
              fresh_test) as [_ Hout].
  destruct (Hout _ _ _ eq_refl) as (_ & _ & Hf).
  exact (proj1 (Hf Hne)).
Defined.

(** * The calls of a run and what they do *)

(** ** The turns of the loop *)

Section Anatomy.

Context {G : Type}.

Implicit Types (td : __ut_test_desc G) (sd : __ut_test_suite_desc G) (g : G).

(** A turn is its three calls, each begun in what the call before it
    left; its output is theirs. *)
Lemma run_test_turn sd i td body g sd' td' g' out :
  run_test sd i td body g = (sd', td', g', out) ->
  exists tdb gb outb tdf gf outf outa,
    call (TestDesc i) (before_each sd) (start_test td) g = (tdb, gb, outb)
    /\ (if UT_IS_TEST_SUCCESSED tdb
        then call (TestDesc i) body tdb gb = (tdf, gf, outf)
        else tdf = tdb /\ gf = gb /\ outf = [])
    /\ call (TestDesc i) (after_each sd) tdf gf = (td', g', outa)
    /\ out = turn_out i outb (UT_IS_TEST_SUCCESSED tdb) outf outa
               (test_observer i td').
Proof.
  intros Hrun. apply run_test_inv in Hrun.
  destruct Hrun
    as (tdb & gb & outb & tdf & gf & outf & outa & Hb & Hf & Ha & -> & _).
  destruct (UT_IS_TEST_SUCCESSED tdb) eqn:Hok.
  - destruct Hf as (outf' & Hf & ->).
    exists tdb, gb, outb, tdf, gf, outf', outa. rewrite Hok.
    repeat split; try assumption.
    unfold turn_out, test_observer. cbn [app].
    rewrite <- !app_assoc. cbn [app]. rewrite <- !app_assoc. reflexivity.
  - destruct Hf as (-> & -> & ->).
    exists tdb, gb, outb, tdb, gb, [], outa. rewrite Hok.
    repeat split; try assumption.
    unfold turn_out, test_observer. cbn [app].
    rewrite <- !app_assoc. reflexivity.
Qed.

(** The loop begins its first turn, or is left at once, in the user's
    state it is entered in. *)
Lemma loop_next sd i descs g sd' descs' g' out :
  loop sd i descs g sd' descs' g' out ->
  match reach sd i descs g 0 with
  | Some (_, _, g'') => g''
  | None => g'
  end = g.
Proof.
  intros Hloop.
  destruct Hloop
    as [sd i td rest g Hf
       |sd i td rest g body sd1 td1 g1 out1 sd2 rest2 g2 out2 Hf Hturn Hi Hloop];
    cbn [reach]; rewrite Hf; reflexivity.
Qed.

(** Turn number [k] of the loop: its three calls, what they leave in the
    array and for the turn after it, and where its output stands in the
    output of the loop. *)
Lemma loop_anatomy sd i descs g sd' descs' g' out :
  loop sd i descs g sd' descs' g' out ->
  forall k sd_k td_k g_k,
    reach sd i descs g k = Some (sd_k, td_k, g_k) ->
    exists body tdb gb outb tdf gf outf td' g_next outa pre post ran_pre ran_post,
      func td_k = Some body
      /\ call (TestDesc (i + Z.of_nat k)) (before_each sd) (start_test td_k) g_k
         = (tdb, gb, outb)
      /\ (if UT_IS_TEST_SUCCESSED tdb
          then call (TestDesc (i + Z.of_nat k)) body tdb gb = (tdf, gf, outf)
          else tdf = tdb /\ gf = gb /\ outf = [])
      /\ call (TestDesc (i + Z.of_nat k)) (after_each sd) tdf gf
         = (td', g_next, outa)
      /\ nth_error descs' k = Some td'
      /\ g_next = match reach sd i descs g (S k) with
                  | Some (_, _, g'') => g''
                  | None => g'
                  end
      /\ out = pre
               ++ turn_out (i + Z.of_nat k) outb (UT_IS_TEST_SUCCESSED tdb)
                    outf outa (test_observer (i + Z.of_nat k) td')
               ++ post
      /\ length ran_pre = k
      /\ calls pre = turns i ran_pre
      /\ (k + S (length ran_post) = length (declared descs))%nat
      /\ calls post = turns (i + Z.of_nat k + 1) ran_post.
Proof.
  induction 1
    as [sd i td rest g Hf
       |sd i td rest g body sd1 td1 g1 out1 sd2 rest2 g2 out2 Hf Hturn Hi Hloop IH];
    intros k sd_k td_k g_k Hr.
  - cbn [reach] in Hr. rewrite Hf in Hr. discriminate.
  - assert (Hlen : length (declared (td :: rest)) = S (length (declared rest))).
    { cbn [declared]. rewrite Hf. reflexivity. }
    assert (Hnext : forall n,
               reach sd i (td :: rest) g (S n) = reach sd1 (i + 1) rest g1 n).
    { intros n. cbn [reach]. rewrite Hf, Hturn.
      apply Z.eqb_neq in Hi. rewrite Hi. reflexivity. }
    destruct k as [|k].
    + cbn [reach] in Hr. rewrite Hf in Hr.
      inversion Hr; subst sd_k td_k g_k. clear Hr.
      destruct (run_test_turn _ _ _ _ _ _ _ _ _ Hturn)
        as (tdb & gb & outb & tdf & gf & outf & outa & Hb & Hfn & Ha & ->).
      destruct (loop_turns _ _ _ _ _ _ _ _ Hloop) as (ran & Hran & Hcalls).
      exists body, tdb, gb, outb, tdf, gf, outf, td1, g1, outa.
      exists [], out2, [], ran.
      change (Z.of_nat 0) with 0. rewrite Z.add_0_r, Hnext, Hlen, Hran.
      rewrite (loop_next _ _ _ _ _ _ _ _ Hloop).
      repeat split; assumption.
    + rewrite Hnext in Hr.
      destruct (IH _ _ _ _ Hr)
        as (body_k & tdb & gb & outb & tdf & gf & outf & td' & g_next & outa
            & pre & post & ran_pre & ran_post
            & Hfk & Hb & Hfn & Ha & Hnth & Hg & -> & Hpre & Hcpre & Hpost & Hcpost).
      destruct (run_test_suite _ _ _ _ _ _ _ _ _ Hturn) as (Hfr & _).
      destruct (start_suite_fields _ _ Hfr) as (_ & _ & Hbe & Hae & _).
      rewrite Hbe in Hb. rewrite Hae in Ha.
      replace (i + 1 + Z.of_nat k) with (i + Z.of_nat (S k)) in * by lia.
      destruct (call (TestDesc i) (before_each sd) (start_test td) g)
        as [[tdb0 gb0] outb0] eqn:Hb0.
      destruct (run_test_out _ _ _ _ _ _ _ _ _ Hturn _ _ _ Hb0) as (Hc1 & _).
      exists body_k, tdb, gb, outb, tdf, gf, outf, td', g_next, outa.
      exists (out1 ++ pre), post, (UT_IS_TEST_SUCCESSED tdb0 :: ran_pre), ran_post.
      rewrite Hnext, Hlen, calls_app, Hc1, Hcpre, <- app_assoc.
      cbn [length nth_error turns].
      repeat split; try assumption; lia.
Qed.

End Anatomy.

(** ** The turns of a run *)

Section RunAnatomy.

Context {G : Type}.

Implicit Types (td : __ut_test_desc G) (sd : __ut_test_suite_desc G) (g : G).

(** Turn number [k] of a run that returns: the three calls, each begun in
    what the call before it left; what the last of them leaves is the
    entry of the array when the run is over, and the user's state the run
    goes on in; the output of the turn stands in the output of the run
    after [startup] and [k] turns, and before the other turns and
    [teardown]. *)
Lemma run_turn sd g v sd' g' out :
  __ut_run_test_suite sd g = Some (v, sd', g', out) ->
  forall k sd_k td_k g_k,
    at_test sd g k = Some (sd_k, td_k, g_k) ->
    exists body tdb gb outb tdf gf outf td' g_next outa pre post ran_pre ran_post,
      func td_k = Some body
      /\ nth_error (declared (test_descs sd)) k = Some td_k
      /\ call (TestDesc (Z.of_nat k)) (before_each sd) (start_test td_k) g_k
         = (tdb, gb, outb)
      /\ (if UT_IS_TEST_SUCCESSED tdb
          then call (TestDesc (Z.of_nat k)) body tdb gb = (tdf, gf, outf)
          else tdf = tdb /\ gf = gb /\ outf = [])
      /\ call (TestDesc (Z.of_nat k)) (after_each sd) tdf gf
         = (td', g_next, outa)
      /\ nth_error (test_descs sd') k = Some td'
      /\ after_turn sd g k = Some g_next
      /\ out = pre
               ++ turn_out (Z.of_nat k) outb (UT_IS_TEST_SUCCESSED tdb)
                    outf outa (test_observer (Z.of_nat k) td')
               ++ post
      /\ length ran_pre = k
      /\ calls pre = Startup :: turns 0 ran_pre
      /\ (k + S (length ran_post) = length (declared (test_descs sd)))%nat
      /\ calls post = turns (Z.of_nat k + 1) ran_post ++ [Teardown]
      /\ count_calls (BeforeEach (Z.of_nat k)) out = 1%nat
      /\ count_calls (AfterEach (Z.of_nat k)) out = 1%nat
      /\ count_calls (TestFunc (Z.of_nat k)) out
         = (if UT_IS_TEST_SUCCESSED tdb then 1%nat else 0%nat).
Proof.
  intros Hrun k sd_k td_k g_k Hat.
  destruct (run_inv _ _ _ _ _ _ Hrun)
    as (sd1 & g1 & o1 & Hst & Hall1 & Hfr1 & _ & _
        & [(Hpass & _)
          |(Hpass & sd2 & descs2 & g2 & out2 & out3 & Hloop & Hc3 & Hall3 & _ & _
            & -> & Hfr3 & _)]);
    unfold startup_passes in Hpass; rewrite Hst in Hpass.
  { unfold at_test in Hat. rewrite Hst, Hpass in Hat. discriminate. }
  destruct (start_suite_fields _ _ Hfr1) as (_ & _ & Hbe & Hae & Hdescs).
  assert (Hreach : forall n, at_test sd g n = reach sd1 0 (test_descs sd) g1 n).
  { intros n. unfold at_test. rewrite Hst, Hpass, Hdescs. reflexivity. }
  rewrite Hreach in Hat.
  pose proof (reach_declared _ _ _ _ _ _ _ _ Hat) as Hk.
  destruct (loop_reach _ _ _ _ _ _ _ _ Hloop k Hk)
    as (sd_k' & td_k' & g_k' & Hr' & Hnth & _ & _ & _ & _ & Hcall).
  rewrite Hat in Hr'. inversion Hr'; subst sd_k' td_k' g_k'. clear Hr'.
  destruct (loop_anatomy _ _ _ _ _ _ _ _ Hloop _ _ _ _ Hat)
    as (body & tdb & gb & outb & tdf & gf & outf & td' & g_next & outa
        & pre & post & ran_pre & ran_post
        & Hf & Hb & Hfn & Ha & Hn' & Hg & Hout & Hpre & Hcpre & Hpost & Hcpost).
  rewrite Z.add_0_l, Hbe in Hb, Hcall. rewrite Z.add_0_l, Hae in Ha.
  rewrite Z.add_0_l in Hfn, Hout, Hcpost.
  destruct (passed_out o1 out2 out3 Hall1 Hall3) as [_ Hcount].
  destruct (loop_calls _ _ _ _ _ _ _ _ Hloop) as (_ & _ & _ & _ & _ & Hj).
  destruct (Hj (Z.of_nat k)) as (Cb & Ca & _).
  rewrite once_in_range in Cb, Ca by lia.
  exists body, tdb, gb, outb, tdf, gf, outf, td', g_next, outa.
  exists ((Call Startup :: o1) ++ pre), (post ++ Call Teardown :: out3).
  exists ran_pre, ran_post.
  split; [exact Hf|]. split; [exact Hnth|]. split; [exact Hb|].
  split; [exact Hfn|]. split; [exact Ha|]. split.
  { rewrite (start_suite_test_descs _ _ _ Hfr3). exact Hn'. }
  split.
  { unfold after_turn, at_teardown.
    rewrite Hreach, Hst, Hpass. cbn [negb]. rewrite Hdescs.
    apply run_tests_loop in Hloop. rewrite Hloop. cbn [option_map snd].
    rewrite Hg.
    destruct (reach sd1 0 (test_descs sd) g1 (S k)) as [[[? ?] ?]|];
      reflexivity. }
  split.
  { rewrite Hout, <- !app_assoc. reflexivity. }
  split; [exact Hpre|]. split.
  { change (Call Startup :: o1) with ([Call Startup] ++ o1).
    rewrite !calls_app, (assert_events_calls _ _ Hall1), Hcpre. reflexivity. }
  split; [exact Hpost|]. split.
  { change (Call Teardown :: out3) with ([Call Teardown] ++ out3).
    rewrite !calls_app, (assert_events_calls _ _ Hall3), Hcpost. reflexivity. }
  rewrite !Hcount, Cb, Ca, (Hcall _ _ _ Hb). cbn [callee_eqb].
  repeat split; destruct (UT_IS_TEST_SUCCESSED tdb); reflexivity.
Qed.

(** When [startup] passes, every test of the array has its turn. *)
Lemma run_attempts_all sd g v sd' g' out :
  __ut_run_test_suite sd g = Some (v, sd', g', out) ->
  startup_passes sd g = true ->
  forall k, (k < length (declared (test_descs sd)))%nat ->
  exists sd_k td_k g_k,
    at_test sd g k = Some (sd_k, td_k, g_k)
    /\ nth_error (declared (test_descs sd)) k = Some td_k.
Proof.
  intros Hrun Hpass k Hk.
  destruct (run_inv _ _ _ _ _ _ Hrun)
    as (sd1 & g1 & o1 & Hst & _ & Hfr1 & _ & _
        & [(Hfail & _)
          |(_ & sd2 & descs2 & g2 & out2 & out3 & Hloop & _)]).
  { rewrite Hpass in Hfail. discriminate. }
  unfold startup_passes in Hpass. rewrite Hst in Hpass.
  destruct (start_suite_fields _ _ Hfr1) as (_ & _ & _ & _ & Hdescs).
  destruct (loop_reach _ _ _ _ _ _ _ _ Hloop k Hk)
    as (sd_k & td_k & g_k & Hr & Hn & _).
  exists sd_k, td_k, g_k. unfold at_test. rewrite Hst, Hpass, Hdescs. auto.
Qed.

(** The tests attempted are all the tests of the array, in order, when
    [startup] passes, and none when it fails. *)
Lemma run_attempts sd g v sd' g' out :
  __ut_run_test_suite sd g = Some (v, sd', g', out) ->
  attempts out
  = (if startup_passes sd g
     then indices 0 (length (declared (test_descs sd))) else [])
  /\ forall i, ~ In i (attempts out) ->
       count_calls (BeforeEach i) out = 0%nat
       /\ count_calls (TestFunc i) out = 0%nat
       /\ count_calls (AfterEach i) out = 0%nat.
Proof.
  intros Hrun.
  destruct (run_inv _ _ _ _ _ _ Hrun)
    as (sd1 & g1 & o1 & Hst & Hall1 & _ & _ & _
        & [(Hpass & _ & _ & _ & ->)
          |(Hpass & sd2 & descs2 & g2 & out2 & out3 & Hloop & _ & Hall3 & _ & _
            & -> & _)]); rewrite Hpass.
  - change (Call Startup :: o1) with ([Call Startup] ++ o1).
    rewrite attempts_app, (assert_events_attempts _ _ Hall1).
    split; [reflexivity|]. intros i _.
    rewrite !count_calls_app, !(assert_events_count_calls _ _ _ Hall1).
    repeat split; reflexivity.
  - destruct (passed_out o1 out2 out3 Hall1 Hall3) as [Hatt Hcount].
    destruct (loop_calls _ _ _ _ _ _ _ _ Hloop) as (Ha2 & _ & _ & _ & _ & Hj).
    rewrite Hatt, Ha2. split; [reflexivity|]. intros i Hin.
    destruct (Hj i) as (Cb & Ca & Cf).
    assert (Hout : once_in 0 (length (declared (test_descs sd))) i = 0%nat).
    { unfold once_in.
      destruct (0 <=? i) eqn:H1; [|reflexivity].
      destruct (i <? 0 + Z.of_nat (length (declared (test_descs sd)))) eqn:H2;
        [|reflexivity].
      exfalso. apply Hin. apply indices_In.
      apply Z.leb_le in H1. apply Z.ltb_lt in H2. lia. }
    rewrite Hout in Cb, Ca, Cf. rewrite !Hcount, Cb, Ca. cbn [callee_eqb].
    repeat split; lia.
Qed.

(** A suite whose array ends in [UT_TEST_SUITE_END] at an index an
    [unsigned int] reaches has a run. *)
Lemma run_total sd g :
  well_formed sd ->
  exists v sd' g' out, __ut_run_test_suite sd g = Some (v, sd', g', out).
Proof.
  intros Hwf. destruct (startup_passes sd g) eqn:Hpass.
  - destruct (run_passed_spec _ _ Hwf Hpass)
      as (sd1 & g1 & o1 & sd2 & descs2 & g2 & out2 & sd3 & g3 & out3
          & _ & _ & _ & _ & _ & _ & _ & Hrun & _).
    eexists _, _, _, _. exact Hrun.
  - destruct (run_failed_spec _ _ Hpass)
      as (sd1 & g1 & o1 & _ & _ & _ & _ & Hrun & _).
    eexists _, _, _, _. exact Hrun.
Qed.

(** A test that was started is successful when its two counters agree. *)
Lemma called_test_successful self (body : list (statement G)) td g tdb gb outb :
  call self body (start_test td) g = (tdb, gb, outb) ->
  UT_IS_TEST_SUCCESSED tdb = (performed_count tdb =? successed_count tdb).
Proof.
  intros Hb. destruct (call_counters _ _ _ _ _ _ _ Hb) as (_ & _ & Hst).
  unfold UT_IS_TEST_SUCCESSED, UT_IS_TEST_STARTED. rewrite Hst.
  reflexivity.
Qed.

End RunAnatomy.

(** ** C5, C6 and the order of the calls *)

Section Hooks.

Context {G : Type}.

Implicit Types (td : __ut_test_desc G) (sd : __ut_test_suite_desc G) (g : G).

(** C5.  A run of a suite whose array ends in [UT_TEST_SUITE_END] returns,
    and for every test it attempts (turn [k] of the loop, begun with the
    entry [td_k] in the user's state [g_k]) [after_each] is executed
    exactly once, whatever became of the test's function.  The structure
    [tdf] and the user's state [gf] it is executed in are those the
    function left, whether it ran to its end or was ended by a failed
    assertion, or those [before_each] left when it failed and the function
    was not called.  What this one execution leaves is the entry of the
    array when the run is over and the user's state in which the run goes
    on; its output follows the call in the output of the run and is
    followed by the observer of the test; and the output holds no other
    call of [after_each] for the test, and none for an entry that is not
    attempted.  The tests attempted are all the tests of the array, in
    order, when [startup] passes, and none when it fails. *)
Theorem after_each_once_per_attempted_test sd g :
  well_formed sd ->
  exists v sd' g' out,
    __ut_run_test_suite sd g = Some (v, sd', g', out)
    /\ attempts out
       = (if startup_passes sd g
          then indices 0 (length (declared (test_descs sd))) else [])
    /\ (forall i, ~ In i (attempts out) ->
          count_calls (AfterEach i) out = 0%nat)
    /\ (startup_passes sd g = true ->
        forall k, (k < length (declared (test_descs sd)))%nat ->
        exists sd_k td_k g_k,
          at_test sd g k = Some (sd_k, td_k, g_k)
          /\ nth_error (declared (test_descs sd)) k = Some td_k)
    /\ forall k sd_k td_k g_k,
         at_test sd g k = Some (sd_k, td_k, g_k) ->
         exists tdb gb outb tdf gf td' g_next outa pre post,
           In (Z.of_nat k) (attempts out)
           /\ call (TestDesc (Z.of_nat k)) (before_each sd) (start_test td_k) g_k
              = (tdb, gb, outb)
           /\ (if UT_IS_TEST_SUCCESSED tdb
               then exists body outf,
                      func td_k = Some body
                      /\ call (TestDesc (Z.of_nat k)) body tdb gb
                         = (tdf, gf, outf)
               else tdf = tdb /\ gf = gb)
           /\ call (TestDesc (Z.of_nat k)) (after_each sd) tdf gf
              = (td', g_next, outa)
           /\ nth_error (test_descs sd') k = Some td'
           /\ after_turn sd g k = Some g_next
           /\ out = pre
                    ++ Call (AfterEach (Z.of_nat k)) :: outa
                    ++ test_observer (Z.of_nat k) td' :: post
           /\ count_calls (AfterEach (Z.of_nat k)) out = 1%nat.
Proof.
  intros Hwf. destruct (run_total sd g Hwf) as (v & sd' & g' & out & Hrun).
  exists v, sd', g', out. split; [exact Hrun|].
  destruct (run_attempts _ _ _ _ _ _ Hrun) as [Hatt Hnone].
  split; [exact Hatt|]. split; [intros i Hi; apply (Hnone i Hi)|].
  split; [exact (run_attempts_all _ _ _ _ _ _ Hrun)|].
  intros k sd_k td_k g_k Hat.
  destruct (run_turn _ _ _ _ _ _ Hrun _ _ _ _ Hat)
    as (body & tdb & gb & outb & tdf & gf & outf & td' & g_next & outa
        & pre & post & ran_pre & ran_post
        & Hf & _ & Hb & Hfn & Ha & Hn' & Hg & Hout & _ & _ & Hpost & _
        & _ & Ca & _).
  exists tdb, gb, outb, tdf, gf, td', g_next, outa.
  exists (pre ++ Call (BeforeEach (Z.of_nat k))
              :: outb
              ++ (if UT_IS_TEST_SUCCESSED tdb
                  then Call (TestFunc (Z.of_nat k)) :: outf else [])), post.
  split.
  { rewrite Hatt. destruct (startup_passes sd g) eqn:Hpass.
    - apply indices_In. lia.
    - unfold startup_passes in Hpass. unfold at_test in Hat.
      destruct (run_startup sd g) as [[sd1 g1] out1].
      rewrite Hpass in Hat. discriminate. }
  split; [exact Hb|]. split.
  { destruct (UT_IS_TEST_SUCCESSED tdb).
    - exists body, outf. auto.
    - destruct Hfn as (-> & -> & _). auto. }
  split; [exact Ha|]. split; [exact Hn'|]. split; [exact Hg|].
  split; [|exact Ca].
  rewrite Hout. unfold turn_out.
  repeat first [rewrite <- app_assoc | progress cbn [app]]. reflexivity.
Qed.

(** C6.  A run of a suite whose array ends in [UT_TEST_SUITE_END] returns,
    and for every test it attempts (turn [k] of the loop, begun with the
    entry [td_k] in the user's state [g_k]), with [tdb] and [gb] the
    structure and the user's state [before_each] leaves.  If [tdb] is
    failed ([performed_count] differs from [successed_count]) the test's
    function is never executed: [after_each] is executed in [tdb] and
    [gb] themselves, its call follows the output of [before_each] in the
    output of the run, and the output holds no call of the function.
    Otherwise the function is executed exactly once, in [tdb] and [gb]:
    [after_each] is executed in the structure and the state this one
    execution leaves, the call of the function and its output stand
    between the output of [before_each] and the call of [after_each], and
    the output holds no other call of the function.  In both cases what
    [after_each] leaves is the entry of the array when the run is over
    and the user's state in which the run goes on.  When [startup]
    passes, every test of the array is attempted. *)
Theorem func_called_unless_before_each_fails sd g :
  well_formed sd ->
  exists v sd' g' out,
    __ut_run_test_suite sd g = Some (v, sd', g', out)
    /\ (startup_passes sd g = true ->
        forall k, (k < length (declared (test_descs sd)))%nat ->
        exists sd_k td_k g_k,
          at_test sd g k = Some (sd_k, td_k, g_k)
          /\ nth_error (declared (test_descs sd)) k = Some td_k)
    /\ forall k sd_k td_k g_k tdb gb outb,
         at_test sd g k = Some (sd_k, td_k, g_k) ->
         call (TestDesc (Z.of_nat k)) (before_each sd) (start_test td_k) g_k
         = (tdb, gb, outb) ->
         exists td' g_next outa pre post,
           nth_error (test_descs sd') k = Some td'
           /\ after_turn sd g k = Some g_next
           /\ (performed_count tdb <> successed_count tdb ->
               count_calls (TestFunc (Z.of_nat k)) out = 0%nat
               /\ call (TestDesc (Z.of_nat k)) (after_each sd) tdb gb
                  = (td', g_next, outa)
               /\ out = pre
                        ++ Call (BeforeEach (Z.of_nat k)) :: outb
                        ++ Call (AfterEach (Z.of_nat k)) :: outa
                        ++ test_observer (Z.of_nat k) td' :: post)
           /\ (performed_count tdb = successed_count tdb ->
               count_calls (TestFunc (Z.of_nat k)) out = 1%nat
               /\ exists body tdf gf outf,
                    func td_k = Some body
                    /\ call (TestDesc (Z.of_nat k)) body tdb gb
                       = (tdf, gf, outf)
                    /\ call (TestDesc (Z.of_nat k)) (after_each sd) tdf gf
                       = (td', g_next, outa)
                    /\ out = pre
                             ++ Call (BeforeEach (Z.of_nat k)) :: outb
                             ++ Call (TestFunc (Z.of_nat k)) :: outf
                             ++ Call (AfterEach (Z.of_nat k)) :: outa
                             ++ test_observer (Z.of_nat k) td' :: post).
Proof.
  intros Hwf. destruct (run_total sd g Hwf) as (v & sd' & g' & out & Hrun).
  exists v, sd', g', out. split; [exact Hrun|].
  split; [exact (run_attempts_all _ _ _ _ _ _ Hrun)|].
  intros k sd_k td_k g_k tdb gb outb Hat Hb.
  destruct (run_turn _ _ _ _ _ _ Hrun _ _ _ _ Hat)
    as (body & tdb' & gb' & outb' & tdf & gf & outf & td' & g_next & outa
        & pre & post & ran_pre & ran_post
        & Hf & _ & Hb' & Hfn & Ha & Hn' & Hg & Hout & _ & _ & _ & _
        & _ & _ & Cf).
  rewrite Hb in Hb'. inversion Hb'; subst tdb' gb' outb'. clear Hb'.
  rewrite (called_test_successful _ _ _ _ _ _ _ Hb) in Hfn, Hout, Cf.
  exists td', g_next, outa, pre, post.
  split; [exact Hn'|]. split; [exact Hg|]. split; intros Hc.
  - apply Z.eqb_neq in Hc. rewrite Hc in Hfn, Hout, Cf.
    destruct Hfn as (-> & -> & ->).
    split; [exact Cf|]. split; [exact Ha|].
    rewrite Hout. unfold turn_out.
    repeat first [rewrite <- app_assoc | progress cbn [app]]. reflexivity.
  - apply Z.eqb_eq in Hc. rewrite Hc in Hfn, Hout, Cf.
    split; [exact Cf|]. exists body, tdf, gf, outf.
    split; [exact Hf|]. split; [exact Hfn|]. split; [exact Ha|].
    rewrite Hout. unfold turn_out.
    repeat first [rewrite <- app_assoc | progress cbn [app]]. reflexivity.
Qed.

(** X5.  The calls of a run that returns, in order, each executed in what
    the one before it left.  [startup] is executed first, in the suite's
    structure as reset and the user's state the run is given.  When it
    fails the run ends there.  When it passes, the first turn of the loop
    begins in the structure and the state it left; turn [k] executes
    [before_each], then the test's function unless [before_each] left the
    test failed, then [after_each], and the output of the turn stands in
    the output of the run after the calls of [startup] and of [k] turns
    and before those of the other turns and of [teardown]; and [teardown]
    is executed last, once, in the structure and the state the loop left,
    whatever the tests did: what it leaves is what the run returns. *)
Theorem calls_in_order sd g v sd' g' out :
  __ut_run_test_suite sd g = Some (v, sd', g', out) ->
  exists sd1 g1 o1,
    call SuiteDesc (startup sd) (start_suite sd) g = (sd1, g1, o1)
    /\ (startup_passes sd g = false ->
        v = false /\ sd' = sd1 /\ g' = g1 /\ out = Call Startup :: o1)
    /\ (startup_passes sd g = true ->
        (exists sd2 g2 out2 out3 ran,
           at_teardown sd g = Some (sd2, g2)
           /\ call SuiteDesc (teardown sd) sd2 g2 = (sd', g', out3)
           /\ out = Call Startup :: o1 ++ out2 ++ Call Teardown :: out3
           /\ length ran = length (declared (test_descs sd))
           /\ calls out = Startup :: turns 0 ran ++ [Teardown])
        /\ (forall sd_0 td_0 g_0,
              at_test sd g 0 = Some (sd_0, td_0, g_0) ->
              sd_0 = sd1 /\ g_0 = g1)
        /\ forall k sd_k td_k g_k,
             at_test sd g k = Some (sd_k, td_k, g_k) ->
             exists body tdb gb outb tdf gf outf td' g_next outa
                    pre post ran_pre ran_post,
               func td_k = Some body
               /\ call (TestDesc (Z.of_nat k)) (before_each sd)
                    (start_test td_k) g_k
                  = (tdb, gb, outb)
               /\ (if UT_IS_TEST_SUCCESSED tdb
                   then call (TestDesc (Z.of_nat k)) body tdb gb
                        = (tdf, gf, outf)
                   else tdf = tdb /\ gf = gb /\ outf = [])
               /\ call (TestDesc (Z.of_nat k)) (after_each sd) tdf gf
                  = (td', g_next, outa)
               /\ nth_error (test_descs sd') k = Some td'
               /\ after_turn sd g k = Some g_next
               /\ out = pre
                        ++ turn_out (Z.of_nat k) outb (UT_IS_TEST_SUCCESSED tdb)
                             outf outa (test_observer (Z.of_nat k) td')
                        ++ post
               /\ length ran_pre = k
               /\ calls pre = Startup :: turns 0 ran_pre
               /\ (k + S (length ran_post)
                   = length (declared (test_descs sd)))%nat
               /\ calls post = turns (Z.of_nat k + 1) ran_post ++ [Teardown]).
Proof.
  intros Hrun.
  destruct (run_inv _ _ _ _ _ _ Hrun)
    as (sd1 & g1 & o1 & Hst & Hall1 & Hfr1 & _ & _ & Hcases).
  destruct (run_startup_spec _ _ _ _ _ Hst) as (o1' & Hc1 & Ho1 & _).
  inversion Ho1; subst o1'. clear Ho1.
  exists sd1, g1, o1. split; [exact Hc1|].
  destruct Hcases
    as [(Hpass & Hv & Hsd & Hg & Hout)
       |(Hpass & sd2 & descs2 & g2 & out2 & out3 & Hloop & Hc3 & Hall3 & _ & _
         & Hout & _)]; rewrite Hpass.
  { split; [auto|discriminate]. }
  split; [discriminate|]. intros _.
  unfold startup_passes in Hpass. rewrite Hst in Hpass.
  destruct (start_suite_fields _ _ Hfr1) as (_ & _ & _ & _ & Hdescs).
  split; [|split].
  - destruct (loop_turns _ _ _ _ _ _ _ _ Hloop) as (ran & Hlen & Hcalls).
    exists (set_test_descs descs2 sd2), g2, out2, out3, ran.
    split.
    { unfold at_teardown. rewrite Hst, Hpass. cbn [negb]. rewrite Hdescs.
      apply run_tests_loop in Hloop. rewrite Hloop. reflexivity. }
    split; [exact Hc3|]. split; [exact Hout|]. split; [exact Hlen|].
    rewrite Hout.
    change (Call Startup :: o1) with ([Call Startup] ++ o1).
    change (Call Teardown :: out3) with ([Call Teardown] ++ out3).
    rewrite !calls_app, (assert_events_calls _ _ Hall1),
      (assert_events_calls _ _ Hall3), Hcalls.
    reflexivity.
  - intros sd_0 td_0 g_0 Hat. unfold at_test in Hat.
    rewrite Hst, Hpass in Hat. cbn [negb] in Hat.
    destruct (test_descs sd1) as [|td rest]; [discriminate|].
    cbn [reach] in Hat. destruct (func td); [|discriminate].
    inversion Hat. auto.
  - intros k sd_k td_k g_k Hat.
    destruct (run_turn _ _ _ _ _ _ Hrun _ _ _ _ Hat)
      as (body & tdb & gb & outb & tdf & gf & outf & td' & g_next & outa
          & pre & post & ran_pre & ran_post
          & Hf & _ & Hb & Hfn & Ha & Hn' & Hg & Hout' & Hpre & Hcpre & Hpost
          & Hcpost & _).
    exists body, tdb, gb, outb, tdf, gf, outf, td', g_next, outa.
    exists pre, post, ran_pre, ran_post.
    repeat split; assumption.
Qed.

End Hooks.

(** ** A second run *)

Section StateFree.

Context {G D : Type} `{Descriptor D}.


End StateFree.

Section Again.

Context {G : Type}.

Implicit Types (td : __ut_test_desc G) (sd : __ut_test_suite_desc G) (g : G).











End Again.


(** ** The outcome of the numeric equality assertions *)

Section TypedOutcome.

Context {D : Type} `{Descriptor D}.

(** X11.  [UT_DECIMAL_EQUALS] on two values of an [int], and
    [UT_UNSIGNED_HEXADECIMAL_EQUALS] on two values of an [unsigned int],
    given by expressions without side effects: when the text stays inside
    the buffer, the assertion counts one more assertion performed; with
    equal values it counts one more success, hands the
    successful-assertion observer the text and lets the function go on,
    and with different values it hands the failed-assertion observer the
    text and ends the function.  In both cases the text is whole: the
    message, then the expected value, then the actual one, each in the
    conversion of the macro ([%d] for the first, [%X] for the second). *)
Theorem numeric_equality_outcome size self actual expected m (d : D) c d' out :
  (INT_MIN <= actual <= INT_MAX ->
   INT_MIN <= expected <= INT_MAX ->
   UT_DECIMAL_EQUALS size self actual expected m d = Some (c, d', out) ->
   let text :=
     (c_str m ++ " (status equality check failed: expected "
      ++ conv_d expected ++ ", got " ++ conv_d actual ++ ")")%string in
   performed_count d' = uint_succ (performed_count d)
   /\ (actual = expected ->
       c = Continue /\ successed_count d' = uint_succ (successed_count d)
       /\ out = [UT_ON_SUCCESSFUL_ASSERT self text])
   /\ (actual <> expected ->
       c = Return /\ successed_count d' = successed_count d
       /\ out = [UT_ON_FAILED_ASSERT self text]))
  /\ (0 <= actual <= UINT_MAX ->
      0 <= expected <= UINT_MAX ->
      UT_UNSIGNED_HEXADECIMAL_EQUALS size self actual expected m d
      = Some (c, d', out) ->
      let text :=
        (c_str m ++ " (status equality check failed: expected "
         ++ conv_X expected ++ ", got " ++ conv_X actual ++ ")")%string in
      performed_count d' = uint_succ (performed_count d)
      /\ (actual = expected ->
          c = Continue /\ successed_count d' = uint_succ (successed_count d)
          /\ out = [UT_ON_SUCCESSFUL_ASSERT self text])
      /\ (actual <> expected ->
          c = Return /\ successed_count d' = successed_count d
          /\ out = [UT_ON_FAILED_ASSERT self text])).
Proof.
  split; intros _ _ Hrun.
  - unfold UT_DECIMAL_EQUALS, sprintf in Hrun.
    destruct (Z.of_nat _ <? size); [|discriminate].
    rewrite equality_text_no_null in Hrun by apply conv_d_no_null.
    inversion Hrun as [Hassert]. apply UT_ASSERT_outcome in Hassert.
    destruct Hassert as (Hp & Ht & Hf). cbv zeta.
    split; [exact Hp|]. split; intros Heq.
    + apply Ht. apply Z.eqb_eq. auto.
    + apply Hf. apply Z.eqb_neq. auto.
  - unfold UT_UNSIGNED_HEXADECIMAL_EQUALS, sprintf in Hrun.
    destruct (Z.of_nat _ <? size); [|discriminate].
    rewrite equality_text_no_null in Hrun by apply conv_X_no_null.
    inversion Hrun as [Hassert]. apply UT_ASSERT_outcome in Hassert.
    destruct Hassert as (Hp & Ht & Hf). cbv zeta.
    split; [exact Hp|]. split; intros Heq.
    + apply Ht. apply Z.eqb_eq. auto.
    + apply Hf. apply Z.eqb_neq. auto.
Qed.

End TypedOutcome.

(** ** The theorems at the sample suites with a state *)

Lemma tracked_well_formed : well_formed tracked.
Proof. split; [reflexivity|]. vm_compute. discriminate. Qed.

Lemma skipping_well_formed : well_formed skipping.
Proof. split; [reflexivity|]. vm_compute. discriminate. Qed.


(** In [tracked] the one test fails in its function, after [1] and [4]
    were added and before [8] is: the one execution of [after_each] adds
    its [2], and [teardown] is called in the state [7]. *)
Lemma after_each_once_per_attempted_test_witness :
  well_formed tracked
  /\ exists v sd' g' out sd_0 td_0 g_0 tdf gf td' outa,
       __ut_run_test_suite tracked 0%nat = Some (v, sd', g', out)
       /\ at_test tracked 0%nat 0 = Some (sd_0, td_0, g_0)
       /\ call (TestDesc 0) (after_each tracked) tdf gf = (td', 7%nat, outa)
       /\ nth_error (test_descs sd') 0 = Some td'
       /\ after_turn tracked 0%nat 0 = Some 7%nat
       /\ count_calls (AfterEach 0) out = 1%nat.
Proof.
  split; [exact tracked_well_formed|].
  destruct (after_each_once_per_attempted_test tracked 0%nat tracked_well_formed)
    as (v & sd' & g' & out & Hrun & _ & _ & Hall & Hturn).
  assert (Hpass : startup_passes tracked 0%nat = true) by reflexivity.
  assert (Hk : (0 < length (declared (test_descs tracked)))%nat)
    by (vm_compute; lia).
  destruct (Hall Hpass 0%nat Hk) as (sd_0 & td_0 & g_0 & Hat & _).
  destruct (Hturn _ _ _ _ Hat)
    as (tdb & gb & outb & tdf & gf & td' & g_next & outa & pre & post
        & _ & _ & _ & Ha & Hn & Hg & _ & Hc).
  assert (Hafter : after_turn tracked 0%nat 0 = Some 7%nat)
    by (vm_compute; reflexivity).
  rewrite Hafter in Hg. injection Hg as <-.
  exists v, sd', g', out, sd_0, td_0, g_0, tdf, gf, td', outa.
  repeat split; assumption.
Defined.

(** In [skipping] the function [before_each] fails after adding its [1]:
    the test's function, which would add [4], is not executed, and
    [after_each] is executed in the state [1] and leaves [3]. *)
Lemma func_called_unless_before_each_fails_witness :
  well_formed skipping
  /\ exists v sd' g' out sd_0 td_0 tdb outb td' outa,
       __ut_run_test_suite skipping 0%nat = Some (v, sd', g', out)
       /\ at_test skipping 0%nat 0 = Some (sd_0, td_0, 0%nat)
       /\ call (TestDesc 0) (before_each skipping) (start_test td_0) 0%nat
          = (tdb, 1%nat, outb)
       /\ performed_count tdb <> successed_count tdb
       /\ count_calls (TestFunc 0) out = 0%nat
       /\ call (TestDesc 0) (after_each skipping) tdb 1%nat = (td', 3%nat, outa)
       /\ nth_error (test_descs sd') 0 = Some td'
       /\ after_turn skipping 0%nat 0 = Some 3%nat.
Proof.
  split; [exact skipping_well_formed|].
  destruct (func_called_unless_before_each_fails skipping 0%nat
              skipping_well_formed)
    as (v & sd' & g' & out & Hrun & _ & Hturn).
  pose (td_0 := UT_ADD_TEST "first" "skipped" "t.c" 7
                  [Exec (Nat.add 4); Assert (fun _ : nat => true) "unreached"]).
  assert (Hat : at_test skipping 0%nat 0
                = Some (start_suite skipping, td_0, 0%nat)) by reflexivity.
  eassert (Hb : call (TestDesc 0) (before_each skipping) (start_test td_0) 0%nat
                = (_, 1%nat, _)) by reflexivity.
  destruct (Hturn 0%nat _ _ _ _ _ _ Hat Hb)
    as (td' & g_next & outa & pre & post & Hn & Hg & Hfail & _).
  assert (Hne : 1 <> 0) by discriminate.
  destruct (Hfail Hne) as (Hc & Ha & _).
  assert (Hafter : after_turn skipping 0%nat 0 = Some 3%nat) by reflexivity.
  rewrite Hafter in Hg. injection Hg as <-.
  exists v, sd', g', out. eexists _, td_0, _, _. exists td', outa.
  split; [exact Hrun|]. split; [exact Hat|]. split; [exact Hb|].
  split; [exact Hne|]. split; [exact Hc|]. split; [exact Ha|].
  split; [exact Hn|exact Hafter].
Defined.


(** The calls of [skipping]: [startup], [before_each] and [after_each] for
    its one test, and [teardown], which is executed in the state [3] the
    loop is left in. *)
Lemma calls_in_order_witness :
  exists v sd' g' out sd2 out3,
    __ut_run_test_suite skipping 0%nat = Some (v, sd', g', out)
    /\ startup_passes skipping 0%nat = true
    /\ at_teardown skipping 0%nat = Some (sd2, 3%nat)
    /\ call SuiteDesc (teardown skipping) sd2 3%nat = (sd', g', out3)
    /\ calls out = [Startup; BeforeEach 0; AfterEach 0; Teardown].
Proof.
  eassert (Hrun : __ut_run_test_suite skipping 0%nat = Some (_, _, _, _))
    by reflexivity.
  assert (Hpass : startup_passes skipping 0%nat = true) by reflexivity.
  destruct (calls_in_order _ _ _ _ _ _ Hrun) as (sd1 & g1 & o1 & _ & _ & Hpassed).
  destruct (Hpassed Hpass)
    as ((sd2 & g2 & out2 & out3 & ran & Htd & Hc3 & _ & _ & _) & _).
  eassert (Htd0 : at_teardown skipping 0%nat = Some (_, 3%nat)) by reflexivity.
  rewrite Htd0 in Htd. injection Htd as <- <-.
  eexists _, _, _, _, _, out3.
  split; [exact Hrun|]. split; [exact Hpass|]. split; [exact Htd0|].
  split; [exact Hc3|]. reflexivity.
Defined.

(** [UT_DECIMAL_EQUALS] on [3] and [4] in a buffer of [80] characters. *)
Lemma numeric_equality_outcome_witness :
  exists c d' out,
    UT_DECIMAL_EQUALS 80 (TestDesc 0) 3 4 "count" fresh_test = Some (c, d', out)
    /\ INT_MIN <= 3 <= INT_MAX
    /\ INT_MIN <= 4 <= INT_MAX
    /\ 3 <> 4
    /\ c = Return
    /\ performed_count d' = 1
    /\ successed_count d' = 0.
Proof.
  eassert (Hrun : UT_DECIMAL_EQUALS 80 (TestDesc 0) 3 4 "count" fresh_test
                  = Some (_, _, _)) by (vm_compute; reflexivity).
  assert (H3 : INT_MIN <= 3 <= INT_MAX) by (unfold INT_MIN, INT_MAX; lia).
  assert (H4 : INT_MIN <= 4 <= INT_MAX) by (unfold INT_MIN, INT_MAX; lia).
  assert (Hne : 3 <> 4) by discriminate.
  destruct (proj1 (numeric_equality_outcome 80 (TestDesc 0) 3 4 "count"
                     fresh_test _ _ _) H3 H4 Hrun)
    as (Hp & _ & Hf).
  destruct (Hf Hne) as (Hc & Hs & _).
  eexists _, _, _. split; [exact Hrun|].
  split; [exact H3|]. split; [exact H4|]. split; [exact Hne|].
  split; [exact Hc|]. split; [exact Hp | exact Hs].
Defined.
